(** * aplane: remote signing client, group assembler and swap tools

    A shallow embedding of the Python sources

      - [sdk/python/aplane/signer.py]   (group assembler, signing client)
      - [examples/atomicswap/box_exchange.py] (on-chain exchange store)
      - [examples/atomicswap/tools.py]  (atomic-swap session operations)
      - [examples/htlc/tools.py]        (HTLC session operations)

    Conventions.  Python [str] and [bytes] values are [string] and
    [list byte]; a Python [int] is a [Z]; a [dict] is an association list
    in insertion order; a function that may raise returns a sum whose
    left side is the exception.  A polling loop runs over the list of
    the indexer's answers, one for each turn that starts before the
    deadline.  Calls that leave the process (the indexer, the ledger
    node, the remote signer) and the decoders and digests of the Python
    standard library and of the ledger SDK are parameters of the
    sections below, so a statement about them holds for whatever they
    answer; [json.dumps], [bytes.hex] and base64 encoding are written
    out.  The modules named [...Ref] give reference versions of the
    parameters, checked on test vectors, for running the models. *)

From Stdlib Require Import List String Ascii ZArith NArith Lia Bool Arith.
From Stdlib.Strings Require Import Byte.
From Stdlib Require Import DecimalString DecimalZ Permutation Sorted.
Import ListNotations.

Local Open Scope list_scope.
Local Open Scope string_scope.

Set Implicit Arguments.
Set Warnings "-register-all".

Definition bytes := list byte.

(** [str(n)] for a non-negative Python [int] and for any [int]. *)
Definition str_nat (n : nat) : string := NilEmpty.string_of_uint (Nat.to_uint n).
Definition str_Z (z : Z) : string := NilEmpty.string_of_int (Z.to_int z).

(** Splitting a message after a decimal number: [drop_digits] removes
    the leading decimal digits of a string. *)
Definition is_digit (c : ascii) : bool :=
  let n := nat_of_ascii c in ((48 <=? n)%nat && (n <=? 57)%nat)%bool.

Fixpoint drop_digits (s : string) : string :=
  match s with
  | EmptyString => EmptyString
  | String c s' => if is_digit c then drop_digits s' else s
  end.

(** ** Exceptions and the error monad *)

Module Exc.

(** The exception classes the modelled code raises or lets escape. *)
Inductive exn : Type :=
| ValueError (msg : string)
| TypeError (msg : string)
| KeyError (key : string)
| IndexError
| SignerError (msg : string)
| AuthenticationError (msg : string)
| SigningRejectedError (msg : string)
| SignerUnavailableError (msg : string)
| KeyNotFoundError (msg : string)
| LedgerError (msg : string).

Definition bind {A B} (m : exn + A) (f : A -> exn + B) : exn + B :=
  match m with
  | inl e => inl e
  | inr a => f a
  end.

Definition raise {A} (e : exn) : exn + A := inl e.

(** [is_SignerError e]: [e] is an instance of [SignerError] (the class
    or one of its subclasses in signer.py). *)
Definition is_SignerError (e : exn) : bool :=
  match e with
  | SignerError _ | AuthenticationError _ | SigningRejectedError _
  | SignerUnavailableError _ | KeyNotFoundError _ => true
  | _ => false
  end.

End Exc.
Import Exc.

Notation "x <- m ;; k" := (Exc.bind m (fun x => k))
  (at level 61, m at next level, right associativity).

(** Traverse a list with a function that may raise; the first exception
    wins, as in a Python generator consumed by [join]. *)
Fixpoint mapM {A B} (f : A -> exn + B) (l : list A) : exn + list B :=
  match l with
  | [] => inr []
  | a :: l' =>
      b <- f a ;;
      bs <- mapM f l' ;;
      inr (b :: bs)
  end.

(** ** Reference base64 (RFC 4648, canonical padded form)

    Used to run the models on concrete inputs; the statements below are
    about any decoder and encoder. *)

Module Base64Ref.

Definition alphabet : list ascii :=
  list_ascii_of_string
    "ABCDEFGHIJKLMNOPQRSTUVWXYZabcdefghijklmnopqrstuvwxyz0123456789+/".

Definition sextet_char (n : N) : ascii := nth (N.to_nat n) alphabet "A"%char.

Fixpoint index_of (c : ascii) (l : list ascii) (i : N) : option N :=
  match l with
  | [] => None
  | x :: l' => if Ascii.eqb x c then Some i else index_of c l' (N.succ i)
  end.

Definition char_sextet (c : ascii) : option N := index_of c alphabet 0%N.

Definition byte_of (n : N) : byte :=
  match Byte.of_N (n mod 256) with
  | Some b => b
  | None => x00
  end.

Fixpoint encode_chars (data : bytes) : list ascii :=
  match data with
  | [] => []
  | [a] =>
      let a := Byte.to_N a in
      [sextet_char (N.shiftr a 2); sextet_char (N.shiftl (N.land a 3) 4);
       "="%char; "="%char]
  | [a; b] =>
      let a := Byte.to_N a in
      let b := Byte.to_N b in
      [sextet_char (N.shiftr a 2);
       sextet_char (N.lor (N.shiftl (N.land a 3) 4) (N.shiftr b 4));
       sextet_char (N.shiftl (N.land b 15) 2); "="%char]
  | a :: b :: c :: rest =>
      let a := Byte.to_N a in
      let b := Byte.to_N b in
      let c := Byte.to_N c in
      sextet_char (N.shiftr a 2)
      :: sextet_char (N.lor (N.shiftl (N.land a 3) 4) (N.shiftr b 4))
      :: sextet_char (N.lor (N.shiftl (N.land b 15) 2) (N.shiftr c 6))
      :: sextet_char (N.land c 63)
      :: encode_chars rest
  end.

Definition b64encode (data : bytes) : string :=
  string_of_list_ascii (encode_chars data).

Definition bad : exn := ValueError "Incorrect padding".

Fixpoint decode_chars (fuel : nat) (l : list ascii) : exn + bytes :=
  match fuel with
  | O => match l with [] => inr [] | _ => inl bad end
  | S fuel' =>
      match l with
      | [] => inr []
      | c1 :: c2 :: c3 :: c4 :: rest =>
          match char_sextet c1, char_sextet c2 with
          | Some s1, Some s2 =>
              let b1 := byte_of (N.lor (N.shiftl s1 2) (N.shiftr s2 4)) in
              match char_sextet c3, char_sextet c4 with
              | Some s3, Some s4 =>
                  tl <- decode_chars fuel' rest ;;
                  inr (b1
                       :: byte_of (N.lor (N.shiftl (N.land s2 15) 4) (N.shiftr s3 2))
                       :: byte_of (N.lor (N.shiftl (N.land s3 3) 6) s4)
                       :: tl)
              | Some s3, None =>
                  if (Ascii.eqb c4 "=" && match rest with [] => true | _ => false end)%bool
                  then inr [b1; byte_of (N.lor (N.shiftl (N.land s2 15) 4) (N.shiftr s3 2))]
                  else inl bad
              | None, _ =>
                  if (Ascii.eqb c3 "=" && Ascii.eqb c4 "="
                      && match rest with [] => true | _ => false end)%bool
                  then inr [b1]
                  else inl bad
              end
          | _, _ => inl bad
          end
      | _ => inl bad
      end
  end.

Definition b64decode (s : string) : exn + bytes :=
  decode_chars (String.length s) (list_ascii_of_string s).

End Base64Ref.


(** ** Reference hexadecimal codec ([bytes.hex] and [bytes.fromhex] on
    strings of hex digit pairs) *)

Module HexRef.

Definition digit (n : N) : ascii :=
  nth (N.to_nat n) (list_ascii_of_string "0123456789abcdef") "0"%char.

Definition value (c : ascii) : option N :=
  let n := N_of_ascii c in
  if ((48 <=? n) && (n <=? 57))%N%bool then Some (n - 48)%N
  else if ((97 <=? n) && (n <=? 102))%N%bool then Some (n - 87)%N
  else if ((65 <=? n) && (n <=? 70))%N%bool then Some (n - 55)%N
  else None.

Fixpoint hex (data : bytes) : string :=
  match data with
  | [] => EmptyString
  | b :: rest =>
      let n := Byte.to_N b in
      String (digit (N.shiftr n 4)) (String (digit (N.land n 15)) (hex rest))
  end.

Definition bad : exn := ValueError "non-hexadecimal number found in fromhex() arg".

Fixpoint fromhex_chars (fuel : nat) (l : list ascii) : exn + bytes :=
  match fuel with
  | O => match l with [] => inr [] | _ => inl bad end
  | S fuel' =>
      match l with
      | [] => inr []
      | c1 :: c2 :: rest =>
          match value c1, value c2 with
          | Some h, Some l =>
              tl <- fromhex_chars fuel' rest ;;
              inr (Base64Ref.byte_of (16 * h + l)%N :: tl)
          | _, _ => inl bad
          end
      | _ => inl bad
      end
  end.

Definition fromhex (s : string) : exn + bytes :=
  fromhex_chars (String.length s) (list_ascii_of_string s).

(** The strings of at most [n] hexadecimal digits. *)
Definition hexchars : list ascii := list_ascii_of_string "0123456789abcdef".

Fixpoint words_upto (n : nat) : list string :=
  match n with
  | O => [EmptyString]
  | S n' => EmptyString :: flat_map (fun c => map (String c) (words_upto n')) hexchars
  end.

Fixpoint all_hex (s : string) : Prop :=
  match s with
  | EmptyString => True
  | String c s' => In c hexchars /\ all_hex s'
  end.

Definition fromhex_opt (s : string) : option bytes :=
  match fromhex s with
  | inr data => Some data
  | inl _ => None
  end.

End HexRef.

(** ** Reference SHA-256 (FIPS 180-4) *)

Module Sha256Ref.

Local Open Scope N_scope.

Definition mask32 : N := 4294967295.

Definition add32 (a b : N) : N := N.land (a + b) mask32.

Definition rotr (n x : N) : N :=
  N.lor (N.shiftr x n) (N.land (N.shiftl x (32 - n)) mask32).

Definition not32 (x : N) : N := N.lxor x mask32.

Definition Ch (x y z : N) : N := N.lxor (N.land x y) (N.land (not32 x) z).
Definition Maj (x y z : N) : N :=
  N.lxor (N.lxor (N.land x y) (N.land x z)) (N.land y z).
Definition Sigma0 (x : N) : N := N.lxor (N.lxor (rotr 2 x) (rotr 13 x)) (rotr 22 x).
Definition Sigma1 (x : N) : N := N.lxor (N.lxor (rotr 6 x) (rotr 11 x)) (rotr 25 x).
Definition sigma0 (x : N) : N := N.lxor (N.lxor (rotr 7 x) (rotr 18 x)) (N.shiftr x 3).
Definition sigma1 (x : N) : N := N.lxor (N.lxor (rotr 17 x) (rotr 19 x)) (N.shiftr x 10).

Definition K : list N :=
  [1116352408; 1899447441; 3049323471; 3921009573; 961987163; 1508970993;
   2453635748; 2870763221; 3624381080; 310598401; 607225278; 1426881987;
   1925078388; 2162078206; 2614888103; 3248222580; 3835390401; 4022224774;
   264347078; 604807628; 770255983; 1249150122; 1555081692; 1996064986;
   2554220882; 2821834349; 2952996808; 3210313671; 3336571891; 3584528711;
   113926993; 338241895; 666307205; 773529912; 1294757372; 1396182291;
   1695183700; 1986661051; 2177026350; 2456956037; 2730485921; 2820302411;
   3259730800; 3345764771; 3516065817; 3600352804; 4094571909; 275423344;
   430227734; 506948616; 659060556; 883997877; 958139571; 1322822218;
   1537002063; 1747873779; 1955562222; 2024104815; 2227730452; 2361852424;
   2428436474; 2756734187; 3204031479; 3329325298].

Definition H0 : list N :=
  [1779033703; 3144134277; 1013904242; 2773480762; 1359893119; 2600822924;
   528734635; 1541459225].

(** The message followed by the byte 128, zero bytes up to 56 modulo
    64, and the bit length on eight bytes. *)
Definition pad (msg : list N) : list N :=
  let len := List.length msg in
  let zeros := ((64 - ((len + 9) mod 64)) mod 64)%nat in
  let bits := 8 * N.of_nat len in
  (msg ++ 128 :: repeat 0 zeros
       ++ map (fun i => N.land (N.shiftr bits (8 * i)) 255) [7; 6; 5; 4; 3; 2; 1; 0])%list.

(** Big-endian 32-bit words. *)
Fixpoint words (fuel : nat) (l : list N) : list N :=
  match fuel, l with
  | S fuel', a :: b :: c :: d :: rest =>
      (N.shiftl a 24 + N.shiftl b 16 + N.shiftl c 8 + d) :: words fuel' rest
  | _, _ => []
  end.

(** The message schedule, newest word first. *)
Fixpoint schedule (n : nat) (rev_w : list N) : list N :=
  match n with
  | O => rev_w
  | S n' =>
      let w := add32 (add32 (sigma1 (nth 1 rev_w 0)) (nth 6 rev_w 0))
                     (add32 (sigma0 (nth 14 rev_w 0)) (nth 15 rev_w 0)) in
      schedule n' (w :: rev_w)
  end.

Definition round (st : list N) (kw : N * N) : list N :=
  match st with
  | [a; b; c; d; e; f; g; h] =>
      let t1 := add32 (add32 (add32 h (Sigma1 e)) (add32 (Ch e f g) (fst kw))) (snd kw) in
      let t2 := add32 (Sigma0 a) (Maj a b c) in
      [add32 t1 t2; a; b; c; add32 d t1; e; f; g]
  | _ => st
  end.

Definition compress (h : list N) (block : list N) : list N :=
  let w := rev (schedule 48 (rev block)) in
  let st := fold_left round (combine K w) h in
  map (fun p => add32 (fst p) (snd p)) (combine h st).

Fixpoint blocks (fuel : nat) (h : list N) (ws : list N) : list N :=
  match fuel, ws with
  | S fuel', _ :: _ => blocks fuel' (compress h (firstn 16 ws)) (skipn 16 ws)
  | _, _ => h
  end.

Definition word_bytes (w : N) : list N :=
  map (fun i => N.land (N.shiftr w (8 * i)) 255) [3; 2; 1; 0].

Definition sha256 (data : bytes) : bytes :=
  let padded := pad (map Byte.to_N data) in
  let ws := words (List.length padded) padded in
  map Base64Ref.byte_of (flat_map word_bytes (blocks (List.length ws) H0 ws)).

Definition hexdigest (data : bytes) : string := HexRef.hex (sha256 data).

End Sha256Ref.

(** ** Reference zlib stream for short inputs

    The zlib container (RFC 1950) around one final deflate block with
    the fixed Huffman code (RFC 1951) and literals only, closed by the
    Adler-32 checksum.  This is the stream [zlib.compress] emits for the
    empty input and for short inputs without repetitions. *)

Module ZlibRef.

Definition MOD_ADLER : N := 65521.

Fixpoint adler_loop (data : bytes) (a b : N) : N * N :=
  match data with
  | [] => (a, b)
  | x :: rest =>
      let a' := ((a + Byte.to_N x) mod MOD_ADLER)%N in
      adler_loop rest a' ((b + a') mod MOD_ADLER)%N
  end.

Definition adler32 (data : bytes) : bytes :=
  let '(a, b) := adler_loop data 1%N 0%N in
  map Base64Ref.byte_of [N.shiftr b 8; b; N.shiftr a 8; a].

(** The [width] low bits of [v], most significant first. *)
Fixpoint bits_msb (width : nat) (v : N) : list bool :=
  match width with
  | O => []
  | S w => N.testbit v (N.of_nat w) :: bits_msb w v
  end.

Definition literal_code (x : byte) : list bool :=
  let n := Byte.to_N x in
  if (n <? 144)%N then bits_msb 8 (48 + n)%N else bits_msb 9 (400 + (n - 144))%N.

Definition end_of_block : list bool := bits_msb 7 0%N.

Definition block_bits (data : bytes) : list bool :=
  ([true; true; false] ++ flat_map literal_code data ++ end_of_block)%list.

(** Eight bits, least significant first, as a byte. *)
Definition byte_of_bits (bits : list bool) : byte :=
  Base64Ref.byte_of
    (fold_right (fun (bit : bool) acc => (N.b2n bit + 2 * acc)%N) 0%N bits).

Fixpoint pack (fuel : nat) (bits : list bool) : bytes :=
  match fuel, bits with
  | S fuel', _ :: _ => byte_of_bits (firstn 8 bits) :: pack fuel' (skipn 8 bits)
  | _, _ => []
  end.

Definition compress (data : bytes) : bytes :=
  let bits := block_bits data in
  ([x78; x9c] ++ pack (List.length bits) bits ++ adler32 data)%list.

End ZlibRef.

(** ** Python values: JSON documents, dicts, [int()], [json.dumps] *)

Module Py.

(** A decoded JSON document.  Numbers are the integers; a dict keeps
    its items in insertion order. *)
Inductive JVal : Type :=
| JNull
| JBool (b : bool)
| JInt (z : Z)
| JStr (s : string)
| JList (l : list JVal)
| JObj (items : list (string * JVal)).

Definition dict := list (string * JVal).

(** [d.get(k)] *)
Fixpoint get (k : string) (d : dict) : option JVal :=
  match d with
  | [] => None
  | (k', v) :: d' => if String.eqb k k' then Some v else get k d'
  end.

(** [d.get(k, default)] *)
Definition get_default (k : string) (d : dict) (default : JVal) : JVal :=
  match get k d with Some v => v | None => default end.

(** [d[k] = v]: an existing key keeps its place, a new key goes last. *)
Fixpoint set (k : string) (v : JVal) (d : dict) : dict :=
  match d with
  | [] => [(k, v)]
  | (k', v') :: d' => if String.eqb k k' then (k', v) :: d' else (k', v') :: set k v d'
  end.

Definition keys (d : dict) : list string := map fst d.

(** Truth value of an object in a condition. *)
Definition truthy (v : JVal) : bool :=
  match v with
  | JNull => false
  | JBool b => b
  | JInt z => negb (z =? 0)%Z
  | JStr s => negb (s =? "")
  | JList l => match l with [] => false | _ => true end
  | JObj d => match d with [] => false | _ => true end
  end.

Section Int.

(** [int(s)] for a [str]: the parsed integer, or the [ValueError]. *)
Variable int_of_str : string -> option Z.

(** [int(v)] *)
Definition int (v : JVal) : exn + Z :=
  match v with
  | JInt z => inr z
  | JBool b => inr (if b then 1 else 0)%Z
  | JStr s =>
      match int_of_str s with
      | Some z => inr z
      | None => raise (ValueError "invalid literal for int() with base 10")
      end
  | JNull | JList _ | JObj _ =>
      raise (TypeError "int() argument must be a string, a bytes-like object or a real number")
  end.

End Int.

(** [len(v)] *)
Definition len (v : JVal) : exn + nat :=
  match v with
  | JStr s => inr (String.length s)
  | JList l => inr (List.length l)
  | JObj d => inr (List.length d)
  | _ => raise (TypeError "object has no len()")
  end.

(** *** [json.dumps(obj, separators=(",", ":"))], with or without
    [sort_keys=True]; [ensure_ascii] is on, as by default. *)

(** The double-quote character. *)
Definition dq : ascii := "034"%char.

Definition hex_digit (n : nat) : ascii :=
  nth n (list_ascii_of_string "0123456789abcdef") "0"%char.

(** One character inside a string literal. *)
Definition escape_char (c : ascii) : string :=
  let n := nat_of_ascii c in
  if Nat.eqb n 34 then "\" ++ String c ""
  else if Nat.eqb n 92 then "\\"
  else if Nat.eqb n 10 then "\n"
  else if Nat.eqb n 13 then "\r"
  else if Nat.eqb n 9 then "\t"
  else if Nat.eqb n 12 then "\f"
  else if Nat.eqb n 8 then "\b"
  else if ((32 <=? n)%nat && (n <=? 126)%nat)%bool then String c ""
  else "\u00" ++ String (hex_digit (n / 16)) (String (hex_digit (n mod 16)) "").

(** The character that a string literal's body starts with, and the
    rest: the inverse of [escape_char] at the head of a string, [None]
    at the closing quote. *)
Definition unescape_head (s : string) : option (ascii * string) :=
  match s with
  | EmptyString => None
  | String c rest =>
      if Ascii.eqb c dq then None
      else if Ascii.eqb c "\" then
        match rest with
        | String e rest' =>
            if Ascii.eqb e "u" then
              match rest' with
              | String _ (String _ (String h (String l rest''))) =>
                  match HexRef.value h, HexRef.value l with
                  | Some a, Some b => Some (ascii_of_N (16 * a + b), rest'')
                  | _, _ => None
                  end
              | _ => None
              end
            else if Ascii.eqb e "n" then Some ("010"%char, rest')
            else if Ascii.eqb e "r" then Some ("013"%char, rest')
            else if Ascii.eqb e "t" then Some ("009"%char, rest')
            else if Ascii.eqb e "f" then Some ("012"%char, rest')
            else if Ascii.eqb e "b" then Some ("008"%char, rest')
            else Some (e, rest')
        | EmptyString => None
        end
      else Some (c, rest)
  end.

Fixpoint escape (s : string) : string :=
  match s with
  | EmptyString => EmptyString
  | String c s' => escape_char c ++ escape s'
  end.

Definition quote (s : string) : string :=
  String dq (escape s ++ String dq "").

Fixpoint join (sep : string) (l : list string) : string :=
  match l with
  | [] => ""
  | [x] => x
  | x :: l' => x ++ sep ++ join sep l'
  end.

(** Insertion sort of rendered items by key, as [sort_keys] orders a
    dict's items by key. *)
Fixpoint insert_by_key (kv : string * string) (l : list (string * string))
  : list (string * string) :=
  match l with
  | [] => [kv]
  | kv' :: l' =>
      if String.leb (fst kv) (fst kv') then kv :: kv' :: l'
      else kv' :: insert_by_key kv l'
  end.

Fixpoint sort_by_key (l : list (string * string)) : list (string * string) :=
  match l with
  | [] => []
  | kv :: l' => insert_by_key kv (sort_by_key l')
  end.

(** The order of two rendered items by their keys. *)
Definition key_le (a b : string * string) : Prop := String.leb (fst a) (fst b) = true.

Definition render_items (sort_keys : bool) (rendered : list (string * string)) : string :=
  "{" ++ join "," (map (fun kv => quote (fst kv) ++ ":" ++ snd kv)
                     (if sort_keys then sort_by_key rendered else rendered))
      ++ "}".

Fixpoint dumps (sort_keys : bool) (v : JVal) : string :=
  match v with
  | JNull => "null"
  | JBool true => "true"
  | JBool false => "false"
  | JInt z => str_Z z
  | JStr s => quote s
  | JList l =>
      "[" ++ join "," ((fix each (l : list JVal) : list string :=
                          match l with
                          | [] => []
                          | x :: l' => dumps sort_keys x :: each l'
                          end) l)
          ++ "]"
  | JObj items =>
      render_items sort_keys
        ((fix each (d : list (string * JVal)) : list (string * string) :=
            match d with
            | [] => []
            | (k, x) :: d' => (k, dumps sort_keys x) :: each d'
            end) items)
  end.

(** The text every serialized object with first key ["type"] starts with. *)
Definition type_first : string := "{" ++ quote "type" ++ ":".

(** [s.encode("utf-8")] on a string of ASCII characters, which is
    what [dumps] produces. *)
Definition encode (s : string) : bytes :=
  map byte_of_ascii (list_ascii_of_string s).

End Py.

(** ** sdk/python/aplane/signer.py *)

Module Signer.

(** Truthiness of a Python [str]. *)
Definition truthy (s : string) : bool := negb (s =? "").

Section Assemble.

(** [base64.b64decode] and [base64.b64encode] followed by [.decode()]. *)
Variable b64decode : string -> exn + bytes.
Variable b64encode : bytes -> string.

(** [for i, sl in enumerate(signed_lists): if len(sl) != group_len: raise] *)
Fixpoint check_lengths (group_len : nat) (i : nat) (signed_lists : list (list string))
  : exn + unit :=
  match signed_lists with
  | [] => inr tt
  | sl :: rest =>
      if Nat.eqb (List.length sl) group_len
      then check_lengths group_len (S i) rest
      else raise (ValueError ("signed_lists[" ++ str_nat i ++ "] has "
                              ++ str_nat (List.length sl) ++ " entries, expected "
                              ++ str_nat group_len))
  end.

(** [[sl[idx] for sl in signed_lists if sl[idx]]]; every list has
    [group_len] entries when this runs, so [sl[idx]] is in range. *)
Definition entries_at (signed_lists : list (list string)) (idx : nat) : list string :=
  filter truthy (map (fun sl => nth idx sl "") signed_lists).

Definition missing_signer (idx : nat) : exn :=
  ValueError ("slot " ++ str_nat idx ++ ": no signer provided a signed transaction").
Definition conflicting_signer (idx : nat) : exn :=
  ValueError ("slot " ++ str_nat idx ++ ": multiple signers provided a signed transaction").

(** One turn of [for idx in range(group_len)]. *)
Definition resolve_slot (signed_lists : list (list string)) (idx : nat) : exn + string :=
  match entries_at signed_lists idx with
  | [] => raise (missing_signer idx)
  | [e] => inr e
  | _ :: _ :: _ => raise (conflicting_signer idx)
  end.

(** The exception of a slot that has no entry or several. *)
Definition slot_error (signed_lists : list (list string)) (idx : nat) : exn :=
  if Nat.eqb (List.length (entries_at signed_lists idx)) 0
  then missing_signer idx
  else conflicting_signer idx.

(** The loop that fills [merged]. *)
Definition merge_slots (signed_lists : list (list string)) (group_len : nat)
  : exn + list string :=
  mapM (resolve_slot signed_lists) (seq 0 group_len).

(** [b"".join(base64.b64decode(s) for s in l)] *)
Definition join_decoded (l : list string) : exn + bytes :=
  parts <- mapM b64decode l ;;
  inr (List.concat parts).

Definition assemble_group (signed_lists : list (list string)) : exn + string :=
  match signed_lists with
  | [] => raise (ValueError "signed_lists must not be empty")
  | first :: _ =>
      let group_len := List.length first in
      _ <- check_lengths group_len 0 signed_lists ;;
      merged <- merge_slots signed_lists group_len ;;
      all_bytes <- join_decoded merged ;;
      inr (b64encode all_bytes)
  end.

End Assemble.

(** *** The signing client: request body, reply handling, concatenation *)

(** ASCII lower-casing and substring search, for
    ["not found" in error.lower()]. *)
Definition lower_char (c : ascii) : ascii :=
  let n := nat_of_ascii c in
  if ((65 <=? n)%nat && (n <=? 90)%nat)%bool then ascii_of_nat (n + 32) else c.

Fixpoint lower (s : string) : string :=
  match s with
  | EmptyString => EmptyString
  | String c s' => String (lower_char c) (lower s')
  end.

Fixpoint contains (needle s : string) : bool :=
  if String.prefix needle s then true
  else match s with
       | EmptyString => false
       | String _ s' => contains needle s'
       end.

(** [text[:n]] *)
Fixpoint take (n : nat) (s : string) : string :=
  match n, s with
  | S n', String c s' => String c (take n' s')
  | _, _ => EmptyString
  end.

(** [d.get(k)] on a dict with integer keys. *)
Fixpoint lookupZ {V} (k : Z) (d : list (Z * V)) : option V :=
  match d with
  | [] => None
  | (k', v) :: d' => if Z.eqb k k' then Some v else lookupZ k d'
  end.

Fixpoint lookupS {V} (k : string) (d : list (string * V)) : option V :=
  match d with
  | [] => None
  | (k', v) :: d' => if String.eqb k k' then Some v else lookupS k d'
  end.

(** One entry of the ["requests"] array of the /sign and /plan body. *)
Inductive SignRequestEntry : Type :=
| ReqPassthrough (signed_txn_hex : string)
| ReqForeign (txn_bytes_hex : string) (lsig_size : option Z)
| ReqSign (txn_bytes_hex auth_address txn_sender : string)
          (lsig_args : option (list (string * string))).

(** The parsed JSON document of a reply: [data.get("error")] and
    [data.get("signed")], [None] when the key is absent. *)
Record ReplyData : Type := {
  d_error : option string;
  d_signed : option (list string)
}.

Definition empty_data : ReplyData := {| d_error := None; d_signed := None |}.

(** What [session.post] gives: a [requests.RequestException], or a
    response with its status code, its text and, when the text is
    valid JSON, the parsed document. *)
Inductive HttpReply : Type :=
| RequestException (e : string)
| Response (status_code : Z) (text : string) (json : option ReplyData).

Section Client.

(** The ledger SDK's transaction objects. *)
Variable Transaction : Type.
Variable encode_transaction : Transaction -> string * string.
Variable sender_of : Transaction -> string.

Variable b64decode : string -> exn + bytes.
Variable b64decode_validate : string -> exn + bytes.
Variable b64encode : bytes -> string.
Variable hex : bytes -> string.
Variable fromhex : string -> exn + bytes.

(** The remote signer behind [POST /sign]. *)
Variable post_sign : list SignRequestEntry -> HttpReply.

Definition index_in_range (idx : Z) (n : nat) : bool :=
  ((0 <=? idx)%Z && (idx <? Z.of_nat n)%Z)%bool.

Fixpoint validate_passthrough (n : nat) (passthrough : list (Z * string)) : exn + unit :=
  match passthrough with
  | [] => inr tt
  | (idx, _) :: rest =>
      if index_in_range idx n then validate_passthrough n rest
      else raise (ValueError ("passthrough index " ++ str_Z idx ++ " out of range for "
                              ++ str_nat n ++ " transactions"))
  end.

Fixpoint validate_lsig_sizes (n : nat) (lsig_sizes : list (Z * Z)) : exn + unit :=
  match lsig_sizes with
  | [] => inr tt
  | (idx, size) :: rest =>
      if negb (index_in_range idx n)
      then raise (ValueError ("lsig_sizes index " ++ str_Z idx ++ " out of range for "
                              ++ str_nat n ++ " transactions"))
      else if (size <? 0)%Z
      then raise (ValueError ("lsig_sizes[" ++ str_Z idx
                              ++ "] must be a non-negative integer, got " ++ str_Z size))
      else validate_lsig_sizes n rest
  end.

(** The body of the [for i, (txn, auth_addr) in enumerate(zip(...))] loop. *)
Definition build_entry
    (lsig_args_map : option (list (string * list (string * bytes))))
    (passthrough : option (list (Z * string)))
    (lsig_sizes : option (list (Z * Z)))
    (i : nat) (txn : option Transaction) (auth_addr : option string)
  : exn + SignRequestEntry :=
  match match passthrough with
        | Some p => lookupZ (Z.of_nat i) p
        | None => None
        end with
  | Some pre_signed =>
      match b64decode_validate pre_signed with
      | inr raw => inr (ReqPassthrough (hex raw))
      | inl _ => raise (ValueError ("invalid base64 in passthrough[" ++ str_nat i ++ "]"))
      end
  | None =>
      match auth_addr with
      | Some (String c a as addr) =>
          match txn with
          | None => raise (ValueError ("transaction is required for sign-mode entry at index "
                                       ++ str_nat i))
          | Some t =>
              let '(txn_bytes_hex, txn_sender) := encode_transaction t in
              inr (ReqSign txn_bytes_hex addr txn_sender
                     (match lsig_args_map with
                      | Some m =>
                          match lookupS addr m with
                          | Some args => Some (map (fun nv => (fst nv, hex (snd nv))) args)
                          | None => None
                          end
                      | None => None
                      end))
          end
      | _ =>
          match txn with
          | None => raise (ValueError ("transaction is required for foreign-mode entry at index "
                                       ++ str_nat i))
          | Some t =>
              inr (ReqForeign (fst (encode_transaction t))
                     (match lsig_sizes with
                      | Some m => lookupZ (Z.of_nat i) m
                      | None => None
                      end))
          end
      end
  end.

Fixpoint build_entries lsig_args_map passthrough lsig_sizes (i : nat)
    (pairs : list (option Transaction * option string)) : exn + list SignRequestEntry :=
  match pairs with
  | [] => inr []
  | (txn, auth_addr) :: rest =>
      e <- build_entry lsig_args_map passthrough lsig_sizes i txn auth_addr ;;
      es <- build_entries lsig_args_map passthrough lsig_sizes (S i) rest ;;
      inr (e :: es)
  end.

Definition _build_sign_request_body
    (txns : list (option Transaction)) (auth_addresses : list (option string))
    lsig_args_map (passthrough : option (list (Z * string)))
    (lsig_sizes : option (list (Z * Z))) : exn + list SignRequestEntry :=
  _ <- match passthrough with
       | Some ((_ :: _) as p) => validate_passthrough (List.length txns) p
       | _ => inr tt
       end ;;
  _ <- match lsig_sizes with
       | Some ((_ :: _) as m) => validate_lsig_sizes (List.length txns) m
       | _ => inr tt
       end ;;
  build_entries lsig_args_map
    (match passthrough with Some ((_ :: _) as p) => Some p | _ => None end)
    (match lsig_sizes with Some ((_ :: _) as m) => Some m | _ => None end)
    0 (combine txns auth_addresses).

(** [self._safe_json(resp)] *)
Definition _safe_json (text : string) (json : option ReplyData) : ReplyData :=
  match text with
  | EmptyString => empty_data
  | _ => match json with Some d => d | None => empty_data end
  end.

Definition get_error (d : ReplyData) (default : string) : string :=
  match d_error d with Some e => e | None => default end.

(** The hex-to-base64 loop at the end of [_sign_request]. *)
Definition convert_signed (h : string) : exn + string :=
  if h =? "" then inr ""
  else raw <- fromhex h ;; inr (b64encode raw).

Definition parse_sign_reply (reply : HttpReply) : exn + list string :=
  match reply with
  | RequestException e => raise (SignerUnavailableError ("Failed to connect: " ++ e))
  | Response status text json =>
      if (status =? 401)%Z then raise (AuthenticationError "Invalid or missing token")
      else if (status =? 400)%Z then
        let error := get_error (_safe_json text json) text in
        if contains "not found" (lower error) then raise (KeyNotFoundError error)
        else raise (SignerError ("Bad request: " ++ error))
      else if (status =? 403)%Z then
        raise (SigningRejectedError
                 (get_error (_safe_json text json) "Signing request rejected by operator"))
      else if (status =? 503)%Z then
        raise (SignerUnavailableError
                 (get_error (_safe_json text json) "Signer unavailable"))
      else if negb (status =? 200)%Z then
        raise (SignerError ("Signing failed: HTTP " ++ str_Z status))
      else
        match json with
        | None => raise (SignerError ("Server returned invalid JSON: " ++ take 200 text))
        | Some data =>
            match d_error data with
            | Some (String _ _ as e) => raise (SignerError e)
            | _ =>
                match d_signed data with
                | Some ((_ :: _) as signed_hexes) => mapM convert_signed signed_hexes
                | _ => raise (SignerError "Server returned no signed transactions")
                end
            end
        end
  end.

Definition _sign_request txns auth_addresses lsig_args_map passthrough lsig_sizes
  : exn + list string :=
  request_body <- _build_sign_request_body txns auth_addresses lsig_args_map
                    passthrough lsig_sizes ;;
  parse_sign_reply (post_sign request_body).

(** [[txn.sender if txn else None for txn in txns]] *)
Definition default_auth (txns : list (option Transaction)) : list (option string) :=
  map (fun txn => match txn with Some t => Some (sender_of t) | None => None end) txns.

Definition foreign_slots_message : string :=
  "sign_transactions() cannot produce a complete group when foreign "
  ++ "entries are present (some slots are unsigned). Use "
  ++ "sign_transactions_list() + assemble_group() instead.".

Definition sign_transactions
    (txns : list (option Transaction)) (auth_addresses : option (list (option string)))
    lsig_args_map passthrough lsig_sizes : exn + string :=
  let auth_addresses :=
    match auth_addresses with Some a => a | None => default_auth txns end in
  if negb (Nat.eqb (List.length auth_addresses) (List.length txns))
  then raise (ValueError "auth_addresses length must match txns length")
  else
    signed_list <- _sign_request txns auth_addresses lsig_args_map passthrough lsig_sizes ;;
    if existsb (fun s => s =? "") signed_list
    then raise (SignerError foreign_slots_message)
    else
      all_bytes <- join_decoded b64decode signed_list ;;
      inr (b64encode all_bytes).

Definition sign_transactions_list
    (txns : list (option Transaction)) (auth_addresses : option (list (option string)))
    lsig_args_map passthrough lsig_sizes : exn + list string :=
  let auth_addresses :=
    match auth_addresses with Some a => a | None => default_auth txns end in
  if negb (Nat.eqb (List.length auth_addresses) (List.length txns))
  then raise (ValueError "auth_addresses length must match txns length")
  else _sign_request txns auth_addresses lsig_args_map passthrough lsig_sizes.

End Client.

End Signer.

(** ** Ledger transactions and calls that leave the process *)

Module Ledger.

(** The transaction objects of the ledger SDK that the tools build or
    decode; [OtherTxn] is any other kind. *)
Inductive Txn : Type :=
| PaymentTxn (sender receiver : string) (amt : Z) (note : bytes)
    (close_remainder_to : option string)
| AssetTransferTxn (sender receiver : string) (amt index : Z)
    (close_assets_to : option string)
| ApplicationCallTxn (sender : string) (index : Z) (app_args : list bytes)
    (accounts : list string) (boxes : list (Z * bytes))
| OtherTxn (sender : string).

Definition sender (t : Txn) : string :=
  match t with
  | PaymentTxn s _ _ _ _ | AssetTransferTxn s _ _ _ _
  | ApplicationCallTxn s _ _ _ _ | OtherTxn s => s
  end.

(** [txn.receiver]; an [AttributeError] (a [TypeError] here) on a
    transaction that has none. *)
Definition receiver (t : Txn) : exn + string :=
  match t with
  | PaymentTxn _ r _ _ _ | AssetTransferTxn _ r _ _ _ => inr r
  | _ => raise (TypeError "object has no attribute receiver")
  end.

(** The calls a tool makes to the remote signer and to the ledger
    node, in the order it makes them. *)
Inductive Effect : Type :=
| SignTransaction (txn : Txn) (auth_address : option string)
    (lsig_args : option (list (string * bytes)))
| SignTransactions (txns : list Txn) (auth_addresses : list (option string))
| SignTransactionsList (txns : list Txn) (auth_addresses : list (option string))
| GenerateKey (key_type : string) (parameters : list (string * string))
| SendRawTransaction (signed : string)
| WaitForConfirmation (txid : string).

Definition is_signing (e : Effect) : bool :=
  match e with
  | SignTransaction _ _ _ | SignTransactions _ _ | SignTransactionsList _ _ => true
  | _ => false
  end.

Definition is_submission (e : Effect) : bool :=
  match e with
  | SendRawTransaction _ => true
  | _ => false
  end.

Definition is_key_generation (e : Effect) : bool :=
  match e with
  | GenerateKey _ _ => true
  | _ => false
  end.

(** What the services answer. *)
Record Services : Type := {
  sign_transaction :
    Txn -> option string -> option (list (string * bytes)) -> exn + string;
  sign_transactions : list Txn -> list (option string) -> exn + string;
  sign_transactions_list : list Txn -> list (option string) -> exn + list string;
  generate_key : string -> list (string * string) -> exn + string;
  send_raw_transaction : string -> exn + string;
  wait_for_confirmation : string -> exn + unit;
  suggested_params : exn + unit;
  application_box_by_name : Z -> bytes -> exn + string;
  get_application_address : Z -> string
}.

(** [signed = signer.sign_transaction(txn, ...); txid =
    aplane.send_raw_transaction(algod_client, signed);
    transaction.wait_for_confirmation(algod_client, txid, 4)] with the
    calls it made. *)
Definition sign_send_confirm (svc : Services) (txn : Txn) (auth : option string)
    (lsig_args : option (list (string * bytes))) : list Effect * (exn + string) :=
  match sign_transaction svc txn auth lsig_args with
  | inl e => ([SignTransaction txn auth lsig_args], inl e)
  | inr signed =>
      match send_raw_transaction svc signed with
      | inl e => ([SignTransaction txn auth lsig_args; SendRawTransaction signed], inl e)
      | inr txid =>
          ([SignTransaction txn auth lsig_args; SendRawTransaction signed;
            WaitForConfirmation txid],
           match wait_for_confirmation svc txid with
           | inl e => inl e
           | inr _ => inr txid
           end)
      end
  end.

End Ledger.

(** ** examples/atomicswap/box_exchange.py *)

Module BoxExchange.

Import Ledger.

Definition CHUNK_SIZE : nat := 2000.
Definition PREFIX_SIZE : nat := 160.
Definition BOX_MBR_BASE : Z := 2500.
Definition BOX_MBR_PER_BYTE : Z := 400.

Definition _box_mbr (name_len value_len : nat) : Z :=
  (BOX_MBR_BASE + BOX_MBR_PER_BYTE * (Z.of_nat name_len + Z.of_nat value_len))%Z.

(** [n.to_bytes(8, "big")] for [0 <= n < 2**64]. *)
Definition to_bytes8 (n : nat) : bytes :=
  map (fun i => Base64Ref.byte_of (N.shiftr (N.of_nat n) (8 * N.of_nat i)))
      [7; 6; 5; 4; 3; 2; 1; 0]%nat.

Definition b (s : string) : bytes := Py.encode s.

(** [compressed[offset:offset + CHUNK_SIZE]] *)
Definition slice (data : bytes) (offset len : nat) : bytes :=
  firstn len (skipn offset data).

(** [range(0, size, CHUNK_SIZE)]: the offsets below [size], [fuel]
    bounding their number. *)
Fixpoint offsets (fuel offset size : nat) : list nat :=
  match fuel with
  | O => []
  | S fuel' =>
      if (offset <? size)%nat
      then offset :: offsets fuel' (offset + CHUNK_SIZE) size
      else []
  end.

Definition chunk_offsets (size : nat) : list nat := offsets size 0 size.

Definition delete_txn (app_id : Z) (sender : string) (box_name : bytes) : Txn :=
  ApplicationCallTxn sender app_id [b "delete"; box_name] []
    (repeat (app_id, box_name) 7).

Section WriteBox.

(** [zlib.compress] *)
Variable compress : bytes -> bytes.
Variable svc : Services.

Definition pay_txn (app_id : Z) (sender : string) (box_name compressed : bytes) : Txn :=
  PaymentTxn sender (get_application_address svc app_id)
    (_box_mbr (List.length box_name) (List.length compressed + PREFIX_SIZE)) [] None.

Definition create_txn (app_id : Z) (sender : string) (box_name compressed : bytes)
    (acl_addrs : option (list string)) : Txn :=
  ApplicationCallTxn sender app_id
    [b "create"; box_name; to_bytes8 (List.length compressed + PREFIX_SIZE)]
    (match acl_addrs with Some ((_ :: _) as l) => l | _ => [] end)
    [(app_id, box_name)].

Definition write_txn (app_id : Z) (sender : string) (box_name compressed : bytes)
    (offset : nat) : Txn :=
  ApplicationCallTxn sender app_id
    [b "write"; box_name; to_bytes8 offset; slice compressed offset CHUNK_SIZE]
    [] [(app_id, box_name)].

(** The list [txns] that [write_box] builds: payment, create call, then
    one write call for each chunk of the compressed data. *)
Definition write_box_txns (app_id : Z) (sender : string) (box_name data : bytes)
    (acl_addrs : option (list string)) : list Txn :=
  let compressed := compress data in
  pay_txn app_id sender box_name compressed
  :: create_txn app_id sender box_name compressed acl_addrs
  :: map (write_txn app_id sender box_name compressed)
         (chunk_offsets (List.length compressed)).

(** The [try] block that removes a stale box: every exception in it is
    swallowed. *)
Definition delete_stale (app_id : Z) (sender : string) (box_name : bytes) : list Effect :=
  match application_box_by_name svc app_id box_name with
  | inl _ => []
  | inr _ =>
      match suggested_params svc with
      | inl _ => []
      | inr _ => fst (sign_send_confirm svc (delete_txn app_id sender box_name) None None)
      end
  end.

Definition write_box (app_id : Z) (sender : string) (box_name data : bytes)
    (acl_addrs : option (list string)) : list Effect * (exn + string) :=
  let stale := delete_stale app_id sender box_name in
  match suggested_params svc with
  | inl e => (stale, inl e)
  | inr _ =>
      let txns := write_box_txns app_id sender box_name data acl_addrs in
      let auth_addresses := map (fun _ => Some sender) txns in
      match sign_transactions svc txns auth_addresses with
      | inl e => ((stale ++ [SignTransactions txns auth_addresses])%list, inl e)
      | inr signed =>
          match send_raw_transaction svc signed with
          | inl e =>
              ((stale ++ [SignTransactions txns auth_addresses;
                          SendRawTransaction signed])%list, inl e)
          | inr txid =>
              ((stale ++ [SignTransactions txns auth_addresses;
                          SendRawTransaction signed; WaitForConfirmation txid])%list,
               match wait_for_confirmation svc txid with
               | inl e => inl e
               | inr _ => inr txid
               end)
          end
      end
  end.

(** [zlib.decompress] and [base64.b64decode] for [read_box]. *)
Variable decompress : bytes -> exn + bytes.
Variable b64decode : string -> exn + bytes.

Definition read_box (app_id : Z) (box_name : bytes) : exn + bytes :=
  value <- application_box_by_name svc app_id box_name ;;
  raw <- b64decode value ;;
  decompress (skipn PREFIX_SIZE raw).

Definition delete_box (app_id : Z) (sender : string) (box_name : bytes)
  : list Effect * (exn + string) :=
  match suggested_params svc with
  | inl e => ([], inl e)
  | inr _ => sign_send_confirm svc (delete_txn app_id sender box_name) None None
  end.

End WriteBox.

End BoxExchange.

(** ** The indexer and the message channel shared by both tool sets *)

Module Channel.

Import Py.

(** One transaction of an indexer response, with the fields the tools
    read: [id], [note], [confirmed-round], [sender], the arguments of
    its logic signature and the amount of its payment, each with the
    default the code gives to [get]. *)
Record IndexerTxn : Type := {
  tx_id : string;
  tx_note : string;
  tx_confirmed_round : Z;
  tx_sender : string;
  tx_lsig_args : list string;
  tx_amount : Z
}.

(** The query parameters of [GET /v2/transactions]. *)
Record Query : Type := {
  q_address : string;
  q_address_role : string;
  q_tx_type : option string;
  q_note_prefix : option string;
  q_min_round : option Z
}.

(** The request raises, or answers with a status code and a list. *)
Inductive IndexerReply : Type :=
| IndexerFailure
| IndexerResponse (status_code : Z) (transactions : list IndexerTxn).

Definition Indexer : Type := Query -> IndexerReply.

(** An entry of the list [_poll_messages] returns. *)
Record Message : Type := {
  m_txid : string;
  m_round : Z;
  m_note : dict;
  m_sender : string
}.

(** [txid in seen_txids] *)
Definition mem (x : string) (l : list string) : bool := existsb (String.eqb x) l.

Definition is_str (v : JVal) (s : string) : bool :=
  match v with
  | JStr t => String.eqb t s
  | _ => false
  end.

(** A value inside an f-string; only strings reach the uses below. *)
Definition fmt (v : JVal) : string :=
  match v with
  | JStr s => s
  | _ => dumps false v
  end.

Section Poll.

(** [json.loads(base64.b64decode(note_b64))]; [None] when either raises. *)
Variable loads_note : string -> option JVal.

(** The body of [for txn in txns] in [_poll_messages]; [family] is
    ["swap_"] or ["htlc_"]. *)
Definition message_of (family : string) (seen_txids : list string) (txn : IndexerTxn)
  : option Message :=
  if mem (tx_id txn) seen_txids then None
  else if tx_note txn =? "" then None
  else
    match loads_note (tx_note txn) with
    | Some (JObj note_json) =>
        match get_default "type" note_json (JStr "") with
        | JStr t =>
            if String.prefix family t
            then Some {| m_txid := tx_id txn;
                         m_round := tx_confirmed_round txn;
                         m_note := note_json;
                         m_sender := tx_sender txn |}
            else None
        | _ => None
        end
    | _ => None
    end.

Fixpoint collect (family : string) (seen_txids : list string) (txns : list IndexerTxn)
  : list Message :=
  match txns with
  | [] => []
  | txn :: rest =>
      match message_of family seen_txids txn with
      | Some m => m :: collect family seen_txids rest
      | None => collect family seen_txids rest
      end
  end.

Definition note_prefix (family : string) : string :=
  Base64Ref.b64encode
    (encode ("{" ++ String dq ("type" ++ String dq (":" ++ String dq family)))).

Definition _poll_messages (family : string) (indexer : Indexer)
    (address : string) (last_round : Z) (seen_txids : list string) : list Message :=
  let params := {| q_address := address;
                   q_address_role := "receiver";
                   q_tx_type := Some "pay";
                   q_note_prefix := Some (note_prefix family);
                   q_min_round := if (0 <? last_round)%Z then Some last_round else None |} in
  match indexer params with
  | IndexerFailure => []
  | IndexerResponse status_code txns =>
      if negb (status_code =? 200)%Z then [] else collect family seen_txids txns
  end.

End Poll.

(** A tool's reply: the dict with an ["error"] key, or its result. *)
Inductive Reply (A : Type) : Type :=
| ErrorReply (msg : string)
| OkReply (a : A).

Arguments ErrorReply {A} msg.
Arguments OkReply {A} a.

(** What [wait_for_message] returns on a message. *)
Record Received : Type := {
  r_type : JVal;
  r_note : dict;
  r_round : Z;
  r_sender : string
}.

End Channel.

(** ** examples/atomicswap/state.py and tools.py *)

Module AtomicSwap.

Import Py Ledger Channel.

(** The fields of [SwapState].  The peer's asset id and amount hold
    whatever JSON value a received note carried. *)
Record SwapState : Type := {
  role : string;
  status : string;
  my_address : string;
  peer_address : string;
  my_asa_id : Z;
  my_asa_amount : Z;
  peer_asa_id : JVal;
  peer_asa_amount : JVal;
  group_txid : string;
  swap_app_id : Z;
  swap_box_name : string;
  seen_txids : list string;
  last_seen_round : Z;
  actions : list string
}.

Definition with_status (v : string) (s : SwapState) : SwapState :=
  {| role := role s; status := v; my_address := my_address s;
     peer_address := peer_address s; my_asa_id := my_asa_id s;
     my_asa_amount := my_asa_amount s; peer_asa_id := peer_asa_id s;
     peer_asa_amount := peer_asa_amount s; group_txid := group_txid s;
     swap_app_id := swap_app_id s; swap_box_name := swap_box_name s;
     seen_txids := seen_txids s; last_seen_round := last_seen_round s;
     actions := actions s |}.

Definition with_peer_asa (id amount : JVal) (s : SwapState) : SwapState :=
  {| role := role s; status := status s; my_address := my_address s;
     peer_address := peer_address s; my_asa_id := my_asa_id s;
     my_asa_amount := my_asa_amount s; peer_asa_id := id;
     peer_asa_amount := amount; group_txid := group_txid s;
     swap_app_id := swap_app_id s; swap_box_name := swap_box_name s;
     seen_txids := seen_txids s; last_seen_round := last_seen_round s;
     actions := actions s |}.

Definition with_group_txid (v : string) (s : SwapState) : SwapState :=
  {| role := role s; status := status s; my_address := my_address s;
     peer_address := peer_address s; my_asa_id := my_asa_id s;
     my_asa_amount := my_asa_amount s; peer_asa_id := peer_asa_id s;
     peer_asa_amount := peer_asa_amount s; group_txid := v;
     swap_app_id := swap_app_id s; swap_box_name := swap_box_name s;
     seen_txids := seen_txids s; last_seen_round := last_seen_round s;
     actions := actions s |}.

Definition with_swap_app_id (v : Z) (s : SwapState) : SwapState :=
  {| role := role s; status := status s; my_address := my_address s;
     peer_address := peer_address s; my_asa_id := my_asa_id s;
     my_asa_amount := my_asa_amount s; peer_asa_id := peer_asa_id s;
     peer_asa_amount := peer_asa_amount s; group_txid := group_txid s;
     swap_app_id := v; swap_box_name := swap_box_name s;
     seen_txids := seen_txids s; last_seen_round := last_seen_round s;
     actions := actions s |}.

(** [state.seen_txids.append(txid); state.last_seen_round =
    max(state.last_seen_round, round)] *)
Definition mark_seen (txid : string) (round : Z) (s : SwapState) : SwapState :=
  {| role := role s; status := status s; my_address := my_address s;
     peer_address := peer_address s; my_asa_id := my_asa_id s;
     my_asa_amount := my_asa_amount s; peer_asa_id := peer_asa_id s;
     peer_asa_amount := peer_asa_amount s; group_txid := group_txid s;
     swap_app_id := swap_app_id s; swap_box_name := swap_box_name s;
     seen_txids := (seen_txids s ++ [txid])%list;
     last_seen_round := Z.max (last_seen_round s) round;
     actions := actions s |}.

(** [record(state, message)] *)
Definition record (message : string) (s : SwapState) : SwapState :=
  {| role := role s; status := status s; my_address := my_address s;
     peer_address := peer_address s; my_asa_id := my_asa_id s;
     my_asa_amount := my_asa_amount s; peer_asa_id := peer_asa_id s;
     peer_asa_amount := peer_asa_amount s; group_txid := group_txid s;
     swap_app_id := swap_app_id s; swap_box_name := swap_box_name s;
     seen_txids := seen_txids s; last_seen_round := last_seen_round s;
     actions := (actions s ++ [message])%list |}.

Section Tools.

Variable int_of_str : string -> option Z.
Variable loads_note : string -> option JVal.
(** [hashlib.sha256(data).digest()] *)
Variable sha256 : bytes -> bytes.
Variable svc : Services.

(** [_is_algo(asa_id)] *)
Definition _is_algo (asa_id : JVal) : exn + bool :=
  n <- Py.int int_of_str asa_id ;;
  inr (n =? 0)%Z.

(** The dict literal of [_proposal_hash], in the order it is written. *)
Definition proposal_dict (buyer_addr seller_addr : string)
    (offer_asa offer_amount want_asa want_amount : Z) : dict :=
  [("buyer", JStr buyer_addr);
   ("seller", JStr seller_addr);
   ("offer_asa", JInt offer_asa);
   ("offer_amount", JInt offer_amount);
   ("want_asa", JInt want_asa);
   ("want_amount", JInt want_amount)].

(** [hashlib.sha256(canonical.encode()).hexdigest()[:16]] *)
Definition digest16 (canonical : string) : string :=
  Signer.take 16 (HexRef.hex (sha256 (encode canonical))).

Definition _proposal_hash (buyer_addr seller_addr : string)
    (offer_asa offer_amount want_asa want_amount : JVal) : exn + string :=
  oa <- Py.int int_of_str offer_asa ;;
  om <- Py.int int_of_str offer_amount ;;
  wa <- Py.int int_of_str want_asa ;;
  wm <- Py.int int_of_str want_amount ;;
  inr (digest16 (dumps true (JObj (proposal_dict buyer_addr seller_addr oa om wa wm)))).

(** The six values of the swap terms, and their hash. *)
Record SwapTerms : Type := {
  buyer : string;
  seller : string;
  offer_asa : Z;
  offer_amount : Z;
  want_asa : Z;
  want_amount : Z
}.

Definition terms_dict (t : SwapTerms) : dict :=
  proposal_dict (buyer t) (seller t) (offer_asa t) (offer_amount t)
    (want_asa t) (want_amount t).

(** The string that is hashed. *)
Definition canonical (t : SwapTerms) : string := dumps true (JObj (terms_dict t)).

Definition proposal_hash (t : SwapTerms) : exn + string :=
  _proposal_hash (buyer t) (seller t) (JInt (offer_asa t)) (JInt (offer_amount t))
    (JInt (want_asa t)) (JInt (want_amount t)).

(** *** [tool_wait_for_message] *)

(** [if note.get("app_id"): state.swap_app_id = int(note["app_id"])] *)
Definition take_app_id (note : dict) (s : SwapState) : exn + SwapState :=
  match get "app_id" note with
  | Some v =>
      if truthy v
      then n <- Py.int int_of_str v ;; inr (with_swap_app_id n s)
      else inr s
  | None => inr s
  end.

(** The [if msg_type == ...] block; the state reached when it raises
    comes with the exception. *)
Definition update_from_note (msg_type : JVal) (note : dict) (s : SwapState)
  : SwapState * option exn :=
  if is_str msg_type "swap_propose" then
    let s1 := with_peer_asa (get_default "offer_asa" note (peer_asa_id s))
                (get_default "offer_amount" note (peer_asa_amount s)) s in
    match take_app_id note s1 with
    | inl e => (s1, Some e)
    | inr s2 => (with_status "propose_received" s2, None)
    end
  else if is_str msg_type "swap_partial" then
    match take_app_id note s with
    | inl e => (s, Some e)
    | inr s2 => (with_status "partial_received" s2, None)
    end
  else (s, None).

(** The body of [if msgs:] for the first new message. *)
Definition receive (msg : Message) (s : SwapState)
  : SwapState * (exn + Reply Received) :=
  let note := m_note msg in
  let msg_type := get_default "type" note (JStr "") in
  let s1 := mark_seen (m_txid msg) (m_round msg) s in
  match update_from_note msg_type note s1 with
  | (s2, Some e) => (s2, inl e)
  | (s2, None) =>
      (record ("Received " ++ fmt msg_type ++ " (round " ++ str_Z (m_round msg) ++ ")") s2,
       inr (OkReply {| r_type := msg_type; r_note := note;
                       r_round := m_round msg; r_sender := m_sender msg |}))
  end.

(** The polling loop; [polls] is the indexer as it answers at each
    turn that starts before the deadline. *)
Fixpoint wait_loop (polls : list Indexer) (seen : list string) (s : SwapState)
  : SwapState * (exn + Reply Received) :=
  match polls with
  | [] => (record "wait_for_message timed out" s,
           inr (ErrorReply "No incoming swap message within the timeout"))
  | indexer :: later =>
      match _poll_messages loads_note "swap_" indexer (my_address s)
              (last_seen_round s) seen with
      | msg :: _ => receive msg s
      | [] => wait_loop later seen s
      end
  end.

Definition tool_wait_for_message (polls : list Indexer) (s : SwapState)
  : SwapState * (exn + Reply Received) :=
  wait_loop polls (seen_txids s) s.

(** *** [tool_send_note] *)

Definition note_type (note_json : JVal) : JVal :=
  match note_json with
  | JObj d => get_default "type" d (JStr "?")
  | _ => JStr "?"
  end.

Definition after_send (msg_type : JVal) (txid : string) (s : SwapState) : SwapState :=
  let s1 := record ("Sent note (" ++ fmt msg_type ++ ") txid: " ++ txid) s in
  if is_str msg_type "swap_propose" then with_status "propose_sent" s1
  else if is_str msg_type "swap_partial" then with_status "partial_sent" s1
  else s1.

(** [json.dumps(note_json, separators=(",", ":")).encode("utf-8")] *)
Definition note_bytes (note_json : JVal) : bytes := encode (dumps false note_json).

Definition tool_send_note (s : SwapState) (sender receiver : string) (note_json : JVal)
  : SwapState * list Effect * (exn + Reply string) :=
  if negb (sender =? my_address s) then
    (s, [], inr (ErrorReply ("sender must be your address (" ++ my_address s
                             ++ "), got " ++ sender)))
  else if negb (receiver =? peer_address s) then
    (s, [], inr (ErrorReply ("receiver must be peer address (" ++ peer_address s
                             ++ "), got " ++ receiver)))
  else
    match suggested_params svc with
    | inl e => (s, [], inl e)
    | inr _ =>
        if (1024 <? List.length (note_bytes note_json))%nat then
          (s, [], inr (ErrorReply ("Note exceeds 1024 bytes ("
                                   ++ str_nat (List.length (note_bytes note_json)) ++ ")")))
        else
          match sign_send_confirm svc
                  (PaymentTxn sender receiver 0 (note_bytes note_json) None) None None with
          | (effects, inl e) => (s, effects, inl e)
          | (effects, inr txid) =>
              (after_send (note_type note_json) txid s, effects, inr (OkReply txid))
          end
    end.

(** *** [tool_verify_and_submit_swap] *)

(** [json.loads(raw)], the iteration over [planned_txns_hex] with the
    decoding of one entry ([bytes.fromhex], the removal of the two-byte
    prefix, [encoding.msgpack_decode]), and the use of the stored
    [signed] value as a list of strings. *)
Variable loads : bytes -> exn + JVal.
Variable decode_planned : JVal -> exn + list Txn.
Variable signed_entries : JVal -> exn + list string.
Variable read_box : Z -> bytes -> exn + bytes.
Variable b64decode : string -> exn + bytes.

(** [exchange_data[key]] *)
Definition subscript (exchange_data : JVal) (key : string) : exn + JVal :=
  match exchange_data with
  | JObj d =>
      match get key d with
      | Some v => inr v
      | None => raise (KeyError key)
      end
  | _ => raise (TypeError "indices must be integers or slices, not str")
  end.

(** [int == value] for a stored JSON value. *)
Definition int_eq (n : Z) (v : JVal) : bool :=
  match v with
  | JInt m => (n =? m)%Z
  | JBool b => (n =? (if b then 1 else 0))%Z
  | _ => false
  end.

(** The checks of one leg against the expected sender, receiver, asset
    and amount; the messages of the mismatches found. *)
Definition check_leg (label : string) (txn : Txn) (from to : string)
    (asa_id amount : JVal) : exn + list string :=
  let e1 := if negb (Ledger.sender txn =? from)
            then [label ++ " sender mismatch: " ++ Ledger.sender txn ++ " != " ++ from]
            else [] in
  rcv <- Ledger.receiver txn ;;
  let e2 := if negb (rcv =? to)
            then [label ++ " receiver mismatch: " ++ rcv ++ " != " ++ to]
            else [] in
  algo <- _is_algo asa_id ;;
  let e3 :=
    if algo then
      match txn with
      | PaymentTxn _ _ amt _ _ =>
          if negb (int_eq amt amount)
          then [label ++ " amount mismatch: " ++ str_Z amt ++ " != " ++ fmt amount]
          else []
      | _ => [label ++ " expected PaymentTxn"]
      end
    else
      match txn with
      | AssetTransferTxn _ _ amt index _ =>
          List.app
            (if negb (int_eq index asa_id)
             then [label ++ " ASA mismatch: " ++ str_Z index ++ " != " ++ fmt asa_id]
             else [])
            (if negb (int_eq amt amount)
             then [label ++ " amount mismatch: " ++ str_Z amt ++ " != " ++ fmt amount]
             else [])
      | _ => [label ++ " expected AssetTransferTxn"]
      end in
  inr (e1 ++ e2 ++ e3)%list.

(** From [errors = []] to [if errors:]. *)
Definition check_legs (finalized_txns : list Txn) (s : SwapState) : exn + list string :=
  match finalized_txns with
  | [] => raise IndexError
  | txn_a :: rest =>
      ea <- check_leg "TxnA" txn_a (my_address s) (peer_address s)
              (JInt (my_asa_id s)) (JInt (my_asa_amount s)) ;;
      match rest with
      | [] => inr (ea ++ ["Group has fewer than 2 transactions"])%list
      | txn_b :: _ =>
          eb <- check_leg "TxnB" txn_b (peer_address s) (my_address s)
                  (peer_asa_id s) (peer_asa_amount s) ;;
          inr (ea ++ eb)%list
      end
  end.

(** From the signing of the buyer's leg to the end. *)
Definition sign_and_submit (finalized_txns : list Txn) (seller_signed : JVal)
    (s : SwapState) : SwapState * list Effect * (exn + Reply string) :=
  let auth_addresses :=
    (Some (my_address s) :: repeat None (List.length finalized_txns - 1))%list in
  let signing := SignTransactionsList finalized_txns auth_addresses in
  match sign_transactions_list svc finalized_txns auth_addresses with
  | inl e => (s, [signing], inl e)
  | inr buyer_signed =>
      match (seller <- signed_entries seller_signed ;;
             Signer.assemble_group b64decode Base64Ref.b64encode [seller; buyer_signed]) with
      | inl e => (s, [signing], inl e)
      | inr combined =>
          match send_raw_transaction svc combined with
          | inl e => (s, [signing; SendRawTransaction combined], inl e)
          | inr txid =>
              match wait_for_confirmation svc txid with
              | inl e =>
                  (s, [signing; SendRawTransaction combined; WaitForConfirmation txid], inl e)
              | inr _ =>
                  (record ("Submitted atomic group (txid: " ++ txid ++ ")")
                     (with_status "submitted" (with_group_txid txid s)),
                   [signing; SendRawTransaction combined; WaitForConfirmation txid],
                   inr (OkReply txid))
              end
          end
      end
  end.

(** What is read from the box before the hash comparison. *)
Definition read_exchange (expected_hash : string) (s : SwapState)
  : exn + (JVal * JVal * JVal) :=
  raw <- read_box (swap_app_id s) (encode expected_hash) ;;
  exchange_data <- loads raw ;;
  planned_txns_hex <- subscript exchange_data "planned_txns_hex" ;;
  seller_signed <- subscript exchange_data "signed" ;;
  inr (planned_txns_hex, seller_signed,
       match exchange_data with
       | JObj d => get_default "proposal_hash" d (JStr "")
       | _ => JStr ""
       end).

Definition expected_proposal_hash (s : SwapState) : exn + string :=
  _proposal_hash (my_address s) (peer_address s)
    (JInt (my_asa_id s)) (JInt (my_asa_amount s))
    (peer_asa_id s) (peer_asa_amount s).

Definition tool_verify_and_submit_swap (s : SwapState)
  : SwapState * list Effect * (exn + Reply string) :=
  match expected_proposal_hash s with
  | inl e => (s, [], inl e)
  | inr expected_hash =>
      match read_exchange expected_hash s with
      | inl e => (s, [], inl e)
      | inr (planned_txns_hex, seller_signed, file_hash) =>
          if negb (is_str file_hash expected_hash) then
            let msg := "Proposal hash mismatch: box=" ++ fmt file_hash
                       ++ ", expected=" ++ expected_hash in
            (record msg s, [], inr (ErrorReply msg))
          else
            match decode_planned planned_txns_hex with
            | inl e => (s, [], inl e)
            | inr finalized_txns =>
                match check_legs finalized_txns s with
                | inl e => (s, [], inl e)
                | inr ((_ :: _) as errors) =>
                    let msg := "Transaction verification failed: " ++ join "; " errors in
                    (record msg s, [], inr (ErrorReply msg))
                | inr [] =>
                    sign_and_submit finalized_txns seller_signed
                      (record "Verified TxnA and TxnB fields match proposal" s)
                end
            end
      end
  end.

End Tools.

End AtomicSwap.

(** ** examples/htlc/state.py and tools.py *)

Module Htlc.

Import Py Ledger Channel.

Record SwapState : Type := {
  role : string;
  status : string;
  my_address : string;
  peer_address : string;
  preimage : string;
  hash : string;
  my_hashlock : string;
  peer_hashlock : string;
  my_timeout : Z;
  peer_timeout : Z;
  my_asa_id : Z;
  my_asa_amount : Z;
  peer_asa_id : Z;
  peer_asa_amount : Z;
  fund_algo_amount : Z;
  claim_txid : string;
  seen_txids : list string;
  last_seen_round : Z;
  actions : list string
}.

Definition with_status (v : string) (s : SwapState) : SwapState :=
  {| role := role s; status := v; my_address := my_address s;
     peer_address := peer_address s; preimage := preimage s; hash := hash s;
     my_hashlock := my_hashlock s; peer_hashlock := peer_hashlock s;
     my_timeout := my_timeout s; peer_timeout := peer_timeout s;
     my_asa_id := my_asa_id s; my_asa_amount := my_asa_amount s;
     peer_asa_id := peer_asa_id s; peer_asa_amount := peer_asa_amount s;
     fund_algo_amount := fund_algo_amount s; claim_txid := claim_txid s;
     seen_txids := seen_txids s; last_seen_round := last_seen_round s;
     actions := actions s |}.

Definition with_hash (v : string) (s : SwapState) : SwapState :=
  {| role := role s; status := status s; my_address := my_address s;
     peer_address := peer_address s; preimage := preimage s; hash := v;
     my_hashlock := my_hashlock s; peer_hashlock := peer_hashlock s;
     my_timeout := my_timeout s; peer_timeout := peer_timeout s;
     my_asa_id := my_asa_id s; my_asa_amount := my_asa_amount s;
     peer_asa_id := peer_asa_id s; peer_asa_amount := peer_asa_amount s;
     fund_algo_amount := fund_algo_amount s; claim_txid := claim_txid s;
     seen_txids := seen_txids s; last_seen_round := last_seen_round s;
     actions := actions s |}.

Definition with_preimage (v : string) (s : SwapState) : SwapState :=
  {| role := role s; status := status s; my_address := my_address s;
     peer_address := peer_address s; preimage := v; hash := hash s;
     my_hashlock := my_hashlock s; peer_hashlock := peer_hashlock s;
     my_timeout := my_timeout s; peer_timeout := peer_timeout s;
     my_asa_id := my_asa_id s; my_asa_amount := my_asa_amount s;
     peer_asa_id := peer_asa_id s; peer_asa_amount := peer_asa_amount s;
     fund_algo_amount := fund_algo_amount s; claim_txid := claim_txid s;
     seen_txids := seen_txids s; last_seen_round := last_seen_round s;
     actions := actions s |}.

(** [state.my_hashlock = address; state.my_timeout = timeout_round] *)
Definition with_my_lock (address : string) (timeout_round : Z) (s : SwapState) : SwapState :=
  {| role := role s; status := status s; my_address := my_address s;
     peer_address := peer_address s; preimage := preimage s; hash := hash s;
     my_hashlock := address; peer_hashlock := peer_hashlock s;
     my_timeout := timeout_round; peer_timeout := peer_timeout s;
     my_asa_id := my_asa_id s; my_asa_amount := my_asa_amount s;
     peer_asa_id := peer_asa_id s; peer_asa_amount := peer_asa_amount s;
     fund_algo_amount := fund_algo_amount s; claim_txid := claim_txid s;
     seen_txids := seen_txids s; last_seen_round := last_seen_round s;
     actions := actions s |}.

(** [state.peer_hashlock], [peer_timeout], [peer_asa_id] and
    [peer_asa_amount] assigned from a note. *)
Definition with_peer_lock (hashlock : string) (timeout_round asa_id asa_amount : Z)
    (s : SwapState) : SwapState :=
  {| role := role s; status := status s; my_address := my_address s;
     peer_address := peer_address s; preimage := preimage s; hash := hash s;
     my_hashlock := my_hashlock s; peer_hashlock := hashlock;
     my_timeout := my_timeout s; peer_timeout := timeout_round;
     my_asa_id := my_asa_id s; my_asa_amount := my_asa_amount s;
     peer_asa_id := asa_id; peer_asa_amount := asa_amount;
     fund_algo_amount := fund_algo_amount s; claim_txid := claim_txid s;
     seen_txids := seen_txids s; last_seen_round := last_seen_round s;
     actions := actions s |}.

Definition with_claim_txid (v : string) (s : SwapState) : SwapState :=
  {| role := role s; status := status s; my_address := my_address s;
     peer_address := peer_address s; preimage := preimage s; hash := hash s;
     my_hashlock := my_hashlock s; peer_hashlock := peer_hashlock s;
     my_timeout := my_timeout s; peer_timeout := peer_timeout s;
     my_asa_id := my_asa_id s; my_asa_amount := my_asa_amount s;
     peer_asa_id := peer_asa_id s; peer_asa_amount := peer_asa_amount s;
     fund_algo_amount := fund_algo_amount s; claim_txid := v;
     seen_txids := seen_txids s; last_seen_round := last_seen_round s;
     actions := actions s |}.

Definition with_last_seen_round (v : Z) (s : SwapState) : SwapState :=
  {| role := role s; status := status s; my_address := my_address s;
     peer_address := peer_address s; preimage := preimage s; hash := hash s;
     my_hashlock := my_hashlock s; peer_hashlock := peer_hashlock s;
     my_timeout := my_timeout s; peer_timeout := peer_timeout s;
     my_asa_id := my_asa_id s; my_asa_amount := my_asa_amount s;
     peer_asa_id := peer_asa_id s; peer_asa_amount := peer_asa_amount s;
     fund_algo_amount := fund_algo_amount s; claim_txid := claim_txid s;
     seen_txids := seen_txids s; last_seen_round := v;
     actions := actions s |}.

(** [state.seen_txids.append(txid); state.last_seen_round =
    max(state.last_seen_round, round)] *)
Definition mark_seen (txid : string) (round : Z) (s : SwapState) : SwapState :=
  {| role := role s; status := status s; my_address := my_address s;
     peer_address := peer_address s; preimage := preimage s; hash := hash s;
     my_hashlock := my_hashlock s; peer_hashlock := peer_hashlock s;
     my_timeout := my_timeout s; peer_timeout := peer_timeout s;
     my_asa_id := my_asa_id s; my_asa_amount := my_asa_amount s;
     peer_asa_id := peer_asa_id s; peer_asa_amount := peer_asa_amount s;
     fund_algo_amount := fund_algo_amount s; claim_txid := claim_txid s;
     seen_txids := (seen_txids s ++ [txid])%list;
     last_seen_round := Z.max (last_seen_round s) round;
     actions := actions s |}.

(** [record(state, message)] *)
Definition record (message : string) (s : SwapState) : SwapState :=
  {| role := role s; status := status s; my_address := my_address s;
     peer_address := peer_address s; preimage := preimage s; hash := hash s;
     my_hashlock := my_hashlock s; peer_hashlock := peer_hashlock s;
     my_timeout := my_timeout s; peer_timeout := peer_timeout s;
     my_asa_id := my_asa_id s; my_asa_amount := my_asa_amount s;
     peer_asa_id := peer_asa_id s; peer_asa_amount := peer_asa_amount s;
     fund_algo_amount := fund_algo_amount s; claim_txid := claim_txid s;
     seen_txids := seen_txids s; last_seen_round := last_seen_round s;
     actions := (actions s ++ [message])%list |}.

Section Tools.

Variable int_of_str : string -> option Z.
Variable loads_note : string -> option JVal.
(** [hashlib.sha256(data).digest()] *)
Variable sha256 : bytes -> bytes.
(** [bytes.fromhex] on a [str], [None] for its [ValueError], and
    [base64.b64decode] *)
Variable fromhex : string -> option bytes.
Variable b64decode : string -> exn + bytes.
(** [encoding.is_valid_address] *)
Variable is_valid_address : string -> bool.
Variable svc : Services.

Definition _is_valid_address (addr : JVal) : bool :=
  match addr with
  | JStr a => (negb (a =? "") && is_valid_address a)%bool
  | _ => false
  end.

Definition _is_algo (asa_id : JVal) : exn + bool :=
  n <- Py.int int_of_str asa_id ;;
  inr (n =? 0)%Z.

(** [try: bytes.fromhex(v) except ValueError: ...]: whether the value
    is valid hex; the [TypeError] of a value that is no [str] escapes. *)
Definition hex_ok (v : JVal) : exn + bool :=
  match v with
  | JStr h =>
      match fromhex h with
      | Some _ => inr true
      | None => inr false
      end
  | _ => raise (TypeError "fromhex() argument must be str")
  end.

(** *** [tool_create_hashlock] *)

Definition tool_create_hashlock (s : SwapState) (hash_hex : JVal)
    (recipient refund_address : string) (timeout_round : JVal)
  : SwapState * list Effect * (exn + Reply string) :=
  if negb (recipient =? peer_address s) then
    (s, [], inr (ErrorReply ("recipient must be peer address (" ++ peer_address s
                             ++ "), got " ++ recipient)))
  else if negb (refund_address =? my_address s) then
    (s, [], inr (ErrorReply ("refund_address must be your address (" ++ my_address s
                             ++ "), got " ++ refund_address)))
  else
    match hash_hex with
    | JStr h =>
        if negb (Nat.eqb (String.length h) 64) then
          (s, [], inr (ErrorReply "hash_hex must be a 64-character hex string"))
        else
          match hex_ok hash_hex with
          | inl e => (s, [], inl e)
          | inr false => (s, [], inr (ErrorReply "hash_hex must be valid hex"))
          | inr true =>
              match Py.int int_of_str timeout_round with
              | inl e => (s, [], inl e)
              | inr t =>
                  if (t <=? 0)%Z then
                    (s, [], inr (ErrorReply ("timeout_round must be > 0, got " ++ str_Z t)))
                  else if ((role s =? "seller") && negb (peer_timeout s =? 0)%Z
                           && (peer_timeout s <=? t)%Z)%bool then
                    (s, [], inr (ErrorReply
                                   ("seller timeout must be shorter than buyer timeout: "
                                    ++ str_Z t ++ " >= " ++ str_Z (peer_timeout s))))
                  else
                    let parameters := [("hash", h); ("recipient", recipient);
                                       ("refund_address", refund_address);
                                       ("timeout_round", str_Z t)] in
                    match generate_key svc "hashlock-v1" parameters with
                    | inl e => (s, [GenerateKey "hashlock-v1" parameters], inl e)
                    | inr address =>
                        (record ("Created hashlock: " ++ address)
                           (with_hash h (with_my_lock address t s)),
                         [GenerateKey "hashlock-v1" parameters],
                         inr (OkReply address))
                    end
              end
          end
    | _ => (s, [], inr (ErrorReply "hash_hex must be a 64-character hex string"))
    end.

(** *** [tool_send_note] *)

(** The loop that rebuilds the dict with ["type"] first. *)
Definition canonicalize (note_json : dict) : dict :=
  match get "type" note_json with
  | Some t =>
      fold_left (fun canonical kv =>
                   if negb (fst kv =? "type") then Py.set (fst kv) (snd kv) canonical
                   else canonical)
                note_json [("type", t)]
  | None => note_json
  end.

Definition note_bytes (note_json : dict) : bytes :=
  encode (dumps false (JObj (canonicalize note_json))).

Definition after_send (msg_type : JVal) (txid : string) (s : SwapState) : SwapState :=
  let s1 := record ("Sent note (" ++ fmt msg_type ++ ") txid: " ++ txid) s in
  if is_str msg_type "htlc_offer" then with_status "offer_sent" s1
  else if is_str msg_type "htlc_accept" then with_status "accept_sent" s1
  else s1.

Definition tool_send_note (s : SwapState) (sender receiver : string) (note_json : JVal)
  : SwapState * list Effect * (exn + Reply string) :=
  if negb (sender =? my_address s) then
    (s, [], inr (ErrorReply ("sender must be your address (" ++ my_address s
                             ++ "), got " ++ sender)))
  else if negb (receiver =? peer_address s) then
    (s, [], inr (ErrorReply ("receiver must be peer address (" ++ peer_address s
                             ++ "), got " ++ receiver)))
  else
    match note_json with
    | JObj d =>
        match suggested_params svc with
        | inl e => (s, [], inl e)
        | inr _ =>
            if (1024 <? List.length (note_bytes d))%nat then
              (s, [], inr (ErrorReply "Note exceeds 1024 bytes"))
            else
              match sign_send_confirm svc
                      (PaymentTxn sender receiver 0 (note_bytes d) None) None None with
              | (effects, inl e) => (s, effects, inl e)
              | (effects, inr txid) =>
                  (after_send (get_default "type" (canonicalize d) (JStr "?")) txid s,
                   effects, inr (OkReply txid))
              end
        end
    | _ => (s, [], inr (ErrorReply "note_json must be an object"))
    end.

(** *** [tool_wait_for_message] *)

(** How the handling of one message ends: the loop goes on, or the
    tool returns or raises. *)
Inductive Step : Type :=
| Continue
| Stop (r : exn + Reply Received).

(** The fields read from an offer or accept note, converted. *)
Definition note_numbers (note : dict) : exn + (Z * Z * Z) :=
  note_timeout <- Py.int int_of_str (get_default "timeout_round" note (JInt 0)) ;;
  note_asa_id <- Py.int int_of_str (get_default "asa_id" note (JInt (-1))) ;;
  note_asa_amount <- Py.int int_of_str (get_default "asa_amount" note (JInt (-1))) ;;
  inr (note_timeout, note_asa_id, note_asa_amount).

Definition asa_id_mismatch (what : string) (got expected : Z) : string :=
  "Invalid " ++ what ++ ": asa_id mismatch " ++ str_Z got ++ " != expected "
  ++ str_Z expected.

Definition asa_amount_mismatch (what : string) (got expected : Z) : string :=
  "Invalid " ++ what ++ ": asa_amount mismatch " ++ str_Z got ++ " != expected "
  ++ str_Z expected.

(** The branch [if msg_type == "htlc_offer"]. *)
Definition handle_offer (note : dict) (s : SwapState)
  : exn + (SwapState + string) :=
  let note_hash := get_default "hash" note (JStr "") in
  let note_hashlock := get_default "hashlock_addr" note (JStr "") in
  nums <- note_numbers note ;;
  let '(note_timeout, note_asa_id, note_asa_amount) := nums in
  n <- Py.len note_hash ;;
  if negb (Nat.eqb n 64) then inr (inr "Invalid htlc_offer: hash must be 64 hex chars")
  else
    ok <- hex_ok note_hash ;;
    if negb ok then inr (inr "Invalid htlc_offer: hash must be valid hex")
    else if negb (_is_valid_address note_hashlock) then
      inr (inr "Invalid htlc_offer: hashlock_addr is not a valid Algorand address")
    else if (note_timeout <=? 0)%Z then
      inr (inr "Invalid htlc_offer: timeout_round must be > 0")
    else if negb (note_asa_id =? peer_asa_id s)%Z then
      inr (inr (asa_id_mismatch "htlc_offer" note_asa_id (peer_asa_id s)))
    else if negb (note_asa_amount =? peer_asa_amount s)%Z then
      inr (inr (asa_amount_mismatch "htlc_offer" note_asa_amount (peer_asa_amount s)))
    else
      inr (inl (with_status "offer_received"
                  (with_peer_lock (fmt note_hashlock) note_timeout note_asa_id
                     note_asa_amount (with_hash (fmt note_hash) s)))).

(** The branch [elif msg_type == "htlc_accept"]. *)
Definition handle_accept (note : dict) (s : SwapState)
  : exn + (SwapState + string) :=
  let note_hashlock := get_default "hashlock_addr" note (JStr "") in
  nums <- note_numbers note ;;
  let '(note_timeout, note_asa_id, note_asa_amount) := nums in
  if negb (_is_valid_address note_hashlock) then
    inr (inr "Invalid htlc_accept: hashlock_addr is not a valid Algorand address")
  else if (note_timeout <=? 0)%Z then
    inr (inr "Invalid htlc_accept: timeout_round must be > 0")
  else if (negb (my_timeout s =? 0)%Z && (my_timeout s <=? note_timeout)%Z)%bool then
    inr (inr ("Unsafe htlc_accept: peer timeout must be shorter than ours ("
              ++ str_Z note_timeout ++ " >= " ++ str_Z (my_timeout s) ++ ")"))
  else if negb (note_asa_id =? peer_asa_id s)%Z then
    inr (inr (asa_id_mismatch "htlc_accept" note_asa_id (peer_asa_id s)))
  else if negb (note_asa_amount =? peer_asa_amount s)%Z then
    inr (inr (asa_amount_mismatch "htlc_accept" note_asa_amount (peer_asa_amount s)))
  else
    inr (inl (with_status "accept_received"
                (with_peer_lock (fmt note_hashlock) note_timeout note_asa_id
                   note_asa_amount s))).

(** The body of [if msgs:] for the first new message. *)
Definition receive (msg : Message) (s : SwapState) : SwapState * Step :=
  let note := m_note msg in
  let msg_type := get_default "type" note (JStr "") in
  let sender := m_sender msg in
  if negb (sender =? peer_address s) then
    (mark_seen (m_txid msg) (m_round msg)
       (record ("Ignored " ++ (if truthy msg_type then fmt msg_type else "unknown")
                ++ " note from non-peer sender " ++ sender) s),
     Continue)
  else
    let s1 := mark_seen (m_txid msg) (m_round msg) s in
    match (if is_str msg_type "htlc_offer" then handle_offer note s1
           else if is_str msg_type "htlc_accept" then handle_accept note s1
           else inr (inr ("Unknown note type: " ++ fmt msg_type))) with
    | inl e => (s1, Stop (inl e))
    | inr (inr error) => (s1, Stop (inr (ErrorReply error)))
    | inr (inl s2) =>
        (record ("Received " ++ fmt msg_type ++ " (round " ++ str_Z (m_round msg) ++ ")") s2,
         Stop (inr (OkReply {| r_type := msg_type; r_note := note;
                               r_round := m_round msg; r_sender := m_sender msg |})))
    end.

(** The polling loop; [polls] is the indexer as it answers at each
    turn that starts before the deadline. *)
Fixpoint wait_loop (polls : list Indexer) (seen : list string) (s : SwapState)
  : SwapState * (exn + Reply Received) :=
  match polls with
  | [] => (record "wait_for_message timed out" s,
           inr (ErrorReply "No incoming htlc message within the timeout"))
  | indexer :: later =>
      match _poll_messages loads_note "htlc_" indexer (my_address s)
              (last_seen_round s) seen with
      | msg :: _ =>
          match receive msg s with
          | (s', Continue) => wait_loop later (seen ++ [m_txid msg])%list s'
          | (s', Stop r) => (s', r)
          end
      | [] => wait_loop later seen s
      end
  end.

Definition tool_wait_for_message (polls : list Indexer) (s : SwapState)
  : SwapState * (exn + Reply Received) :=
  wait_loop polls (seen_txids s) s.

(** *** [_poll_hashlock_claim] and [tool_wait_for_preimage] *)

Record Claim : Type := {
  c_preimage : string;
  c_txid : string;
  c_round : Z
}.

(** The loop over the response: the first transaction that has
    logic-signature arguments ends it. *)
Fixpoint first_claim (txns : list IndexerTxn) : option Claim :=
  match txns with
  | [] => None
  | txn :: rest =>
      match tx_lsig_args txn with
      | [] => first_claim rest
      | arg :: _ =>
          match b64decode arg with
          | inr preimage_bytes =>
              Some {| c_preimage := HexRef.hex preimage_bytes;
                      c_txid := tx_id txn;
                      c_round := tx_confirmed_round txn |}
          | inl _ => None
          end
      end
  end.

Definition _poll_hashlock_claim (indexer : Indexer) (hashlock_address : string)
    (min_round : Z) : option Claim :=
  let params := {| q_address := hashlock_address;
                   q_address_role := "sender";
                   q_tx_type := None;
                   q_note_prefix := None;
                   q_min_round := Some min_round |} in
  match indexer params with
  | IndexerFailure => None
  | IndexerResponse status_code txns =>
      if negb (status_code =? 200)%Z then None else first_claim txns
  end.

Fixpoint preimage_loop (polls : list Indexer) (s : SwapState)
  : SwapState * Reply Claim :=
  match polls with
  | [] => (record "wait_for_preimage timed out" s,
           ErrorReply "No preimage discovered within the timeout")
  | indexer :: later =>
      match _poll_hashlock_claim indexer (my_hashlock s) (last_seen_round s) with
      | Some claim =>
          (record ("Discovered preimage on-chain (txid: " ++ c_txid claim ++ ")")
             (with_status "preimage_discovered"
                (with_preimage (c_preimage claim)
                   (with_last_seen_round (Z.max (last_seen_round s) (c_round claim)) s))),
           OkReply claim)
      | None => preimage_loop later s
      end
  end.

Definition tool_wait_for_preimage (polls : list Indexer) (s : SwapState)
  : SwapState * Reply Claim :=
  if my_hashlock s =? "" then
    (s, ErrorReply "No my_hashlock in state - cannot poll for preimage")
  else preimage_loop polls s.

(** *** [tool_claim_hashlock_asa] *)

(** [hashlib.sha256(preimage_bytes).hexdigest()] *)
Definition hexdigest (data : bytes) : string := HexRef.hex (sha256 data).

Definition claim_txn (hashlock_address recipient : string) (algo : bool) (asa_id : Z)
  : Txn :=
  if algo then PaymentTxn hashlock_address recipient 0 [] (Some recipient)
  else AssetTransferTxn hashlock_address recipient 0 asa_id (Some recipient).

Definition tool_claim_hashlock_asa (s : SwapState) (hashlock_address recipient : string)
    (preimage_hex asa_id : JVal)
  : SwapState * list Effect * (exn + Reply string) :=
  if peer_hashlock s =? "" then
    (s, [], inr (ErrorReply "No peer_hashlock in state - cannot claim"))
  else if negb (hashlock_address =? peer_hashlock s) then
    (s, [], inr (ErrorReply ("hashlock_address must be peer_hashlock ("
                             ++ peer_hashlock s ++ "), got " ++ hashlock_address)))
  else if negb (recipient =? my_address s) then
    (s, [], inr (ErrorReply ("recipient must be your address (" ++ my_address s
                             ++ "), got " ++ recipient)))
  else
    match Py.int int_of_str asa_id with
    | inl e => (s, [], inl e)
    | inr asa =>
        if (negb (asa =? 0)%Z && negb (asa =? peer_asa_id s)%Z)%bool then
          (s, [], inr (ErrorReply ("asa_id mismatch: " ++ str_Z asa
                                   ++ " != state.peer_asa_id " ++ str_Z (peer_asa_id s))))
        else
          match preimage_hex with
          | JStr p =>
              if negb (Nat.eqb (String.length p) 64) then
                (s, [], inr (ErrorReply "preimage_hex must be a 64-character hex string"))
              else
                match fromhex p with
                | None => (s, [], inr (ErrorReply "preimage_hex must be valid hex"))
                | Some preimage_bytes =>
                    if (negb (hash s =? "")
                        && negb (hexdigest preimage_bytes =? hash s))%bool then
                      (s, [], inr (ErrorReply
                                     "preimage_hex does not match expected hash in state"))
                    else
                      match suggested_params svc with
                      | inl e => (s, [], inl e)
                      | inr _ =>
                          match sign_send_confirm svc
                                  (claim_txn hashlock_address recipient (asa =? 0)%Z asa)
                                  (Some hashlock_address)
                                  (Some [("preimage", preimage_bytes)]) with
                          | (effects, inl e) => (s, effects, inl e)
                          | (effects, inr txid) =>
                              (record ("Claimed "
                                       ++ (if (asa =? 0)%Z then "ALGO"
                                           else "ASA " ++ str_Z asa)
                                       ++ " from " ++ hashlock_address
                                       ++ " (txid: " ++ txid ++ ")")
                                 (with_claim_txid txid s),
                               effects, inr (OkReply txid))
                          end
                      end
                end
          | _ => (s, [], inr (ErrorReply "preimage_hex must be a 64-character hex string"))
          end
    end.

End Tools.

End Htlc.

(** ** Services that always answer, for running the tools *)

Module Demo.

Import Ledger.

Definition svc : Services := {|
  sign_transaction := fun _ _ _ => inr "c2lnbmVk";
  sign_transactions := fun _ _ => inr "c2lnbmVk";
  sign_transactions_list := fun txns _ => inr (map (fun _ => "c2lnbmVk") txns);
  generate_key := fun _ _ => inr "HASHLOCK";
  send_raw_transaction := fun _ => inr "TXID";
  wait_for_confirmation := fun _ => inr tt;
  suggested_params := inr tt;
  application_box_by_name := fun _ _ => inl (LedgerError "box not found");
  get_application_address := fun _ => "APPADDR"
|}.

(** [int(s)] for strings of decimal digits. *)
Definition int_of_str (s : string) : option Z :=
  match NilEmpty.uint_of_string s with
  | Some d => match s with EmptyString => None | _ => Some (Z.of_uint d) end
  | None => None
  end.

(** The note field of a ledger transaction that carries [v]. *)
Definition note_b64 (v : Py.JVal) : string :=
  Base64Ref.b64encode (Py.encode (Py.dumps false v)).

(** A decoder of note fields that knows the notes of [samples]. *)
Definition loads_note (samples : list Py.JVal) (note : string) : option Py.JVal :=
  find (fun v => note_b64 v =? note) samples.

(** The answer of an indexer that holds [txns], whatever the query. *)
Definition indexer (txns : list Channel.IndexerTxn) : Channel.Indexer :=
  fun _ => Channel.IndexerResponse 200 txns.

Definition note_txn (txid : string) (round : Z) (sender : string) (v : Py.JVal)
  : Channel.IndexerTxn :=
  {| Channel.tx_id := txid; Channel.tx_note := note_b64 v;
     Channel.tx_confirmed_round := round; Channel.tx_sender := sender;
     Channel.tx_lsig_args := []; Channel.tx_amount := 0 |}.

(** A buyer's atomic-swap session: 1,000,000 units of asset 0 against
    1,000,000 units of asset 10458941. *)
Definition swap_buyer : AtomicSwap.SwapState :=
  {| AtomicSwap.role := "buyer"; AtomicSwap.status := "pending";
     AtomicSwap.my_address := "BUYER"; AtomicSwap.peer_address := "SELLER";
     AtomicSwap.my_asa_id := 0; AtomicSwap.my_asa_amount := 1000000;
     AtomicSwap.peer_asa_id := Py.JInt 10458941;
     AtomicSwap.peer_asa_amount := Py.JInt 1000000;
     AtomicSwap.group_txid := ""; AtomicSwap.swap_app_id := 7;
     AtomicSwap.swap_box_name := ""; AtomicSwap.seen_txids := [];
     AtomicSwap.last_seen_round := 100; AtomicSwap.actions := [] |}.

(** A seller's HTLC session that knows the buyer's lock and timeout. *)
Definition htlc_seller : Htlc.SwapState :=
  {| Htlc.role := "seller"; Htlc.status := "offer_received";
     Htlc.my_address := "SELLER"; Htlc.peer_address := "BUYER";
     Htlc.preimage := "";
     Htlc.hash := "66687aadf862bd776c8fc18b8e9f8e20089714856ee233b3902a591d0d5f2925";
     Htlc.my_hashlock := "SELLERLOCK"; Htlc.peer_hashlock := "BUYERLOCK";
     Htlc.my_timeout := 1200; Htlc.peer_timeout := 1500;
     Htlc.my_asa_id := 10458941; Htlc.my_asa_amount := 1000000;
     Htlc.peer_asa_id := 0; Htlc.peer_asa_amount := 1000000;
     Htlc.fund_algo_amount := 300000; Htlc.claim_txid := "";
     Htlc.seen_txids := []; Htlc.last_seen_round := 100; Htlc.actions := [] |}.

(** A buyer's HTLC session that has created its lock. *)
Definition htlc_buyer : Htlc.SwapState :=
  {| Htlc.role := "buyer"; Htlc.status := "offer_sent";
     Htlc.my_address := "BUYER"; Htlc.peer_address := "SELLER";
     Htlc.preimage := "0000000000000000000000000000000000000000000000000000000000000000";
     Htlc.hash := "66687aadf862bd776c8fc18b8e9f8e20089714856ee233b3902a591d0d5f2925";
     Htlc.my_hashlock := "BUYERLOCK"; Htlc.peer_hashlock := "";
     Htlc.my_timeout := 1500; Htlc.peer_timeout := 0;
     Htlc.my_asa_id := 0; Htlc.my_asa_amount := 1000000;
     Htlc.peer_asa_id := 10458941; Htlc.peer_asa_amount := 1000000;
     Htlc.fund_algo_amount := 300000; Htlc.claim_txid := "";
     Htlc.seen_txids := []; Htlc.last_seen_round := 100; Htlc.actions := [] |}.

(** The exchange object a seller wrote for [swap_buyer], under the
    given proposal hash. *)
Definition exchange (proposal_hash : string) : Py.JVal :=
  Py.JObj [("proposal_hash", Py.JStr proposal_hash);
           ("planned_txns_hex", Py.JList [Py.JStr "5458a1"; Py.JStr "5458a2"]);
           ("signed", Py.JList [Py.JStr ""; Py.JStr "Qg=="])].

Definition planned : list Ledger.Txn :=
  [Ledger.PaymentTxn "BUYER" "SELLER" 1000000 [] None;
   Ledger.AssetTransferTxn "SELLER" "BUYER" 1000000 10458941 None].

Definition signed_entries (v : Py.JVal) : exn + list string :=
  match v with
  | Py.JList l =>
      mapM (fun x => match x with
                     | Py.JStr s => inr s
                     | _ => inl (TypeError "signed entry is not a str")
                     end) l
  | _ => inl (TypeError "signed is not a list")
  end.

(** A signer that signs the slots it is given an address for. *)
Definition buyer_svc : Ledger.Services := {|
  Ledger.sign_transaction := fun _ _ _ => inr "QQ==";
  Ledger.sign_transactions := fun _ _ => inr "QQ==";
  Ledger.sign_transactions_list :=
    fun _ auth => inr (map (fun a => match a with Some _ => "QQ==" | None => "" end) auth);
  Ledger.generate_key := fun _ _ => inr "HASHLOCK";
  Ledger.send_raw_transaction := fun _ => inr "GROUPTXID";
  Ledger.wait_for_confirmation := fun _ => inr tt;
  Ledger.suggested_params := inr tt;
  Ledger.application_box_by_name := fun _ _ => inl (LedgerError "box not found");
  Ledger.get_application_address := fun _ => "APPADDR"
|}.

(** [verify_and_submit_swap] of [swap_buyer] against a box that holds
    [exchange proposal_hash]. *)
Definition verify_and_submit (proposal_hash : string) :=
  AtomicSwap.tool_verify_and_submit_swap int_of_str Sha256Ref.sha256 buyer_svc
    (fun _ => inr (exchange proposal_hash)) (fun _ => inr planned) signed_entries
    (fun _ _ => inr []) Base64Ref.b64decode swap_buyer.

End Demo.

(** ** A concrete signer setting for running the client model *)

Module ClientRun.

(** A transaction is represented by its sender here. *)
Definition encode_transaction (t : string) : string * string := ("5458", t).
Definition sender_of (t : string) : string := t.

Definition reply_ok (hexes : list string) : Signer.HttpReply :=
  Signer.Response 200 "{}"
    (Some {| Signer.d_error := None; Signer.d_signed := Some hexes |}).

Definition sign_transactions (server : list Signer.SignRequestEntry -> Signer.HttpReply) :=
  Signer.sign_transactions encode_transaction sender_of
    Base64Ref.b64decode Base64Ref.b64decode Base64Ref.b64encode
    HexRef.hex HexRef.fromhex server.

End ClientRun.

(** ** sdk/python/aplane/signer.py: slots of a request, single signing *)

Module SignerSlots.

Import Signer.

(** The three kinds of slot of a signing request. *)
Inductive SlotKind : Type :=
| PassthroughSlot
| ForeignSlot
| SignSlot (auth_address : string).

(** The kind the request loop gives to slot [i]: a key of a non-empty
    [passthrough] dict first, then the absence of an auth address. *)
Definition slot_kind (passthrough : option (list (Z * string))) (i : nat)
    (auth_addr : option string) : SlotKind :=
  match match passthrough with
        | Some ((_ :: _) as p) => lookupZ (Z.of_nat i) p
        | _ => None
        end with
  | Some _ => PassthroughSlot
  | None =>
      match auth_addr with
      | Some (String c a) => SignSlot (String c a)
      | _ => ForeignSlot
      end
  end.

Definition entry_kind (e : SignRequestEntry) : SlotKind :=
  match e with
  | ReqPassthrough _ => PassthroughSlot
  | ReqForeign _ _ => ForeignSlot
  | ReqSign _ auth_address _ _ => SignSlot auth_address
  end.

(** How the hex-to-base64 loop relates one entry [h] of the server's
    ["signed"] array to the entry [r] of the result. *)
Definition converted (b64encode : bytes -> string) (fromhex : string -> exn + bytes)
    (h r : string) : Prop :=
  (h = "" /\ r = "")
  \/ (h <> "" /\ exists raw, fromhex h = inr raw /\ r = b64encode raw).

Section Single.

Variable Transaction : Type.
Variable encode_transaction : Transaction -> string * string.
Variable sender_of : Transaction -> string.
Variable b64decode : string -> exn + bytes.
Variable b64decode_validate : string -> exn + bytes.
Variable b64encode : bytes -> string.
Variable hex : bytes -> string.
Variable fromhex : string -> exn + bytes.
Variable post_sign : list SignRequestEntry -> HttpReply.

(** [SignerClient.sign_transaction] *)
Definition sign_transaction (txn : Transaction) (auth_address : option string)
    (lsig_args : option (list (string * bytes))) : exn + string :=
  let auth_address :=
    match auth_address with Some a => a | None => sender_of txn end in
  let lsig_args_map :=
    match lsig_args with
    | Some ((_ :: _) as args) => Some [(auth_address, args)]
    | _ => None
    end in
  signed_list <- _sign_request encode_transaction b64decode_validate b64encode hex
                   fromhex post_sign [Some txn] [Some auth_address] lsig_args_map
                   None None ;;
  all_bytes <- join_decoded b64decode signed_list ;;
  inr (b64encode all_bytes).

End Single.

End SignerSlots.


(** ** Reference inflate for the streams of [ZlibRef.compress]

    One final block with the fixed Huffman code and literals only,
    between the two header bytes and the Adler-32 checksum; a stream
    with back references or another block type is refused. *)

Module InflateRef.

(** The bits of a byte, least significant first. *)
Definition bits_of_byte (x : byte) : list bool :=
  map (fun i => N.testbit (Byte.to_N x) (N.of_nat i)) (seq 0 8).

Definition unpack (data : bytes) : list bool := flat_map bits_of_byte data.

(** The number whose binary digits are [bits], most significant first. *)
Definition value_msb (bits : list bool) : N :=
  fold_left (fun acc (bit : bool) => (2 * acc + N.b2n bit)%N) bits 0%N.

(** The literals up to the end-of-block code. *)
Fixpoint literals (fuel : nat) (bits : list bool) : option bytes :=
  match fuel with
  | O => None
  | S fuel' =>
      if (List.length bits <? 7)%nat then None
      else
        let c7 := value_msb (firstn 7 bits) in
        if (c7 =? 0)%N then Some []
        else if (c7 <? 24)%N then None
        else if (c7 <? 96)%N then
          option_map (cons (Base64Ref.byte_of (value_msb (firstn 8 bits) - 48)))
                     (literals fuel' (skipn 8 bits))
        else if (c7 <? 100)%N then None
        else if (List.length bits <? 9)%nat then None
        else
          option_map (cons (Base64Ref.byte_of (value_msb (firstn 9 bits) - 400 + 144)))
                     (literals fuel' (skipn 9 bits))
  end.

Definition bytes_eqb (a b : bytes) : bool :=
  (Nat.eqb (List.length a) (List.length b)
   && forallb (fun xy => Byte.eqb (fst xy) (snd xy)) (combine a b))%bool.

Definition decompress (data : bytes) : exn + bytes :=
  match data with
  | x78 :: x9c :: rest =>
      match unpack rest with
      | true :: true :: false :: bits =>
          match literals (List.length bits) bits with
          | Some out =>
              if bytes_eqb (skipn (List.length data - 4) data) (ZlibRef.adler32 out)
              then inr out
              else raise (ValueError "Error -3 while decompressing data: incorrect data check")
          | None => raise (ValueError "Error -3 while decompressing data: invalid block")
          end
      | _ => raise (ValueError "Error -3 while decompressing data: invalid block type")
      end
  | _ => raise (ValueError "Error -3 while decompressing data: incorrect header check")
  end.

End InflateRef.

(** ** box_exchange.py: what the write calls of a group put into the box *)

Module BoxContents.

Import Ledger BoxExchange.

(** The chunk of a write call: the fourth argument of an application
    call whose first argument is [b"write"]. *)
Definition chunk_of (t : Txn) : list bytes :=
  match t with
  | ApplicationCallTxn _ _ [op; _; _; chunk] _ _ =>
      if InflateRef.bytes_eqb op (b "write") then [chunk] else []
  | _ => []
  end.

(** The chunks of the write calls of a group, in group order. *)
Definition written_chunks (txns : list Txn) : list bytes := flat_map chunk_of txns.

(** A node whose box holds [value], base64-encoded. *)
Definition box_svc (value : bytes) : Services := {|
  sign_transaction := fun _ _ _ => inr "c2lnbmVk";
  sign_transactions := fun _ _ => inr "c2lnbmVk";
  sign_transactions_list := fun txns _ => inr (map (fun _ => "c2lnbmVk") txns);
  generate_key := fun _ _ => inr "HASHLOCK";
  send_raw_transaction := fun _ => inr "TXID";
  wait_for_confirmation := fun _ => inr tt;
  suggested_params := inr tt;
  application_box_by_name := fun _ _ => inr (Base64Ref.b64encode value);
  get_application_address := fun _ => "APPADDR"
|}.

End BoxContents.

(** ** examples/atomicswap/tools.py: the other tools

    A transaction value stands for the arguments a tool gives to the
    SDK's constructor. *)

Module SwapMore.

Import Py Ledger Channel AtomicSwap.

Definition with_swap_box (app_id : Z) (box_name : string) (s : SwapState) : SwapState :=
  {| role := role s; status := status s; my_address := my_address s;
     peer_address := peer_address s; my_asa_id := my_asa_id s;
     my_asa_amount := my_asa_amount s; peer_asa_id := peer_asa_id s;
     peer_asa_amount := peer_asa_amount s; group_txid := group_txid s;
     swap_app_id := app_id; swap_box_name := box_name;
     seen_txids := seen_txids s; last_seen_round := last_seen_round s;
     actions := actions s |}.

(** [state.group_txid = txid; state.seen_txids.append(txid)] *)
Definition take_transfer (txid : string) (s : SwapState) : SwapState :=
  {| role := role s; status := status s; my_address := my_address s;
     peer_address := peer_address s; my_asa_id := my_asa_id s;
     my_asa_amount := my_asa_amount s; peer_asa_id := peer_asa_id s;
     peer_asa_amount := peer_asa_amount s; group_txid := txid;
     swap_app_id := swap_app_id s; swap_box_name := swap_box_name s;
     seen_txids := (seen_txids s ++ [txid])%list;
     last_seen_round := last_seen_round s;
     actions := actions s |}.

(** The fields of a session that are its own side of the swap. *)
Definition own_side (s : SwapState) :=
  (role s, my_address s, peer_address s, my_asa_id s, my_asa_amount s,
   group_txid s, swap_box_name s).

(** A transfer with another note and close-to address; the other
    fields, and any other kind of transaction, are kept. *)
Definition with_note_close (note : bytes) (close_to : option string) (t : Txn) : Txn :=
  match t with
  | PaymentTxn sender receiver amt _ _ => PaymentTxn sender receiver amt note close_to
  | AssetTransferTxn sender receiver amt index _ =>
      AssetTransferTxn sender receiver amt index close_to
  | _ => t
  end.

(** *** [_poll_incoming_asa] and [tool_wait_for_asa_transfer] *)

(** The query parameters of [_poll_incoming_asa]. *)
Record AsaQuery : Type := {
  aq_address : string;
  aq_address_role : string;
  aq_tx_type : string;
  aq_asset_id : option Z;
  aq_min_round : option Z
}.

Definition AsaIndexer : Type := AsaQuery -> IndexerReply.

Record Incoming : Type := {
  i_txid : string;
  i_round : Z;
  i_sender : string
}.

(** The loop over the response: the first transaction that is not
    skipped ends it. *)
Fixpoint first_incoming (algo : bool) (seen_txids : list string) (txns : list IndexerTxn)
  : option Incoming :=
  match txns with
  | [] => None
  | txn :: rest =>
      if mem (tx_id txn) seen_txids then first_incoming algo seen_txids rest
      else if (algo && (tx_amount txn =? 0)%Z)%bool then first_incoming algo seen_txids rest
      else Some {| i_txid := tx_id txn;
                   i_round := tx_confirmed_round txn;
                   i_sender := tx_sender txn |}
  end.

Definition _poll_incoming_asa (indexer : AsaIndexer) (address : string) (asa_id : Z)
    (min_round : Z) (seen_txids : list string) : option Incoming :=
  let algo := (asa_id =? 0)%Z in
  let params := {| aq_address := address;
                   aq_address_role := "receiver";
                   aq_tx_type := if algo then "pay" else "axfer";
                   aq_asset_id := if algo then None else Some asa_id;
                   aq_min_round := if (0 <? min_round)%Z then Some min_round else None |} in
  match indexer params with
  | IndexerFailure => None
  | IndexerResponse status_code txns =>
      if negb (status_code =? 200)%Z then None else first_incoming algo seen_txids txns
  end.

(** The polling loop; [polls] is the indexer as it answers at each
    turn that starts before the deadline. *)
Fixpoint transfer_loop (polls : list AsaIndexer) (seen : list string) (asa_id : Z)
    (s : SwapState) : SwapState * Reply (Incoming * Z) :=
  match polls with
  | [] => (record ("wait_for_asa_transfer timed out for ASA " ++ str_Z asa_id) s,
           ErrorReply ("No incoming ASA " ++ str_Z asa_id ++ " transfer within the timeout"))
  | indexer :: later =>
      match _poll_incoming_asa indexer (my_address s) asa_id (last_seen_round s) seen with
      | Some incoming =>
          (record ("Detected incoming ASA " ++ str_Z asa_id ++ " (txid: "
                   ++ i_txid incoming ++ ")")
             (take_transfer (i_txid incoming) s),
           OkReply (incoming, asa_id))
      | None => transfer_loop later seen asa_id s
      end
  end.

Section Tools.

Variable int_of_str : string -> option Z.
Variable sha256 : bytes -> bytes.
(** [str(v)], as an f-string formats a value. *)
Variable py_str : JVal -> string.
(** [str(e)] for an exception. *)
Variable str_exn : exn -> string.

Definition tool_wait_for_asa_transfer (polls : list AsaIndexer) (s : SwapState)
    (asa_id : JVal) : SwapState * (exn + Reply (Incoming * Z)) :=
  match Py.int int_of_str asa_id with
  | inl e => (s, inl e)
  | inr n =>
      let '(s', r) := transfer_loop polls (seen_txids s) n s in
      (s', inr r)
  end.

(** *** [tool_build_and_sign_swap] *)

(** The calls the tool makes to the signer and to [write_box]. *)
Inductive Call : Type :=
| PlanGroup (txns : list Txn) (auth_addresses : list (option string))
    (lsig_sizes : option (list (Z * Z)))
| SignList (txns : list Txn) (auth_addresses : list (option string))
    (lsig_sizes : option (list (Z * Z)))
| WriteBox (app_id : Z) (sender : string) (box_name data : bytes)
    (acl_addrs : list string).

(** [algod_client.suggested_params()] *)
Variable suggested_params : exn + unit.
(** [signer.plan_group(...)["transactions"]] and
    [signer.sign_transactions_list(...)], with [lsig_sizes]. *)
Variable plan_group :
  list Txn -> list (option string) -> option (list (Z * Z)) -> exn + list string.
Variable sign_list :
  list Txn -> list (option string) -> option (list (Z * Z)) -> exn + list string.
(** [load_swap_app_id()] *)
Variable load_swap_app_id : exn + Z.
Variable write_box : Z -> string -> bytes -> bytes -> list string -> exn + string.

Record BuildResult : Type := {
  b_group_size : nat;
  b_proposal_hash : string;
  b_box_name : string;
  b_app_id : Z
}.

(** The transfer of one leg: a payment for ALGO, an asset transfer
    otherwise. *)
Definition leg_txn (sender receiver : string) (asa_id amount : Z) : Txn :=
  if (asa_id =? 0)%Z then PaymentTxn sender receiver amount [] None
  else AssetTransferTxn sender receiver amount asa_id None.

(** The dict written to the box. *)
Definition exchange_data (prop_hash : string) (planned_txns_hex signed_list : list string)
  : JVal :=
  JObj [("proposal_hash", JStr prop_hash);
        ("planned_txns_hex", JList (map JStr planned_txns_hex));
        ("signed", JList (map JStr signed_list))].

(** From [auth_addresses = [None, seller_addr]] to the end of the
    [try] block. *)
Definition plan_sign_write (s : SwapState) (buyer_addr seller_addr : string)
    (offer_asa offer_amount want_asa want_amount : JVal)
    (oa om wa wm : Z) (buyer_lsig_size : JVal)
  : SwapState * list Call * (exn + Reply BuildResult) :=
  let txn_a := leg_txn buyer_addr seller_addr oa om in
  let txn_b := leg_txn seller_addr buyer_addr wa wm in
  let txns := [txn_a; txn_b] in
  let auth_addresses := [None; Some seller_addr] in
  match Py.int int_of_str buyer_lsig_size with
  | inl e => (s, [], inl e)
  | inr size =>
      let lsig_sizes := if (0 <? size)%Z then Some [(0%Z, size)] else None in
      let plan := PlanGroup txns auth_addresses lsig_sizes in
      match plan_group txns auth_addresses lsig_sizes with
      | inl e => (s, [plan], inl e)
      | inr planned_txns_hex =>
          let sign := SignList txns auth_addresses lsig_sizes in
          match sign_list txns auth_addresses lsig_sizes with
          | inl e => (s, [plan; sign], inl e)
          | inr signed_list =>
              match _proposal_hash int_of_str sha256 buyer_addr seller_addr
                      offer_asa offer_amount want_asa want_amount with
              | inl e => (s, [plan; sign], inl e)
              | inr prop_hash =>
                  let exchange_json :=
                    encode (dumps false
                              (exchange_data prop_hash planned_txns_hex signed_list)) in
                  let box_name := encode prop_hash in
                  match (if (swap_app_id s =? 0)%Z then load_swap_app_id
                         else inr (swap_app_id s)) with
                  | inl e => (s, [plan; sign], inl e)
                  | inr app_id =>
                      if (app_id =? 0)%Z then
                        (s, [plan; sign],
                         inr (ErrorReply
                                ("No swap app_id - deploy the box contract first "
                                 ++ "(run_buyer.py does this automatically)")))
                      else
                        let write := WriteBox app_id seller_addr box_name exchange_json
                                       [seller_addr; buyer_addr] in
                        match write_box app_id seller_addr box_name exchange_json
                                [seller_addr; buyer_addr] with
                        | inl e => (s, [plan; sign; write], inl e)
                        | inr _ =>
                            (record ("Built planned group ("
                                     ++ str_nat (List.length planned_txns_hex)
                                     ++ " txns) and signed own half; wrote on-chain box "
                                     ++ prop_hash)
                               (with_swap_box app_id prop_hash s),
                             [plan; sign; write],
                             inr (OkReply {| b_group_size := List.length planned_txns_hex;
                                             b_proposal_hash := prop_hash;
                                             b_box_name := prop_hash;
                                             b_app_id := app_id |}))
                        end
                  end
              end
          end
      end
  end.

Definition tool_build_and_sign_swap (s : SwapState) (buyer_addr seller_addr : string)
    (offer_asa offer_amount want_asa want_amount buyer_lsig_size : JVal)
  : SwapState * list Call * (exn + Reply BuildResult) :=
  if negb (seller_addr =? my_address s) then
    (s, [], inr (ErrorReply ("seller_addr must be your address (" ++ my_address s
                             ++ "), got " ++ seller_addr)))
  else if negb (buyer_addr =? peer_address s) then
    (s, [], inr (ErrorReply ("buyer_addr must be peer address (" ++ peer_address s
                             ++ "), got " ++ buyer_addr)))
  else
    match Py.int int_of_str offer_asa with
    | inl e => (s, [], inl e)
    | inr oa =>
        if negb (int_eq oa (peer_asa_id s)) then
          (s, [], inr (ErrorReply ("offer_asa mismatch: " ++ py_str offer_asa
                                   ++ " != state.peer_asa_id " ++ py_str (peer_asa_id s))))
        else
          match Py.int int_of_str offer_amount with
          | inl e => (s, [], inl e)
          | inr om =>
              if negb (int_eq om (peer_asa_amount s)) then
                (s, [], inr (ErrorReply ("offer_amount mismatch: " ++ py_str offer_amount
                                         ++ " != state.peer_asa_amount "
                                         ++ py_str (peer_asa_amount s))))
              else
                match Py.int int_of_str want_asa with
                | inl e => (s, [], inl e)
                | inr wa =>
                    if negb (wa =? my_asa_id s)%Z then
                      (s, [], inr (ErrorReply ("want_asa mismatch: " ++ py_str want_asa
                                               ++ " != state.my_asa_id "
                                               ++ str_Z (my_asa_id s))))
                    else
                      match Py.int int_of_str want_amount with
                      | inl e => (s, [], inl e)
                      | inr wm =>
                          if negb (wm =? my_asa_amount s)%Z then
                            (s, [], inr (ErrorReply
                                           ("want_amount mismatch: " ++ py_str want_amount
                                            ++ " != state.my_asa_amount "
                                            ++ str_Z (my_asa_amount s))))
                          else
                            match suggested_params with
                            | inl e => (s, [], inl e)
                            | inr _ =>
                                plan_sign_write s buyer_addr seller_addr offer_asa
                                  offer_amount want_asa want_amount oa om wa wm
                                  buyer_lsig_size
                            end
                      end
                end
          end
    end.

(** *** [tool_complete_swap] *)

Variable svc : Services.

Definition tool_complete_swap (s : SwapState) : SwapState * list Effect * string :=
  let s1 := with_status "complete" s in
  if (negb (swap_app_id s =? 0)%Z && negb (swap_box_name s =? ""))%bool then
    match BoxExchange.delete_box svc (swap_app_id s) (my_address s)
            (encode (swap_box_name s)) with
    | (effects, inr _) =>
        (record "Swap marked complete" (record "Deleted exchange box" s1),
         effects, "complete")
    | (effects, inl e) =>
        (record "Swap marked complete"
           (record ("Box cleanup skipped (" ++ str_exn e ++ ")") s1),
         effects, "complete")
    end
  else (record "Swap marked complete" s1, [], "complete").

End Tools.

End SwapMore.

(** ** examples/htlc/tools.py: the other tools *)

Module HtlcMore.

Import Py Ledger Channel Htlc.

(** The items of a note other than ["type"]. *)
Definition not_type (kv : string * JVal) : bool := negb (fst kv =? "type").

(** The fields of a session that are its own side of the swap and the
    agreed terms, and the fields it learns from the peer. *)
Definition own_side (s : SwapState) :=
  (role s, my_address s, peer_address s, preimage s, my_hashlock s, my_timeout s,
   my_asa_id s, my_asa_amount s, peer_asa_id s, peer_asa_amount s,
   fund_algo_amount s, claim_txid s).

Definition peer_side (s : SwapState) :=
  (status s, hash s, peer_hashlock s, peer_timeout s).

(** What [wait_for_message] leaves behind: after a note that is
    returned, a positive peer timeout, a valid peer lock and the fields
    of an offer or of an accept; otherwise the peer side as it was. *)
Definition after_message (fromhex : string -> option bytes)
    (is_valid_address : string -> bool) (s s' : SwapState)
    (r : exn + Reply Received) : Prop :=
  match r with
  | inr (OkReply received) =>
      (0 < peer_timeout s')%Z
      /\ is_valid_address (peer_hashlock s') = true
      /\ ((r_type received = JStr "htlc_offer"
           /\ status s' = "offer_received"
           /\ String.length (hash s') = 64
           /\ fromhex (hash s') <> None)
          \/ (r_type received = JStr "htlc_accept"
              /\ status s' = "accept_received"
              /\ hash s' = hash s
              /\ (my_timeout s = 0%Z \/ (peer_timeout s' < my_timeout s)%Z)))
  | _ => peer_side s' = peer_side s
  end.

(** [state.preimage = preimage.hex(); state.hash = h.hex()] *)
Definition with_secret (preimage_hex hash_hex : string) (s : SwapState) : SwapState :=
  with_hash hash_hex (with_preimage preimage_hex s).

Section Tools.

Variable int_of_str : string -> option Z.
(** [hashlib.sha256(data).digest()] *)
Variable sha256 : bytes -> bytes.
Variable fromhex : string -> option bytes.
(** [str(v)], as an f-string formats a value. *)
Variable py_str : JVal -> string.
Variable svc : Services.

(** [tool_generate_preimage]; [random] is what [os.urandom(32)]
    returned. *)
Definition tool_generate_preimage (random : bytes) (s : SwapState)
  : SwapState * (string * string) :=
  let h := sha256 random in
  let s1 := with_secret (HexRef.hex random) (HexRef.hex h) s in
  (record ("Generated preimage (hash: " ++ hash s1 ++ ")") s1,
   (preimage s1, hash s1)).

Definition no_lock_message : string :=
  "No my_hashlock in state - create_hashlock must run first".

(** [tool_fund_hashlock] *)
Definition tool_fund_hashlock (s : SwapState) (from_address hashlock_address : string)
    (amount_microalgos : JVal) : SwapState * list Effect * (exn + Reply string) :=
  if negb (from_address =? my_address s) then
    (s, [], inr (ErrorReply ("from_address must be your address (" ++ my_address s
                             ++ "), got " ++ from_address)))
  else if my_hashlock s =? "" then (s, [], inr (ErrorReply no_lock_message))
  else if negb (hashlock_address =? my_hashlock s) then
    (s, [], inr (ErrorReply ("hashlock_address must be your hashlock ("
                             ++ my_hashlock s ++ "), got " ++ hashlock_address)))
  else
    match Py.int int_of_str amount_microalgos with
    | inl e => (s, [], inl e)
    | inr amount =>
        if (amount <? fund_algo_amount s)%Z then
          (s, [], inr (ErrorReply ("amount_microalgos too low: "
                                   ++ py_str amount_microalgos ++ " < required "
                                   ++ str_Z (fund_algo_amount s))))
        else
          match suggested_params svc with
          | inl e => (s, [], inl e)
          | inr _ =>
              match sign_send_confirm svc
                      (PaymentTxn from_address hashlock_address amount [] None)
                      None None with
              | (effects, inl e) => (s, effects, inl e)
              | (effects, inr txid) =>
                  (record ("Funded " ++ hashlock_address ++ " with "
                           ++ py_str amount_microalgos ++ " microAlgos (txid: "
                           ++ txid ++ ")") s,
                   effects, inr (OkReply txid))
              end
          end
    end.

(** What [tool_optin_asa] answers when it does not fail. *)
Inductive OptIn : Type :=
| NotNeeded
| OptedIn (txid : string).

(** [tool_optin_asa] *)
Definition tool_optin_asa (s : SwapState) (hashlock_address : string) (asa_id : JVal)
  : SwapState * list Effect * (exn + Reply OptIn) :=
  match Py.int int_of_str asa_id with
  | inl e => (s, [], inl e)
  | inr asa =>
      if (asa =? 0)%Z then
        (record "No opt-in needed for ALGO" s, [], inr (OkReply NotNeeded))
      else if my_hashlock s =? "" then (s, [], inr (ErrorReply no_lock_message))
      else if negb (hashlock_address =? my_hashlock s) then
        (s, [], inr (ErrorReply ("hashlock_address must be your hashlock ("
                                 ++ my_hashlock s ++ "), got " ++ hashlock_address)))
      else if negb (asa =? my_asa_id s)%Z then
        (s, [], inr (ErrorReply ("asa_id mismatch: " ++ py_str asa_id
                                 ++ " != state.my_asa_id " ++ str_Z (my_asa_id s))))
      else
        match suggested_params svc with
        | inl e => (s, [], inl e)
        | inr _ =>
            match sign_send_confirm svc
                    (AssetTransferTxn hashlock_address hashlock_address 0 asa None)
                    (Some hashlock_address) None with
            | (effects, inl e) => (s, effects, inl e)
            | (effects, inr txid) =>
                (record ("Opted " ++ hashlock_address ++ " into ASA " ++ py_str asa_id
                         ++ " (txid: " ++ txid ++ ")") s,
                 effects, inr (OkReply (OptedIn txid)))
            end
        end
  end.

(** [tool_fund_hashlock_asa] *)
Definition tool_fund_hashlock_asa (s : SwapState) (from_address hashlock_address : string)
    (asa_id asa_amount : JVal) : SwapState * list Effect * (exn + Reply string) :=
  if negb (from_address =? my_address s) then
    (s, [], inr (ErrorReply ("from_address must be your address (" ++ my_address s
                             ++ "), got " ++ from_address)))
  else if my_hashlock s =? "" then (s, [], inr (ErrorReply no_lock_message))
  else if negb (hashlock_address =? my_hashlock s) then
    (s, [], inr (ErrorReply ("hashlock_address must be your hashlock ("
                             ++ my_hashlock s ++ "), got " ++ hashlock_address)))
  else
    match Py.int int_of_str asa_id with
    | inl e => (s, [], inl e)
    | inr asa =>
        if (negb (asa =? 0)%Z && negb (asa =? my_asa_id s)%Z)%bool then
          (s, [], inr (ErrorReply ("asa_id mismatch: " ++ py_str asa_id
                                   ++ " != state.my_asa_id " ++ str_Z (my_asa_id s))))
        else
          match Py.int int_of_str asa_amount with
          | inl e => (s, [], inl e)
          | inr amount =>
              if negb (amount =? my_asa_amount s)%Z then
                (s, [], inr (ErrorReply ("asa_amount mismatch: " ++ py_str asa_amount
                                         ++ " != state.my_asa_amount "
                                         ++ str_Z (my_asa_amount s))))
              else
                match suggested_params svc with
                | inl e => (s, [], inl e)
                | inr _ =>
                    match sign_send_confirm svc
                            (if (asa =? 0)%Z
                             then PaymentTxn from_address hashlock_address amount [] None
                             else AssetTransferTxn from_address hashlock_address amount
                                    asa None)
                            None None with
                    | (effects, inl e) => (s, effects, inl e)
                    | (effects, inr txid) =>
                        (record ("Funded " ++ hashlock_address ++ " with "
                                 ++ py_str asa_amount ++ " of "
                                 ++ (if (asa =? 0)%Z then "ALGO"
                                     else "ASA " ++ py_str asa_id)
                                 ++ " (txid: " ++ txid ++ ")") s,
                         effects, inr (OkReply txid))
                    end
                end
          end
    end.

(** [tool_claim_hashlock] *)
Definition tool_claim_hashlock (s : SwapState) (hashlock_address recipient : string)
    (preimage_hex : JVal) : SwapState * list Effect * (exn + Reply string) :=
  if peer_hashlock s =? "" then
    (s, [], inr (ErrorReply "No peer_hashlock in state - cannot claim"))
  else if negb (hashlock_address =? peer_hashlock s) then
    (s, [], inr (ErrorReply ("hashlock_address must be peer_hashlock ("
                             ++ peer_hashlock s ++ "), got " ++ hashlock_address)))
  else if negb (recipient =? my_address s) then
    (s, [], inr (ErrorReply ("recipient must be your address (" ++ my_address s
                             ++ "), got " ++ recipient)))
  else
    match preimage_hex with
    | JStr p =>
        if negb (Nat.eqb (String.length p) 64) then
          (s, [], inr (ErrorReply "preimage_hex must be a 64-character hex string"))
        else
          match fromhex p with
          | None => (s, [], inr (ErrorReply "preimage_hex must be valid hex"))
          | Some preimage_bytes =>
              if (negb (hash s =? "")
                  && negb (hexdigest sha256 preimage_bytes =? hash s))%bool then
                (s, [], inr (ErrorReply
                               "preimage_hex does not match expected hash in state"))
              else
                match suggested_params svc with
                | inl e => (s, [], inl e)
                | inr _ =>
                    match sign_send_confirm svc
                            (PaymentTxn hashlock_address recipient 0 [] (Some recipient))
                            (Some hashlock_address)
                            (Some [("preimage", preimage_bytes)]) with
                    | (effects, inl e) => (s, effects, inl e)
                    | (effects, inr txid) =>
                        (record ("Claimed ALGO from " ++ hashlock_address
                                 ++ " (txid: " ++ txid ++ ")")
                           (with_claim_txid txid s),
                         effects, inr (OkReply txid))
                    end
                end
          end
    | _ => (s, [], inr (ErrorReply "preimage_hex must be a 64-character hex string"))
    end.

End Tools.

End HtlcMore.

(** ** A seller's session and services for running the other tools *)

Module DemoMore.

(** The seller's session that mirrors [Demo.swap_buyer]. *)
Definition swap_seller : AtomicSwap.SwapState :=
  {| AtomicSwap.role := "seller"; AtomicSwap.status := "propose_received";
     AtomicSwap.my_address := "SELLER"; AtomicSwap.peer_address := "BUYER";
     AtomicSwap.my_asa_id := 10458941; AtomicSwap.my_asa_amount := 1000000;
     AtomicSwap.peer_asa_id := Py.JInt 0;
     AtomicSwap.peer_asa_amount := Py.JInt 1000000;
     AtomicSwap.group_txid := ""; AtomicSwap.swap_app_id := 7;
     AtomicSwap.swap_box_name := ""; AtomicSwap.seen_txids := ["T0"];
     AtomicSwap.last_seen_round := 100; AtomicSwap.actions := [] |}.

(** [str(v)] for the values that reach an f-string here. *)
Definition py_str (v : Py.JVal) : string :=
  match v with
  | Py.JStr s => s
  | Py.JInt z => str_Z z
  | Py.JBool true => "True"
  | Py.JBool false => "False"
  | Py.JNull => "None"
  | _ => Py.dumps false v
  end.

Definition str_exn (e : exn) : string :=
  match e with
  | ValueError m | TypeError m | KeyError m | SignerError m | AuthenticationError m
  | SigningRejectedError m | SignerUnavailableError m | KeyNotFoundError m
  | LedgerError m => m
  | IndexError => "list index out of range"
  end.

(** A signer that plans a group as it is given and signs the slots it
    is given an address for. *)
Definition plan_group (txns : list Ledger.Txn) (auth : list (option string))
    (lsig_sizes : option (list (Z * Z))) : exn + list string :=
  inr (map (fun _ => "5458a1") txns).

Definition sign_list (txns : list Ledger.Txn) (auth : list (option string))
    (lsig_sizes : option (list (Z * Z))) : exn + list string :=
  inr (map (fun a => match a with Some _ => "Qg==" | None => "" end) auth).

Definition write_box (app_id : Z) (sender : string) (box_name data : bytes)
    (acl_addrs : list string) : exn + string :=
  inr "BOXTXID".

(** [build_and_sign_swap] of [swap_seller] with the terms of the session. *)
Definition build_and_sign :=
  SwapMore.tool_build_and_sign_swap Demo.int_of_str Sha256Ref.sha256 py_str (inr tt)
    plan_group sign_list (inr 0%Z) write_box swap_seller "BUYER" "SELLER"
    (Py.JInt 0) (Py.JInt 1000000) (Py.JInt 10458941) (Py.JInt 1000000) (Py.JInt 0).

(** An indexer that answers every query with [txns]. *)
Definition asa_indexer (txns : list Channel.IndexerTxn) : SwapMore.AsaIndexer :=
  fun _ => Channel.IndexerResponse 200 txns.

Definition transfer (txid : string) (round amount : Z) (sender : string)
  : Channel.IndexerTxn :=
  {| Channel.tx_id := txid; Channel.tx_note := "";
     Channel.tx_confirmed_round := round; Channel.tx_sender := sender;
     Channel.tx_lsig_args := []; Channel.tx_amount := amount |}.

End DemoMore.
(** * Verification *)

(** ** The JSON writer on an example *)

Example dumps_example :
  let qs s := String Py.dq (s ++ String Py.dq "") in
  Py.dumps false
    (Py.JObj [("a", Py.JStr (String Py.dq (String (ascii_of_nat 10)
                                (String (ascii_of_nat 127) "x"))));
              ("b", Py.JInt (-5)); ("c", Py.JBool true); ("d", Py.JNull);
              ("e", Py.JList [Py.JInt 1; Py.JObj [("k", Py.JInt 0)]])])
  = "{" ++ qs "a" ++ ":" ++ qs ("\" ++ String Py.dq "\n\u007fx") ++ ","
        ++ qs "b" ++ ":-5," ++ qs "c" ++ ":true," ++ qs "d" ++ ":null,"
        ++ qs "e" ++ ":[1,{" ++ qs "k" ++ ":0}]}".
Proof. reflexivity. Qed.

(** ** The reference digest on test vectors *)

Example sha256_empty :
  Sha256Ref.hexdigest [] = "e3b0c44298fc1c149afbf4c8996fb92427ae41e4649b934ca495991b7852b855".
Proof. vm_compute. reflexivity. Qed.

Example sha256_abc :
  Sha256Ref.hexdigest (Py.encode "abc") = "ba7816bf8f01cfea414140de5dae2223b00361a396177a9cb410ff61f20015ad".
Proof. vm_compute. reflexivity. Qed.

Example sha256_two_blocks :
  Sha256Ref.hexdigest (Py.encode "The quick brown fox jumps over the lazy dog, and then does it again and again.") = "430db3567b7bc8c1c8b4c8607d65a72fdc392147365fa2f9c114fc4ec6443e0e".
Proof. vm_compute. reflexivity. Qed.

Example sha256_zero_preimage :
  Sha256Ref.hexdigest (repeat x00 32) = "66687aadf862bd776c8fc18b8e9f8e20089714856ee233b3902a591d0d5f2925".
Proof. vm_compute. reflexivity. Qed.

(** ** Generic facts about [mapM] *)

Lemma mapM_inr_Forall2 {A B} (f : A -> exn + B) (l : list A) (bs : list B) :
  mapM f l = inr bs <-> Forall2 (fun a b => f a = inr b) l bs.
Proof.
  revert bs; induction l as [|a l IH]; intros bs; simpl.
  - split; intros H.
    + inversion H; constructor.
    + inversion H; reflexivity.
  - destruct (f a) as [e|b] eqn:Ea; simpl.
    + split; intros H; [discriminate|].
      inversion H; subst. congruence.
    + destruct (mapM f l) as [e|bs'] eqn:El; simpl.
      * split; intros H; [discriminate|].
        inversion H as [|? ? ? ? Hab Hrest]; subst.
        apply IH in Hrest. discriminate.
      * split; intros H.
        -- inversion H; subst. constructor; [exact Ea|]. now apply IH.
        -- inversion H as [|? ? ? ? Hab Hrest]; subst.
           apply IH in Hrest. congruence.
Qed.

Lemma mapM_total {A B} (f : A -> exn + B) (l : list A) :
  (forall a, In a l -> exists b, f a = inr b) -> exists bs, mapM f l = inr bs.
Proof.
  induction l as [|a l IH]; intros H; simpl.
  - now exists [].
  - destruct (H a (or_introl eq_refl)) as [b Hb]. rewrite Hb; simpl.
    destruct IH as [bs Hbs]; [intros; apply H; now right|].
    rewrite Hbs; simpl. now eexists.
Qed.

Lemma mapM_inr_In {A B} (f : A -> exn + B) (l : list A) (bs : list B) :
  mapM f l = inr bs -> forall a, In a l -> exists b, f a = inr b.
Proof.
  intros H; apply mapM_inr_Forall2 in H.
  induction H as [|a b l bs' Hab _ IH]; intros x Hx; [easy|].
  destruct Hx as [<-|Hx]; [now exists b|now apply IH].
Qed.

(** The first element on which [f] raises decides the exception. *)
Lemma mapM_first_failure {A B} (f : A -> exn + B) (l1 l2 : list A) (a : A) (e : exn) :
  (forall x, In x l1 -> exists b, f x = inr b) ->
  f a = inl e ->
  mapM f (l1 ++ a :: l2)%list = inl e.
Proof.
  induction l1 as [|x l1 IH]; intros Hok Ha; simpl.
  - now rewrite Ha.
  - destruct (Hok x (or_introl eq_refl)) as [b Hb]. rewrite Hb; simpl.
    rewrite IH; [reflexivity| |assumption].
    intros; apply Hok; now right.
Qed.

(** ** Group assembler *)

Section AssembleFacts.

Import Signer.

Variable b64decode : string -> exn + bytes.
Variable b64encode : bytes -> string.

Lemma check_lengths_ok (n i : nat) (ls : list (list string)) :
  Forall (fun sl => List.length sl = n) ls -> check_lengths n i ls = inr tt.
Proof.
  intros H; revert i; induction H as [|sl ls Hsl _ IH]; intros i; simpl.
  - reflexivity.
  - rewrite Hsl, Nat.eqb_refl. apply IH.
Qed.

Lemma check_lengths_fail (n i : nat) (ls : list (list string)) :
  (exists sl, In sl ls /\ List.length sl <> n) -> exists e, check_lengths n i ls = inl e.
Proof.
  revert i; induction ls as [|sl ls IH]; intros i [x [Hin Hx]]; simpl.
  - destruct Hin.
  - destruct (Nat.eqb (List.length sl) n) eqn:E.
    + apply Nat.eqb_eq in E. destruct Hin as [->|Hin]; [contradiction|].
      apply IH. now exists x.
    + eexists; reflexivity.
Qed.

Lemma resolve_slot_inr (ls : list (list string)) (idx : nat) (e : string) :
  resolve_slot ls idx = inr e <-> entries_at ls idx = [e].
Proof.
  unfold resolve_slot.
  destruct (entries_at ls idx) as [|x [|y r]]; simpl; split; intros H;
    try discriminate; congruence.
Qed.

Lemma resolve_slot_one (ls : list (list string)) (idx : nat) :
  List.length (entries_at ls idx) = 1 <-> exists e, resolve_slot ls idx = inr e.
Proof.
  unfold resolve_slot.
  destruct (entries_at ls idx) as [|x [|y r]]; simpl; split;
    try (intros [e He]); try intros H; try discriminate; try reflexivity.
  now exists x.
Qed.

Lemma resolve_slot_inl (ls : list (list string)) (idx : nat) :
  List.length (entries_at ls idx) <> 1 -> resolve_slot ls idx = inl (slot_error ls idx).
Proof.
  unfold resolve_slot, slot_error.
  destruct (entries_at ls idx) as [|x [|y r]]; simpl; intros H;
    try reflexivity; contradiction.
Qed.

Lemma merge_slots_ok_iff (ls : list (list string)) (n : nat) :
  (exists merged, merge_slots ls n = inr merged)
  <-> (forall idx, idx < n -> List.length (entries_at ls idx) = 1).
Proof.
  unfold merge_slots; split.
  - intros [merged H] idx Hidx.
    apply resolve_slot_one.
    apply (mapM_inr_In _ _ H). apply in_seq; lia.
  - intros H. apply mapM_total. intros idx Hidx.
    apply resolve_slot_one, H. apply in_seq in Hidx; lia.
Qed.

Lemma merge_slots_first_offender (ls : list (list string)) (n i : nat) :
  i < n ->
  List.length (entries_at ls i) <> 1 ->
  (forall j, j < i -> List.length (entries_at ls j) = 1) ->
  merge_slots ls n = inl (slot_error ls i).
Proof.
  intros Hi Hbad Hbefore. unfold merge_slots.
  replace n with (i + (n - i)) by lia.
  rewrite seq_app.
  destruct (n - i) as [|m] eqn:Em; [lia|]. simpl seq.
  apply mapM_first_failure.
  - intros x Hx. apply in_seq in Hx. apply resolve_slot_one, Hbefore. lia.
  - now apply resolve_slot_inl.
Qed.

Lemma merged_entries (ls : list (list string)) (n : nat) (merged : list string) :
  merge_slots ls n = inr merged ->
  List.length merged = n /\
  forall idx, idx < n -> entries_at ls idx = [nth idx merged ""].
Proof.
  unfold merge_slots. intros H. apply mapM_inr_Forall2 in H.
  assert (G : forall start k m,
             Forall2 (fun a b => resolve_slot ls a = inr b) (seq start k) m ->
             List.length m = k /\
             forall idx, idx < k -> entries_at ls (start + idx) = [nth idx m ""]).
  { intros start k; revert start; induction k as [|k IH]; intros start m F; simpl in F.
    - inversion F; subst. split; [reflexivity|]. intros; lia.
    - inversion F as [|? b ? m' Hb Hrest]; subst.
      destruct (IH _ _ Hrest) as [Hlen Hnth].
      split; [simpl; now rewrite Hlen|].
      intros [|idx] Hidx; simpl.
      + rewrite Nat.add_0_r. now apply resolve_slot_inr.
      + replace (start + S idx) with (S start + idx) by lia. apply Hnth. lia. }
  destruct (G 0 n merged H) as [Hlen Hnth]. split; [assumption|].
  intros idx Hidx. now apply (Hnth idx).
Qed.

Lemma merged_entries_in (ls : list (list string)) (n : nat) (merged : list string) :
  merge_slots ls n = inr merged ->
  forall s, In s merged -> truthy s = true /\ In s (List.concat ls).
Proof.
  intros H s Hs.
  destruct (merged_entries _ _ H) as [Hlen Hnth].
  destruct (In_nth _ _ "" Hs) as [idx [Hidx Hnthidx]].
  rewrite Hlen in Hidx. specialize (Hnth idx Hidx). rewrite Hnthidx in Hnth.
  assert (Hin : In s (entries_at ls idx)) by (rewrite Hnth; now left).
  unfold entries_at in Hin. apply filter_In in Hin. destruct Hin as [Hin Ht].
  split; [assumption|].
  apply in_map_iff in Hin. destruct Hin as [sl [Hsl Hinsl]].
  apply in_concat. exists sl. split; [assumption|].
  destruct (Nat.lt_ge_cases idx (List.length sl)) as [Hlt|Hge].
  - rewrite <- Hsl. now apply nth_In.
  - rewrite nth_overflow in Hsl by assumption. rewrite <- Hsl in Ht. vm_compute in Ht. discriminate.
Qed.

End AssembleFacts.

(** Decimal renderings consist of digits, so a message can be split at
    the first character after the slot number. *)
Lemma drop_digits_uint (d : Decimal.uint) (rest : string) :
  drop_digits (NilEmpty.string_of_uint d ++ rest) = drop_digits rest.
Proof.
  induction d; simpl; try reflexivity; exact IHd.
Qed.

Lemma drop_digits_str_nat (n : nat) (rest : string) :
  drop_digits (str_nat n ++ rest) = drop_digits rest.
Proof. apply drop_digits_uint. Qed.

Lemma conflicting_is_not_missing (i j : nat) :
  Signer.conflicting_signer i <> Signer.missing_signer j.
Proof.
  unfold Signer.conflicting_signer, Signer.missing_signer. intros H.
  injection H as H. simpl in H.
  apply (f_equal drop_digits) in H.
  rewrite !drop_digits_str_nat in H. discriminate.
Qed.

(** C1 (amended).  For a non-empty list of signed arrays that all have
    N entries: [assemble_group] returns only if every index has exactly
    one non-empty entry; when every index has exactly one and the chosen
    entries are decodable base64, it returns the encoding of their decoded
    bytes joined in slot order; otherwise it raises the error of the
    lowest index that has no entry (missing signer) or several
    (conflicting signers).  Arrays of unequal length make it raise. *)
Theorem assemble_group_spec
    (b64decode : string -> exn + bytes) (b64encode : bytes -> string)
    (ls : list (list string)) :
  ls <> [] ->
  (forall N, Forall (fun sl => List.length sl = N) ls ->
     ((exists out, Signer.assemble_group b64decode b64encode ls = inr out) ->
        forall idx, idx < N -> List.length (Signer.entries_at ls idx) = 1)
     /\ ((forall s, In s (List.concat ls) -> Signer.truthy s = true ->
                    exists b, b64decode s = inr b) ->
         (forall idx, idx < N -> List.length (Signer.entries_at ls idx) = 1) ->
         exists merged parts,
           List.length merged = N
           /\ (forall idx, idx < N -> Signer.entries_at ls idx = [nth idx merged ""])
           /\ Forall2 (fun e p => b64decode e = inr p) merged parts
           /\ Signer.assemble_group b64decode b64encode ls
              = inr (b64encode (List.concat parts)))
     /\ (forall i, i < N ->
           (forall j, j < i -> List.length (Signer.entries_at ls j) = 1) ->
           (Signer.entries_at ls i = [] ->
              Signer.assemble_group b64decode b64encode ls
              = inl (Signer.missing_signer i))
           /\ (2 <= List.length (Signer.entries_at ls i) ->
              Signer.assemble_group b64decode b64encode ls
              = inl (Signer.conflicting_signer i))))
  /\ ((exists sl, In sl ls /\ List.length sl <> List.length (hd [] ls)) ->
      exists msg, Signer.assemble_group b64decode b64encode ls = inl (ValueError msg)).
Proof.
  intros Hne. destruct ls as [|first rest]; [contradiction|]. split.
  - intros N Hall.
    assert (HN : List.length first = N) by now inversion Hall.
    unfold Signer.assemble_group.
    rewrite HN, (check_lengths_ok 0 Hall). cbn [Exc.bind].
    split; [|split].
    + intros [out Hout].
      apply merge_slots_ok_iff.
      destruct (Signer.merge_slots (first :: rest) N) as [e|merged]; [discriminate|].
      now exists merged.
    + intros Hdec Hone.
      destruct (proj2 (merge_slots_ok_iff (first :: rest) N) Hone) as [merged Hm].
      rewrite Hm. cbn [Exc.bind].
      destruct (merged_entries _ _ Hm) as [Hlen Hnth].
      destruct (mapM_total b64decode merged) as [parts Hparts].
      { intros s Hs. destruct (merged_entries_in _ _ Hm s Hs) as [Ht Hin].
        now apply Hdec. }
      exists merged, parts. repeat split; try assumption.
      * now apply mapM_inr_Forall2.
      * unfold Signer.join_decoded. now rewrite Hparts.
    + intros i Hi Hbefore. split; intros Hbad.
      * rewrite (@merge_slots_first_offender (first :: rest) N i Hi); try assumption.
        -- unfold Signer.slot_error. now rewrite Hbad.
        -- rewrite Hbad. simpl. lia.
      * rewrite (@merge_slots_first_offender (first :: rest) N i Hi); try assumption.
        -- unfold Signer.slot_error.
           destruct (Signer.entries_at (first :: rest) i); simpl in *; [lia|reflexivity].
        -- lia.
  - intros Hbad. unfold Signer.assemble_group.
    destruct (@check_lengths_fail _ 0 _ Hbad) as [e He]. simpl hd in He. rewrite He.
    cbn [Exc.bind].
    assert (G : forall n i l e', Signer.check_lengths n i l = inl e' -> exists msg, e' = ValueError msg).
    { intros n i l; revert i; induction l as [|sl l IH]; intros i e'; simpl.
      - discriminate.
      - destruct (Nat.eqb (List.length sl) n); [apply IH|].
        intros H; injection H as <-. eexists; reflexivity. }
    destruct (G _ _ _ _ He) as [msg ->]. now exists msg.
Qed.

Lemma assemble_group_spec_witness :
  let ls := [["QQ=="; ""]; [""; "Qg=="]] in
  ls <> [] /\
  Forall (fun sl => List.length sl = 2) ls /\
  (forall idx, idx < 2 -> List.length (Signer.entries_at ls idx) = 1) /\
  exists merged parts,
    List.length merged = 2
    /\ (forall idx, idx < 2 -> Signer.entries_at ls idx = [nth idx merged ""])
    /\ Forall2 (fun e p => Base64Ref.b64decode e = inr p) merged parts
    /\ Signer.assemble_group Base64Ref.b64decode Base64Ref.b64encode ls
       = inr (Base64Ref.b64encode (List.concat parts)).
Proof.
  assert (Hne : [["QQ=="; ""]; [""; "Qg=="]] <> @nil (list string)) by discriminate.
  assert (Hall : Forall (fun sl => List.length sl = 2) [["QQ=="; ""]; [""; "Qg=="]])
    by (repeat constructor).
  assert (Hone : forall idx, idx < 2 ->
            List.length (Signer.entries_at [["QQ=="; ""]; [""; "Qg=="]] idx) = 1).
  { intros [|[|idx]] H; try reflexivity; lia. }
  split; [exact Hne|]. split; [exact Hall|]. split; [exact Hone|].
  refine (proj1 (proj2 (proj1
            (assemble_group_spec Base64Ref.b64decode Base64Ref.b64encode Hne) 2 Hall))
            _ Hone).
  intros s Hs Ht. simpl in Hs.
  destruct Hs as [<-|[<-|[<-|[<-|[]]]]]; try discriminate Ht; eexists; reflexivity.
Defined.

(** C1 as stated fails: index 1 has no signed entry, yet the error is
    the conflicting-signer error of slot 0 and no missing-signer error. *)
Lemma assemble_group_classification_counterexample :
  let ls := [["QQ=="; ""]; ["Qg=="; ""]] in
  Forall (fun sl => List.length sl = 2) ls
  /\ Signer.entries_at ls 1 = []
  /\ Signer.assemble_group Base64Ref.b64decode Base64Ref.b64encode ls
     = inl (Signer.conflicting_signer 0)
  /\ forall idx, Signer.assemble_group Base64Ref.b64decode Base64Ref.b64encode ls
                 <> inl (Signer.missing_signer idx).
Proof.
  cbv zeta. split; [repeat constructor|]. split; [reflexivity|].
  assert (E : Signer.assemble_group Base64Ref.b64decode Base64Ref.b64encode
                [["QQ=="; ""]; ["Qg=="; ""]] = inl (Signer.conflicting_signer 0))
    by reflexivity.
  split; [exact E|].
  intros idx H. rewrite E in H.
  apply (@conflicting_is_not_missing 0 idx). congruence.
Qed.

(** ** Signing client *)

Section ClientFacts.

Import Signer.

Lemma existsb_empty_In (l : list string) :
  existsb (fun s => s =? "") l = true <-> In "" l.
Proof.
  rewrite existsb_exists. split.
  - intros [x [Hin Hx]]. apply String.eqb_eq in Hx. now subst.
  - intros H. exists "". now split.
Qed.

Lemma existsb_empty_Forall (l : list string) :
  existsb (fun s => s =? "") l = false -> Forall (fun s => s <> "") l.
Proof.
  intros H. apply Forall_forall. intros x Hx ->.
  apply existsb_empty_In in Hx. congruence.
Qed.

Lemma convert_signed_empty fromhex b64encode (hexes out : list string) :
  mapM (convert_signed b64encode fromhex) hexes = inr out ->
  In "" hexes -> In "" out.
Proof.
  intros H. apply mapM_inr_Forall2 in H.
  induction H as [|h o hs os Hho _ IH]; intros Hin; [easy|].
  destruct Hin as [->|Hin].
  - unfold convert_signed in Hho. simpl in Hho. left. congruence.
  - right. now apply IH.
Qed.

End ClientFacts.

(** C10.  [sign_transactions] never yields an incomplete group: when it
    returns, the list obtained from the signer has no empty entry and the
    result encodes the decoded bytes of every slot, joined in order; when
    that list has an empty entry it raises [SignerError]; and it does so
    whenever the server answers 200 with a per-slot array that has an
    empty entry and whose other entries are hexadecimal. *)
Theorem sign_transactions_complete_or_error
    (Transaction : Type)
    (encode_transaction : Transaction -> string * string)
    (sender_of : Transaction -> string)
    (b64decode b64decode_validate : string -> exn + bytes)
    (b64encode : bytes -> string) (hex : bytes -> string)
    (fromhex : string -> exn + bytes)
    (post_sign : list Signer.SignRequestEntry -> Signer.HttpReply)
    (txns : list (option Transaction)) (auth_addresses : option (list (option string)))
    lsig_args_map passthrough lsig_sizes :
  let auth := match auth_addresses with
              | Some a => a
              | None => Signer.default_auth sender_of txns
              end in
  let run := Signer.sign_transactions encode_transaction sender_of b64decode
               b64decode_validate b64encode hex fromhex post_sign
               txns auth_addresses lsig_args_map passthrough lsig_sizes in
  let request := Signer._sign_request encode_transaction b64decode_validate b64encode
                   hex fromhex post_sign txns auth lsig_args_map
                   passthrough lsig_sizes in
  (forall out, run = inr out ->
     exists signed_list parts,
       request = inr signed_list
       /\ Forall (fun s => s <> "") signed_list
       /\ Forall2 (fun s p => b64decode s = inr p) signed_list parts
       /\ out = b64encode (List.concat parts))
  /\ (List.length auth = List.length txns ->
      forall signed_list, request = inr signed_list -> In "" signed_list ->
        run = inl (SignerError Signer.foreign_slots_message))
  /\ (List.length auth = List.length txns ->
      forall body text data hexes,
        Signer._build_sign_request_body encode_transaction b64decode_validate hex
          txns auth lsig_args_map passthrough lsig_sizes = inr body ->
        post_sign body = Signer.Response 200 text (Some data) ->
        (Signer.d_error data = None \/ Signer.d_error data = Some "") ->
        Signer.d_signed data = Some hexes ->
        In "" hexes ->
        (forall h, In h hexes -> h <> "" -> exists raw, fromhex h = inr raw) ->
        run = inl (SignerError Signer.foreign_slots_message)).
Proof.
  cbv zeta. unfold Signer.sign_transactions.
  set (auth := match auth_addresses with
               | Some a => a
               | None => Signer.default_auth sender_of txns
               end).
  set (request := Signer._sign_request _ _ _ _ _ _ _ _ _ _ _).
  assert (Hraise : List.length auth = List.length txns ->
            forall signed_list, request = inr signed_list -> In "" signed_list ->
            (if negb (Nat.eqb (List.length auth) (List.length txns))
             then raise (ValueError "auth_addresses length must match txns length")
             else signed_list <- request ;;
                  if existsb (fun s => s =? "") signed_list
                  then raise (SignerError Signer.foreign_slots_message)
                  else all_bytes <- Signer.join_decoded b64decode signed_list ;;
                       inr (b64encode all_bytes))
            = inl (SignerError Signer.foreign_slots_message)).
  { intros Hlen signed_list Hreq Hin.
    rewrite Hlen, Nat.eqb_refl. simpl negb. cbv iota.
    rewrite Hreq. cbn [Exc.bind].
    now rewrite (proj2 (existsb_empty_In signed_list) Hin). }
  split; [|split].
  - intros out Hout.
    destruct (negb (Nat.eqb (List.length auth) (List.length txns)));
      [discriminate|].
    destruct request as [e|signed_list]; [discriminate|]. cbn [Exc.bind] in Hout.
    destruct (existsb (fun s => s =? "") signed_list) eqn:Hex; [discriminate|].
    unfold Signer.join_decoded in Hout.
    destruct (mapM b64decode signed_list) as [e|parts] eqn:Hparts; [discriminate|].
    cbn [Exc.bind] in Hout. injection Hout as <-.
    exists signed_list, parts. repeat split.
    + now apply existsb_empty_Forall.
    + now apply mapM_inr_Forall2.
  - exact Hraise.
  - intros Hlen body text data hexes Hbody Hpost Herr Hsigned Hin Hhex.
    destruct (mapM_total (Signer.convert_signed b64encode fromhex) hexes) as [out Hout].
    { intros h Hh. unfold Signer.convert_signed.
      destruct (h =? "") eqn:E; [now eexists|].
      apply String.eqb_neq in E. destruct (Hhex h Hh E) as [raw ->]. now eexists. }
    apply (Hraise Hlen out).
    + subst request. unfold Signer._sign_request. rewrite Hbody. cbn [Exc.bind].
      rewrite Hpost. unfold Signer.parse_sign_reply. simpl.
      rewrite Hsigned.
      destruct hexes as [|h hs]; [destruct Hin|].
      destruct Herr as [-> | ->]; exact Hout.
    + eapply convert_signed_empty; eassumption.
Qed.

Example sign_transactions_full_group :
  ClientRun.sign_transactions (fun _ => ClientRun.reply_ok ["41"; "42"])
    [Some "ALICE"; Some "ALICE"] None None None None = inr "QUI=".
Proof. reflexivity. Qed.

Lemma sign_transactions_complete_or_error_witness :
  let txns := [Some "BUYER"; Some "SELLER"] in
  let auth := [None; Some "SELLER"] in
  List.length auth = List.length txns /\
  ClientRun.sign_transactions (fun _ => ClientRun.reply_ok [""; "42"])
    txns (Some auth) None None None
  = inl (SignerError Signer.foreign_slots_message).
Proof.
  cbv zeta. split; [reflexivity|].
  refine (proj2 (proj2 (sign_transactions_complete_or_error
            ClientRun.encode_transaction ClientRun.sender_of
            Base64Ref.b64decode Base64Ref.b64decode Base64Ref.b64encode
            HexRef.hex HexRef.fromhex (fun _ => ClientRun.reply_ok [""; "42"])
            [Some "BUYER"; Some "SELLER"] (Some [None; Some "SELLER"]) None None None))
            eq_refl _ "{}" _ [""; "42"] eq_refl eq_refl (or_introl eq_refl) eq_refl
            (or_introl eq_refl) _).
  intros h [<-|[<-|[]]] Hne; [contradiction|]. eexists; reflexivity.
Defined.

(** ** Exchange store *)

Example zlib_empty : ZlibRef.compress [] = [x78; x9c; x03; x00; x00; x00; x00; x01].
Proof. reflexivity. Qed.

Example zlib_a :
  ZlibRef.compress [x61] = [x78; x9c; x4b; x04; x00; x00; x62; x00; x62].
Proof. reflexivity. Qed.

Example zlib_high_bytes :
  HexRef.hex (ZlibRef.compress [xc8; x01; xff]) = "789c3bc1f81f00035c01c9".
Proof. reflexivity. Qed.

Example zlib_hello :
  HexRef.hex (ZlibRef.compress (Py.encode "hello")) = "789ccb48cdc9c90700062c0215".
Proof. reflexivity. Qed.

Section BoxFacts.

Import BoxExchange.

Lemma offsets_closed_form (fuel off size : nat) :
  size - off <= fuel ->
  offsets fuel off size
  = map (fun i => off + i * CHUNK_SIZE)
        (seq 0 ((size - off + (CHUNK_SIZE - 1)) / CHUNK_SIZE)).
Proof.
  revert off; induction fuel as [|fuel IH]; intros off Hfuel; simpl offsets.
  - replace (size - off) with 0 by lia. reflexivity.
  - destruct (off <? size)%nat eqn:Hlt.
    + apply Nat.ltb_lt in Hlt.
      rewrite IH by (unfold CHUNK_SIZE; lia).
      assert (Hdiv : (size - off + (CHUNK_SIZE - 1)) / CHUNK_SIZE
                     = S ((size - (off + CHUNK_SIZE) + (CHUNK_SIZE - 1)) / CHUNK_SIZE)).
      { destruct (Nat.le_gt_cases CHUNK_SIZE (size - off)) as [Hbig|Hsmall].
        - replace (size - off + (CHUNK_SIZE - 1))
            with ((size - (off + CHUNK_SIZE) + (CHUNK_SIZE - 1)) + 1 * CHUNK_SIZE) by lia.
          rewrite Nat.div_add by (unfold CHUNK_SIZE; lia). lia.
        - replace (size - (off + CHUNK_SIZE)) with 0 by lia.
          rewrite (Nat.div_small (0 + (CHUNK_SIZE - 1))) by (unfold CHUNK_SIZE; lia).
          symmetry. apply Nat.div_unique with (r := size - off - 1);
            unfold CHUNK_SIZE in *; lia. }
      rewrite Hdiv. cbn [seq map]. f_equal; [lia|].
      rewrite <- seq_shift, map_map. apply map_ext. intros i. lia.
    + apply Nat.ltb_ge in Hlt. replace (size - off) with 0 by lia.
      rewrite Nat.div_small by (unfold CHUNK_SIZE; lia). reflexivity.
Qed.

Lemma chunk_offsets_length (size : nat) :
  List.length (chunk_offsets size) = (size + (CHUNK_SIZE - 1)) / CHUNK_SIZE.
Proof.
  unfold chunk_offsets. rewrite offsets_closed_form by lia.
  rewrite length_map, length_seq. now rewrite Nat.sub_0_r.
Qed.

Lemma chunk_offsets_nil (size : nat) : chunk_offsets size = [] <-> size = 0.
Proof.
  unfold chunk_offsets. destruct size as [|n]; simpl; split; intros H;
    try reflexivity; discriminate.
Qed.

Lemma chunks_cover (data : bytes) (fuel off : nat) :
  List.length data - off <= fuel ->
  List.concat (map (fun o => slice data o CHUNK_SIZE) (offsets fuel off (List.length data)))
  = skipn off data.
Proof.
  revert off; induction fuel as [|fuel IH]; intros off Hfuel; simpl offsets.
  - simpl. symmetry. apply skipn_all2. lia.
  - destruct (off <? List.length data)%nat eqn:Hlt.
    + cbn [map List.concat]. rewrite IH by (unfold CHUNK_SIZE; lia).
      unfold slice. rewrite Nat.add_comm, <- skipn_skipn.
      apply firstn_skipn.
    + apply Nat.ltb_ge in Hlt. simpl. symmetry. now apply skipn_all2.
Qed.

(** The chunks of the write calls, joined in order, are the compressed
    payload. *)
Lemma write_box_chunks_cover (compressed : bytes) :
  List.concat (map (fun o => slice compressed o CHUNK_SIZE)
                 (chunk_offsets (List.length compressed)))
  = compressed.
Proof. unfold chunk_offsets. rewrite chunks_cover by lia. reflexivity. Qed.

End BoxFacts.

(** C4 (amended).  [write_box] builds the funding payment, the create
    call and one write call for each 2000-byte chunk of the compressed
    payload, so there is no write call exactly when the compressed
    payload is empty.  The zlib stream of the zero-length payload has 8
    bytes: for it the group is the payment, the create call and one
    write call that carries these 8 bytes at offset 0.  When the
    parameters are fetched, this group is the one handed to the signer. *)
Theorem write_box_group_shape
    (compress : bytes -> bytes) (svc : Ledger.Services)
    (app_id : Z) (sender : string) (box_name data : bytes)
    (acl_addrs : option (list string)) :
  let size := List.length (compress data) in
  let txns := BoxExchange.write_box_txns compress svc app_id sender box_name data acl_addrs in
  (txns = BoxExchange.pay_txn svc app_id sender box_name (compress data)
          :: BoxExchange.create_txn app_id sender box_name (compress data) acl_addrs
          :: map (BoxExchange.write_txn app_id sender box_name (compress data))
                 (BoxExchange.chunk_offsets size)
   /\ List.length txns
      = 2 + (size + (BoxExchange.CHUNK_SIZE - 1)) / BoxExchange.CHUNK_SIZE
   /\ (List.length txns = 2 <-> compress data = []))
  /\ BoxExchange.write_box_txns ZlibRef.compress svc app_id sender box_name [] acl_addrs
     = [BoxExchange.pay_txn svc app_id sender box_name (ZlibRef.compress []);
        BoxExchange.create_txn app_id sender box_name (ZlibRef.compress []) acl_addrs;
        Ledger.ApplicationCallTxn sender app_id
          [BoxExchange.b "write"; box_name; BoxExchange.to_bytes8 0;
           [x78; x9c; x03; x00; x00; x00; x00; x01]]
          [] [(app_id, box_name)]]
  /\ (Ledger.suggested_params svc = inr tt ->
      In (Ledger.SignTransactions txns (map (fun _ => Some sender) txns))
         (fst (BoxExchange.write_box compress svc app_id sender box_name data acl_addrs))).
Proof.
  cbv zeta. split; [split; [reflexivity|split]|split].
  - unfold BoxExchange.write_box_txns. cbn [List.length].
    rewrite length_map, chunk_offsets_length. reflexivity.
  - unfold BoxExchange.write_box_txns. cbn [List.length].
    rewrite length_map. split; intros H.
    + assert (H0 : List.length (BoxExchange.chunk_offsets (List.length (compress data))) = 0)
        by lia.
      apply length_zero_iff_nil, chunk_offsets_nil in H0.
      now apply length_zero_iff_nil.
    + rewrite H. reflexivity.
  - reflexivity.
  - intros Hsp. unfold BoxExchange.write_box. rewrite Hsp.
    destruct (Ledger.sign_transactions svc _ _) as [e|signed].
    + cbn [fst]. apply in_or_app. right. now left.
    + destruct (Ledger.send_raw_transaction svc signed) as [e|txid];
        cbn [fst]; apply in_or_app; right; now left.
Qed.

Lemma write_box_group_shape_witness :
  Ledger.suggested_params Demo.svc = inr tt /\
  let txns := BoxExchange.write_box_txns ZlibRef.compress Demo.svc 7 "SELLER"
                (BoxExchange.b "box") [] None in
  In (Ledger.SignTransactions txns (map (fun _ => Some "SELLER") txns))
     (fst (BoxExchange.write_box ZlibRef.compress Demo.svc 7 "SELLER"
             (BoxExchange.b "box") [] None)).
Proof.
  split; [reflexivity|].
  exact (proj2 (proj2 (write_box_group_shape ZlibRef.compress Demo.svc 7 "SELLER"
                         (BoxExchange.b "box") [] None)) eq_refl).
Defined.

(** C4 as stated fails: for the zero-length payload the group that is
    signed and submitted has a third transaction, a write call. *)
Lemma write_box_empty_payload_counterexample :
  let txns := BoxExchange.write_box_txns ZlibRef.compress Demo.svc 7 "SELLER"
                (BoxExchange.b "box") [] None in
  List.length txns = 3
  /\ nth_error txns 2
     = Some (Ledger.ApplicationCallTxn "SELLER" 7
               [BoxExchange.b "write"; BoxExchange.b "box"; BoxExchange.to_bytes8 0;
                [x78; x9c; x03; x00; x00; x00; x00; x01]]
               [] [(7%Z, BoxExchange.b "box")])
  /\ fst (BoxExchange.write_box ZlibRef.compress Demo.svc 7 "SELLER"
            (BoxExchange.b "box") [] None)
     = [Ledger.SignTransactions txns (map (fun _ => Some "SELLER") txns);
        Ledger.SendRawTransaction "c2lnbmVk"; Ledger.WaitForConfirmation "TXID"].
Proof. cbv zeta. repeat split. Qed.

(** ** Message channel: deduplication *)

Section ChannelFacts.

Import Py Channel.

Lemma mem_In (x : string) (l : list string) : mem x l = true <-> In x l.
Proof.
  unfold mem. rewrite existsb_exists. split.
  - intros [y [Hy E]]. apply String.eqb_eq in E. now subst.
  - intros H. exists x. split; [assumption|apply String.eqb_refl].
Qed.

Lemma mem_false_not_In (x : string) (l : list string) : mem x l = false <-> ~ In x l.
Proof.
  rewrite <- mem_In. destruct (mem x l); split; intros H; congruence.
Qed.

Variable loads_note : string -> option JVal.

Lemma message_of_txid (family : string) (seen : list string) (txn : IndexerTxn)
    (m : Message) :
  message_of loads_note family seen txn = Some m ->
  m_txid m = tx_id txn /\ m_sender m = tx_sender txn /\ mem (tx_id txn) seen = false.
Proof.
  unfold message_of.
  destruct (mem (tx_id txn) seen); [discriminate|].
  destruct (tx_note txn =? ""); [discriminate|].
  destruct (loads_note (tx_note txn)) as [[| | | | |note]|]; try discriminate.
  destruct (get_default "type" note (JStr "")); try discriminate.
  destruct (String.prefix family s); [|discriminate].
  intros H; injection H as <-. now simpl.
Qed.

Lemma collect_not_seen (family : string) (seen : list string) (txns : list IndexerTxn)
    (m : Message) :
  In m (collect loads_note family seen txns) -> mem (m_txid m) seen = false.
Proof.
  induction txns as [|txn txns IH]; simpl; [easy|].
  destruct (message_of loads_note family seen txn) as [m'|] eqn:E; [|exact IH].
  intros [<-|H]; [|now apply IH].
  destruct (message_of_txid _ _ _ E) as [-> [_ Hm]]. exact Hm.
Qed.

Lemma poll_messages_not_seen (family : string) (indexer : Indexer) (address : string)
    (last_round : Z) (seen : list string) (m : Message) :
  In m (_poll_messages loads_note family indexer address last_round seen) ->
  ~ In (m_txid m) seen.
Proof.
  unfold _poll_messages. intros H. apply mem_false_not_In.
  destruct (indexer _) as [|status txns]; [destruct H|].
  destruct (negb (status =? 200)%Z); [destruct H|].
  now apply collect_not_seen in H.
Qed.

End ChannelFacts.

Section SwapWaitFacts.

Import Py Channel AtomicSwap.

Variable int_of_str : string -> option Z.
Variable loads_note : string -> option JVal.

Lemma swap_take_app_id_seen (note : dict) (s s' : SwapState) :
  take_app_id int_of_str note s = inr s' ->
  seen_txids s' = seen_txids s /\ status s' = status s
  /\ peer_asa_id s' = peer_asa_id s /\ peer_asa_amount s' = peer_asa_amount s.
Proof.
  unfold take_app_id.
  destruct (get "app_id" note) as [v|]; [|intros H; injection H as <-; auto].
  destruct (truthy v); [|intros H; injection H as <-; auto].
  destruct (Py.int int_of_str v); simpl; [discriminate|].
  intros H; injection H as <-. auto.
Qed.

Lemma swap_update_seen (msg_type : JVal) (note : dict) (s : SwapState) :
  seen_txids (fst (update_from_note int_of_str msg_type note s)) = seen_txids s.
Proof.
  unfold update_from_note.
  destruct (is_str msg_type "swap_propose").
  - destruct (take_app_id _ _ _) as [e|s2] eqn:E; simpl; [reflexivity|].
    now destruct (swap_take_app_id_seen _ _ E) as [-> _].
  - destruct (is_str msg_type "swap_partial"); [|reflexivity].
    destruct (take_app_id _ _ _) as [e|s2] eqn:E; simpl; [reflexivity|].
    now destruct (swap_take_app_id_seen _ _ E) as [-> _].
Qed.

Lemma swap_receive_seen (msg : Message) (s : SwapState) :
  seen_txids (fst (receive int_of_str msg s)) = (seen_txids s ++ [m_txid msg])%list.
Proof.
  unfold receive.
  pose proof (swap_update_seen (get_default "type" (m_note msg) (JStr "")) (m_note msg)
                (mark_seen (m_txid msg) (m_round msg) s)) as H.
  destruct (update_from_note _ _ _ _) as [s2 [e|]]; simpl in *; exact H.
Qed.

Lemma swap_wait_loop_seen (polls : list Indexer) (seen : list string) (s : SwapState) :
  (forall t, In t (seen_txids s) -> In t seen) ->
  exists new,
    seen_txids (fst (wait_loop int_of_str loads_note polls seen s))
    = (seen_txids s ++ new)%list
    /\ Forall (fun t => ~ In t (seen_txids s)) new
    /\ NoDup new.
Proof.
  intros Hseen. induction polls as [|indexer later IH]; simpl.
  - exists []. rewrite app_nil_r. repeat split; constructor.
  - destruct (_poll_messages _ _ _ _ _ _) as [|msg rest] eqn:E; [exact IH|].
    exists [m_txid msg]. rewrite swap_receive_seen. split; [reflexivity|].
    split; [|repeat constructor; easy].
    constructor; [|constructor].
    intros Hin. apply Hseen in Hin.
    eapply poll_messages_not_seen; [|exact Hin].
    rewrite E. now left.
Qed.

End SwapWaitFacts.

Section HtlcWaitFacts.

Import Py Channel Htlc.

Variable int_of_str : string -> option Z.
Variable loads_note : string -> option JVal.
Variable fromhex : string -> option bytes.
Variable is_valid_address : string -> bool.

Ltac split_ifs :=
  repeat match goal with
         | |- context [if ?c then _ else _] => destruct c eqn:?
         end.

Lemma handle_offer_keeps (note : dict) (s s' : SwapState) :
  handle_offer int_of_str fromhex is_valid_address note s = inr (inl s') ->
  seen_txids s' = seen_txids s /\ peer_address s' = peer_address s
  /\ my_address s' = my_address s /\ last_seen_round s' = last_seen_round s.
Proof.
  unfold handle_offer.
  destruct (note_numbers int_of_str note) as [e|[[t a] b]]; simpl; [discriminate|].
  destruct (Py.len _) as [e|n]; simpl; [discriminate|].
  destruct (negb (Nat.eqb n 64)); [discriminate|].
  destruct (hex_ok fromhex _) as [e|ok]; simpl; [discriminate|].
  split_ifs; try discriminate.
  intros H; injection H as <-. now simpl.
Qed.

Lemma handle_accept_keeps (note : dict) (s s' : SwapState) :
  handle_accept int_of_str is_valid_address note s = inr (inl s') ->
  seen_txids s' = seen_txids s /\ peer_address s' = peer_address s
  /\ my_address s' = my_address s /\ last_seen_round s' = last_seen_round s.
Proof.
  unfold handle_accept.
  destruct (note_numbers int_of_str note) as [e|[[t a] b]]; simpl; [discriminate|].
  split_ifs; try discriminate.
  intros H; injection H as <-. now simpl.
Qed.

(** A note from another sender than the peer is marked as seen and
    logged, nothing else: the loop goes on with every session field
    but the dedup fields and the action log as it was. *)
Lemma htlc_receive_non_peer (msg : Message) (s : SwapState) :
  m_sender msg <> peer_address s ->
  exists log,
    receive int_of_str fromhex is_valid_address msg s
    = (mark_seen (m_txid msg) (m_round msg) (record log s), Continue).
Proof.
  intros H. unfold receive.
  apply String.eqb_neq in H. rewrite H. simpl negb. cbv iota.
  eexists; reflexivity.
Qed.

Lemma htlc_receive_seen (msg : Message) (s : SwapState) :
  let s' := fst (receive int_of_str fromhex is_valid_address msg s) in
  seen_txids s' = (seen_txids s ++ [m_txid msg])%list
  /\ peer_address s' = peer_address s /\ my_address s' = my_address s.
Proof.
  cbv zeta. unfold receive.
  destruct (negb (m_sender msg =? peer_address s)); [now simpl|].
  destruct (is_str _ "htlc_offer").
  - destruct (handle_offer _ _ _ _ _) as [e|[s2|err]] eqn:E; simpl; auto.
    destruct (handle_offer_keeps _ _ E) as [-> [-> [-> _]]]. now simpl.
  - destruct (is_str _ "htlc_accept"); [|now simpl].
    destruct (handle_accept _ _ _ _) as [e|[s2|err]] eqn:E; simpl; auto.
    destruct (handle_accept_keeps _ _ E) as [-> [-> [-> _]]]. now simpl.
Qed.

(** Whatever [receive] answers for a message that is returned, its
    sender is the peer. *)
Lemma htlc_receive_accepts_peer_only (msg : Message) (s s' : SwapState) (r : Received) :
  receive int_of_str fromhex is_valid_address msg s = (s', Stop (inr (OkReply r))) ->
  m_sender msg = peer_address s /\ r_sender r = peer_address s.
Proof.
  unfold receive.
  destruct (m_sender msg =? peer_address s) eqn:Hs; simpl negb; cbv iota;
    [|discriminate].
  apply String.eqb_eq in Hs.
  destruct (if is_str _ "htlc_offer" then _ else _) as [e|[s2|err]];
    try discriminate.
  intros H. injection H as _ <-. now simpl.
Qed.

Lemma htlc_receive_continue (msg : Message) (s s' : SwapState) :
  receive int_of_str fromhex is_valid_address msg s = (s', Continue) ->
  m_sender msg <> peer_address s
  /\ status s' = status s /\ hash s' = hash s
  /\ peer_hashlock s' = peer_hashlock s /\ peer_timeout s' = peer_timeout s
  /\ peer_asa_id s' = peer_asa_id s /\ peer_asa_amount s' = peer_asa_amount s
  /\ peer_address s' = peer_address s.
Proof.
  unfold receive.
  destruct (m_sender msg =? peer_address s) eqn:Hs; simpl negb; cbv iota.
  - destruct (if is_str _ "htlc_offer" then _ else _) as [e|[s2|err]]; discriminate.
  - apply String.eqb_neq in Hs. intros H. injection H as <-. now simpl.
Qed.

Lemma htlc_wait_loop_seen (polls : list Indexer) (seen : list string) (s : SwapState) :
  (forall t, In t (seen_txids s) -> In t seen) ->
  exists new,
    seen_txids (fst (wait_loop int_of_str loads_note fromhex is_valid_address polls seen s))
    = (seen_txids s ++ new)%list
    /\ Forall (fun t => ~ In t (seen_txids s)) new
    /\ NoDup new.
Proof.
  revert seen s. induction polls as [|indexer later IH]; intros seen s Hseen; simpl.
  - exists []. rewrite app_nil_r. repeat split; constructor.
  - destruct (_poll_messages _ _ _ _ _ _) as [|msg rest] eqn:E; [now apply IH|].
    assert (Hfresh : ~ In (m_txid msg) seen).
    { eapply poll_messages_not_seen. rewrite E. now left. }
    pose proof (htlc_receive_seen msg s) as Hrecv. cbv zeta in Hrecv.
    destruct (receive _ _ _ msg s) as [s' [|r]] eqn:R; simpl in Hrecv.
    + destruct Hrecv as [Hs' _].
      destruct (IH (seen ++ [m_txid msg])%list s') as [new [Hnew [Hall Hnd]]].
      { intros t Ht. rewrite Hs' in Ht. apply in_app_iff in Ht. apply in_app_iff.
        destruct Ht as [Ht|Ht]; [left; now apply Hseen|now right]. }
      exists (m_txid msg :: new). rewrite Hnew, Hs', <- app_assoc. simpl.
      split; [reflexivity|]. split.
      * constructor; [intros Hin; now apply Hfresh, Hseen|].
        eapply Forall_impl; [|exact Hall]. intros t Ht Hin. apply Ht.
        rewrite Hs'. apply in_app_iff. now left.
      * constructor; [|exact Hnd].
        intros Hin. rewrite Forall_forall in Hall. apply (Hall _ Hin).
        rewrite Hs'. apply in_app_iff. right. now left.
    + destruct Hrecv as [Hs' _]. exists [m_txid msg]. simpl. rewrite Hs'.
      split; [reflexivity|]. split; [|repeat constructor; easy].
      constructor; [|constructor]. intros Hin. now apply Hfresh, Hseen.
Qed.

Lemma htlc_wait_loop_peer_only (polls : list Indexer) (seen : list string)
    (s : SwapState) (r : Received) :
  snd (wait_loop int_of_str loads_note fromhex is_valid_address polls seen s)
  = inr (OkReply r) ->
  r_sender r = peer_address s.
Proof.
  revert seen s. induction polls as [|indexer later IH]; intros seen s; simpl.
  - discriminate.
  - destruct (_poll_messages _ _ _ _ _ _) as [|msg rest]; [apply IH|].
    destruct (receive _ _ _ msg s) as [s' [|res]] eqn:R.
    + intros H. apply IH in H. rewrite H.
      now destruct (htlc_receive_continue _ _ R) as [_ [_ [_ [_ [_ [_ [_ ->]]]]]]].
    + simpl. intros ->. now destruct (htlc_receive_accepts_peer_only _ _ R).
Qed.

End HtlcWaitFacts.

(** C9.  A poll never returns a message whose transaction id is in the
    seen set it is given, whatever the indexer answers and whatever round
    bound the query carries; [wait_for_message] (both variants) appends
    the id of every message it takes to the session's seen ids and never
    removes one; so the ids a run consumes are new: none of them was in
    the session's seen ids when the run started, and none is consumed
    twice. *)
Theorem consumed_txid_never_returned_again
    (int_of_str : string -> option Z) (loads_note : string -> option Py.JVal)
    (fromhex : string -> option bytes) (is_valid_address : string -> bool) :
  (forall family indexer address last_round seen m,
      In m (Channel._poll_messages loads_note family indexer address last_round seen) ->
      ~ In (Channel.m_txid m) seen)
  /\ (forall msg s,
        AtomicSwap.seen_txids (fst (AtomicSwap.receive int_of_str msg s))
        = (AtomicSwap.seen_txids s ++ [Channel.m_txid msg])%list)
  /\ (forall msg s,
        Htlc.seen_txids (fst (Htlc.receive int_of_str fromhex is_valid_address msg s))
        = (Htlc.seen_txids s ++ [Channel.m_txid msg])%list)
  /\ (forall polls s,
        exists new,
          AtomicSwap.seen_txids
            (fst (AtomicSwap.tool_wait_for_message int_of_str loads_note polls s))
          = (AtomicSwap.seen_txids s ++ new)%list
          /\ Forall (fun t => ~ In t (AtomicSwap.seen_txids s)) new
          /\ NoDup new)
  /\ (forall polls s,
        exists new,
          Htlc.seen_txids
            (fst (Htlc.tool_wait_for_message int_of_str loads_note fromhex
                    is_valid_address polls s))
          = (Htlc.seen_txids s ++ new)%list
          /\ Forall (fun t => ~ In t (Htlc.seen_txids s)) new
          /\ NoDup new).
Proof.
  split; [|split; [|split; [|split]]].
  - intros. eapply poll_messages_not_seen; eassumption.
  - intros. apply swap_receive_seen.
  - intros. now destruct (htlc_receive_seen int_of_str fromhex is_valid_address msg s).
  - intros. unfold AtomicSwap.tool_wait_for_message. now apply swap_wait_loop_seen.
  - intros. unfold Htlc.tool_wait_for_message. now apply htlc_wait_loop_seen.
Qed.

Lemma consumed_txid_never_returned_again_witness :
  let note := Py.JObj [("type", Py.JStr "swap_partial")] in
  let old_txn := Demo.note_txn "TX1" 120 "SELLER" note in
  let new_txn := Demo.note_txn "TX2" 121 "SELLER" note in
  let polled := Channel._poll_messages (Demo.loads_note [note]) "swap_"
                  (Demo.indexer [old_txn; new_txn]) "BUYER" 0 ["TX1"] in
  map Channel.m_txid polled = ["TX2"]
  /\ forall m, In m polled -> ~ In (Channel.m_txid m) ["TX1"].
Proof.
  cbv zeta. split; [vm_compute; reflexivity|].
  intros m Hm.
  exact (proj1 (consumed_txid_never_returned_again Demo.int_of_str
                  (Demo.loads_note [Py.JObj [("type", Py.JStr "swap_partial")]])
                  HexRef.fromhex_opt (fun _ => true))
           "swap_" _ "BUYER" 0%Z ["TX1"] m Hm).
Defined.

(** A second run against an indexer that still returns the consumed
    note, as a query with a lower round bound does: the note is not
    taken again and the run times out. *)
Example swap_second_wait_skips_consumed :
  let note := Py.JObj [("type", Py.JStr "swap_partial")] in
  let txn := Demo.note_txn "TX1" 120 "SELLER" note in
  let wait := AtomicSwap.tool_wait_for_message Demo.int_of_str (Demo.loads_note [note])
                [Demo.indexer [txn]] in
  let s1 := fst (wait Demo.swap_buyer) in
  AtomicSwap.seen_txids s1 = ["TX1"]
  /\ AtomicSwap.status s1 = "partial_received"
  /\ AtomicSwap.seen_txids (fst (wait s1)) = ["TX1"]
  /\ snd (wait s1) = inr (Channel.ErrorReply "No incoming swap message within the timeout").
Proof. vm_compute. repeat split. Qed.

(** ** Sender authentication *)

(** The HTLC variant: a note from another sender is consumed and
    ignored, and a returned message comes from the peer. *)
Lemma htlc_wait_ignores_foreign_sender
    (int_of_str : string -> option Z) (loads_note : string -> option Py.JVal)
    (fromhex : string -> option bytes) (is_valid_address : string -> bool) :
  (forall msg s,
      Channel.m_sender msg <> Htlc.peer_address s ->
      exists log,
        Htlc.receive int_of_str fromhex is_valid_address msg s
        = (Htlc.mark_seen (Channel.m_txid msg) (Channel.m_round msg) (Htlc.record log s),
           Htlc.Continue))
  /\ (forall polls s r,
        snd (Htlc.tool_wait_for_message int_of_str loads_note fromhex is_valid_address
               polls s) = inr (Channel.OkReply r) ->
        Channel.r_sender r = Htlc.peer_address s).
Proof.
  split.
  - intros. now apply htlc_receive_non_peer.
  - intros polls s r. unfold Htlc.tool_wait_for_message. apply htlc_wait_loop_peer_only.
Qed.

(** C2 at the failing input: the atomic-swap [wait_for_message] takes a
    [swap_propose] note sent by a third party, overwrites the peer's
    asset, amount and application id from it, moves the session to
    [propose_received] and returns the note. *)
Theorem swap_wait_accepts_foreign_sender :
  let note := [("type", Py.JStr "swap_propose"); ("offer_asa", Py.JInt 31566704);
               ("offer_amount", Py.JInt 1); ("app_id", Py.JInt 999)] in
  let txn := Demo.note_txn "TXMALLORY" 120 "MALLORY" (Py.JObj note) in
  let run := AtomicSwap.tool_wait_for_message Demo.int_of_str
               (Demo.loads_note [Py.JObj note]) [Demo.indexer [txn]] Demo.swap_buyer in
  Channel.tx_sender txn <> AtomicSwap.peer_address Demo.swap_buyer
  /\ AtomicSwap.seen_txids (fst run) = ["TXMALLORY"]
  /\ AtomicSwap.last_seen_round (fst run) = 120%Z
  /\ AtomicSwap.status (fst run) = "propose_received"
  /\ AtomicSwap.peer_asa_id (fst run) = Py.JInt 31566704
  /\ AtomicSwap.peer_asa_amount (fst run) = Py.JInt 1
  /\ AtomicSwap.swap_app_id (fst run) = 999%Z
  /\ snd run = inr (Channel.OkReply
                      {| Channel.r_type := Py.JStr "swap_propose"; Channel.r_note := note;
                         Channel.r_round := 120; Channel.r_sender := "MALLORY" |}).
Proof. vm_compute. repeat split. discriminate. Qed.

(** The same note sent to an HTLC session is consumed and ignored. *)
Example htlc_wait_ignores_mallory :
  let note := Py.JObj [("type", Py.JStr "htlc_accept"); ("hashlock_addr", Py.JStr "X");
                       ("timeout_round", Py.JInt 1); ("asa_id", Py.JInt 10458941);
                       ("asa_amount", Py.JInt 1000000)] in
  let txn := Demo.note_txn "TXMALLORY" 120 "MALLORY" note in
  let run := Htlc.tool_wait_for_message Demo.int_of_str (Demo.loads_note [note])
               HexRef.fromhex_opt (fun _ => true) [Demo.indexer [txn]] Demo.htlc_buyer in
  Htlc.seen_txids (fst run) = ["TXMALLORY"]
  /\ Htlc.last_seen_round (fst run) = 120%Z
  /\ Htlc.status (fst run) = "offer_sent"
  /\ Htlc.peer_hashlock (fst run) = ""
  /\ snd run = inr (Channel.ErrorReply "No incoming htlc message within the timeout").
Proof. vm_compute. repeat split. Qed.

(** ** HTLC timeout ordering *)

Section TimeoutFacts.

Import Py Channel Htlc.

Variable int_of_str : string -> option Z.
Variable fromhex : string -> option bytes.
Variable is_valid_address : string -> bool.

Lemma create_hashlock_rejects (svc : Ledger.Services) (s : SwapState) (hash_hex : JVal)
    (recipient refund_address : string) (timeout_round : JVal) (t : Z) :
  role s = "seller" ->
  peer_timeout s <> 0%Z ->
  Py.int int_of_str timeout_round = inr t ->
  (peer_timeout s <= t)%Z ->
  exists msg,
    tool_create_hashlock int_of_str fromhex svc s hash_hex recipient refund_address
      timeout_round
    = (s, [], inr (ErrorReply msg)).
Proof.
  intros Hrole Hset Hint Hge. unfold tool_create_hashlock.
  destruct (negb (recipient =? peer_address s)); [eexists; reflexivity|].
  destruct (negb (refund_address =? my_address s)); [eexists; reflexivity|].
  destruct hash_hex as [| | |h| |]; try (eexists; reflexivity).
  destruct (negb (Nat.eqb (String.length h) 64)); [eexists; reflexivity|].
  unfold hex_ok. destruct (fromhex h); [|eexists; reflexivity].
  rewrite Hint.
  destruct (t <=? 0)%Z; [eexists; reflexivity|].
  rewrite Hrole, String.eqb_refl.
  apply Z.eqb_neq in Hset. rewrite Hset.
  apply Z.leb_le in Hge. rewrite Hge. simpl.
  eexists; reflexivity.
Qed.

Lemma handle_accept_rejects (note : dict) (s : SwapState) (t a b : Z) :
  my_timeout s <> 0%Z ->
  note_numbers int_of_str note = inr (t, a, b) ->
  (my_timeout s <= t)%Z ->
  exists err, handle_accept int_of_str is_valid_address note s = inr (inr err).
Proof.
  intros Hset Hnum Hge. unfold handle_accept. rewrite Hnum. cbn [Exc.bind].
  destruct (negb (_is_valid_address is_valid_address _)); [eexists; reflexivity|].
  destruct (t <=? 0)%Z; [eexists; reflexivity|].
  apply Z.eqb_neq in Hset. apply Z.leb_le in Hge.
  change (my_timeout s =? 0)%Z with (my_timeout s =? 0)%Z.
  rewrite Hset, Hge. simpl. eexists; reflexivity.
Qed.

Lemma handle_accept_never_accepts (note : dict) (s : SwapState) (t : Z) :
  my_timeout s <> 0%Z ->
  Py.int int_of_str (get_default "timeout_round" note (JInt 0)) = inr t ->
  (my_timeout s <= t)%Z ->
  forall s', handle_accept int_of_str is_valid_address note s <> inr (inl s').
Proof.
  intros Hset Hint Hge s'. unfold handle_accept, note_numbers. rewrite Hint.
  cbn [Exc.bind].
  destruct (Py.int int_of_str (get_default "asa_id" note _)) as [e|a];
    cbn [Exc.bind]; [discriminate|].
  destruct (Py.int int_of_str (get_default "asa_amount" note _)) as [e|b];
    cbn [Exc.bind]; [discriminate|].
  destruct (negb (_is_valid_address is_valid_address _)); [discriminate|].
  destruct (t <=? 0)%Z; [discriminate|].
  apply Z.eqb_neq in Hset. apply Z.leb_le in Hge.
  rewrite Hset, Hge. simpl. discriminate.
Qed.

End TimeoutFacts.

(** C3.  With role seller and a known buyer timeout, [create_hashlock]
    answers an error, calls no service and leaves the session as it was
    whenever its timeout is greater than or equal to the buyer's.  On an
    [htlc_accept] note from the peer, with the session's own timeout set,
    [wait_for_message] answers an error and changes nothing but the
    dedup fields whenever the note's timeout is greater than or equal to
    the session's; this holds for the message handler and for the tool
    when that note is the first new message of the first poll.  Should
    another numeric field of the note not convert, the tool raises, and
    in no case is the note accepted. *)
Theorem htlc_timeout_order_enforced
    (int_of_str : string -> option Z) (loads_note : string -> option Py.JVal)
    (fromhex : string -> option bytes) (is_valid_address : string -> bool)
    (svc : Ledger.Services) :
  (forall s hash_hex recipient refund_address timeout_round t,
      Htlc.role s = "seller" ->
      Htlc.peer_timeout s <> 0%Z ->
      Py.int int_of_str timeout_round = inr t ->
      (Htlc.peer_timeout s <= t)%Z ->
      exists msg,
        Htlc.tool_create_hashlock int_of_str fromhex svc s hash_hex recipient
          refund_address timeout_round
        = (s, [], inr (Channel.ErrorReply msg)))
  /\ (forall msg s t a b,
        Channel.m_sender msg = Htlc.peer_address s ->
        Py.get "type" (Channel.m_note msg) = Some (Py.JStr "htlc_accept") ->
        Htlc.my_timeout s <> 0%Z ->
        Htlc.note_numbers int_of_str (Channel.m_note msg) = inr (t, a, b) ->
        (Htlc.my_timeout s <= t)%Z ->
        exists err,
          Htlc.receive int_of_str fromhex is_valid_address msg s
          = (Htlc.mark_seen (Channel.m_txid msg) (Channel.m_round msg) s,
             Htlc.Stop (inr (Channel.ErrorReply err)))
          /\ forall indexer later rest,
               Channel._poll_messages loads_note "htlc_" indexer (Htlc.my_address s)
                 (Htlc.last_seen_round s) (Htlc.seen_txids s) = msg :: rest ->
               Htlc.tool_wait_for_message int_of_str loads_note fromhex is_valid_address
                 (indexer :: later) s
               = (Htlc.mark_seen (Channel.m_txid msg) (Channel.m_round msg) s,
                  inr (Channel.ErrorReply err)))
  /\ (forall msg s t,
        Channel.m_sender msg = Htlc.peer_address s ->
        Py.get "type" (Channel.m_note msg) = Some (Py.JStr "htlc_accept") ->
        Htlc.my_timeout s <> 0%Z ->
        Py.int int_of_str (Py.get_default "timeout_round" (Channel.m_note msg) (Py.JInt 0))
        = inr t ->
        (Htlc.my_timeout s <= t)%Z ->
        fst (Htlc.receive int_of_str fromhex is_valid_address msg s)
        = Htlc.mark_seen (Channel.m_txid msg) (Channel.m_round msg) s
        /\ forall r, snd (Htlc.receive int_of_str fromhex is_valid_address msg s)
                     <> Htlc.Stop (inr (Channel.OkReply r))).
Proof.
  split; [|split].
  - intros. eapply create_hashlock_rejects; eassumption.
  - intros msg s t a b Hsender Htype Hset Hnum Hge.
    destruct (@handle_accept_rejects int_of_str is_valid_address (Channel.m_note msg)
                (Htlc.mark_seen (Channel.m_txid msg) (Channel.m_round msg) s) t a b)
      as [err Herr]; try assumption.
    exists err.
    assert (Hrecv : Htlc.receive int_of_str fromhex is_valid_address msg s
                    = (Htlc.mark_seen (Channel.m_txid msg) (Channel.m_round msg) s,
                       Htlc.Stop (inr (Channel.ErrorReply err)))).
    { unfold Htlc.receive, Py.get_default. rewrite Htype, Hsender, String.eqb_refl.
      simpl. rewrite Herr. reflexivity. }
    split; [exact Hrecv|].
    intros indexer later rest Hpoll.
    unfold Htlc.tool_wait_for_message. simpl. rewrite Hpoll, Hrecv. reflexivity.
  - intros msg s t Hsender Htype Hset Hint Hge.
    pose proof (@handle_accept_never_accepts int_of_str is_valid_address
                  (Channel.m_note msg)
                  (Htlc.mark_seen (Channel.m_txid msg) (Channel.m_round msg) s) t
                  Hset Hint Hge) as Hnever.
    unfold Htlc.receive, Py.get_default. rewrite Htype, Hsender, String.eqb_refl.
    simpl.
    destruct (Htlc.handle_accept int_of_str is_valid_address (Channel.m_note msg) _)
      as [e|[s2|err]]; simpl.
    + split; [reflexivity|discriminate].
    + exfalso. now apply (Hnever s2).
    + split; [reflexivity|discriminate].
Qed.

(** The boundary of equal timeouts, on both sides. *)
Lemma htlc_timeout_order_enforced_witness :
  (exists msg,
      Htlc.tool_create_hashlock Demo.int_of_str HexRef.fromhex_opt Demo.svc
        Demo.htlc_seller (Py.JStr (Htlc.hash Demo.htlc_seller)) "BUYER" "SELLER"
        (Py.JInt 1500)
      = (Demo.htlc_seller, [], inr (Channel.ErrorReply msg)))
  /\ (let note := [("type", Py.JStr "htlc_accept"); ("hashlock_addr", Py.JStr "SELLERLOCK");
                   ("timeout_round", Py.JInt 1500); ("asa_id", Py.JInt 10458941);
                   ("asa_amount", Py.JInt 1000000)] in
      let msg := {| Channel.m_txid := "TX9"; Channel.m_round := 130;
                    Channel.m_note := note; Channel.m_sender := "SELLER" |} in
      exists err,
        Htlc.receive Demo.int_of_str HexRef.fromhex_opt (fun _ => true) msg Demo.htlc_buyer
        = (Htlc.mark_seen "TX9" 130 Demo.htlc_buyer,
           Htlc.Stop (inr (Channel.ErrorReply err)))).
Proof.
  pose proof (htlc_timeout_order_enforced Demo.int_of_str (Demo.loads_note [])
                HexRef.fromhex_opt (fun _ => true) Demo.svc) as [Hcreate [Haccept _]].
  split.
  - apply (Hcreate Demo.htlc_seller _ "BUYER" "SELLER" (Py.JInt 1500) 1500%Z);
      [reflexivity|discriminate|reflexivity|vm_compute; discriminate].
  - cbv zeta.
    destruct (Haccept
                {| Channel.m_txid := "TX9"; Channel.m_round := 130;
                   Channel.m_note :=
                     [("type", Py.JStr "htlc_accept");
                      ("hashlock_addr", Py.JStr "SELLERLOCK");
                      ("timeout_round", Py.JInt 1500); ("asa_id", Py.JInt 10458941);
                      ("asa_amount", Py.JInt 1000000)];
                   Channel.m_sender := "SELLER" |}
                Demo.htlc_buyer 1500%Z 10458941%Z 1000000%Z)
      as [err [Herr _]];
      [reflexivity|reflexivity|discriminate|reflexivity|vm_compute; discriminate|].
    exists err. exact Herr.
Defined.

Example create_hashlock_one_below :
  Htlc.tool_create_hashlock Demo.int_of_str HexRef.fromhex_opt Demo.svc
    Demo.htlc_seller (Py.JStr (Htlc.hash Demo.htlc_seller)) "BUYER" "SELLER"
    (Py.JInt 1499)
  = (Htlc.record "Created hashlock: HASHLOCK"
       (Htlc.with_hash (Htlc.hash Demo.htlc_seller)
          (Htlc.with_my_lock "HASHLOCK" 1499 Demo.htlc_seller)),
     [Ledger.GenerateKey "hashlock-v1"
        [("hash", Htlc.hash Demo.htlc_seller); ("recipient", "BUYER");
         ("refund_address", "SELLER"); ("timeout_round", "1499")]],
     inr (Channel.OkReply "HASHLOCK")).
Proof. vm_compute. reflexivity. Qed.

(** ** Note serialization *)

Section NoteFacts.

Import Py.

Lemma prefix_app (p x : string) : String.prefix p (p ++ x) = true.
Proof.
  induction p as [|c p IH]; simpl; [now destruct x|].
  destruct (ascii_dec c c) as [_|N]; [exact IH|contradiction].
Qed.

Lemma append_assoc (a b c : string) : (a ++ b) ++ c = a ++ (b ++ c).
Proof. induction a as [|x a IH]; simpl; [reflexivity|now rewrite IH]. Qed.

Lemma join_head (sep x : string) (l : list string) :
  exists tail, join sep (x :: l) = x ++ tail.
Proof.
  destruct l as [|y l]; simpl.
  - exists "". clear. induction x as [|c x IH]; simpl; [reflexivity|now rewrite <- IH].
  - eexists; reflexivity.
Qed.

Lemma dumps_type_first (sort_keys : bool) (t : JVal) (rest : dict) :
  sort_keys = false ->
  String.prefix Py.type_first (dumps sort_keys (JObj (("type", t) :: rest))) = true.
Proof.
  intros ->. cbn [dumps]. unfold render_items. cbn [map fst snd].
  match goal with
  | |- context [join "," (?x :: ?l)] => destruct (join_head "," x l) as [tail ->]
  end.
  unfold type_first.
  transitivity (String.prefix ("{" ++ quote "type" ++ ":")
                  (("{" ++ quote "type" ++ ":") ++ (dumps false t ++ tail ++ "}"))).
  - f_equal. now rewrite !append_assoc.
  - apply prefix_app.
Qed.

Lemma canonicalize_fold (t : JVal) (l : dict) (rest : dict) :
  exists rest',
    fold_left (fun canonical kv =>
                 if negb (fst kv =? "type") then Py.set (fst kv) (snd kv) canonical
                 else canonical) l (("type", t) :: rest)
    = ("type", t) :: rest'.
Proof.
  revert rest. induction l as [|[k v] l IH]; intros rest; cbn [fold_left fst snd].
  - now exists rest.
  - destruct (k =? "type") eqn:E; cbn [negb]; [apply IH|].
    cbn [Py.set]. rewrite E. apply IH.
Qed.

Lemma canonicalize_type_first (d : dict) (t : JVal) :
  get "type" d = Some t -> exists rest, Htlc.canonicalize d = ("type", t) :: rest.
Proof.
  intros H. unfold Htlc.canonicalize. rewrite H. apply canonicalize_fold.
Qed.

End NoteFacts.

(** The HTLC [send_note] writes ["type"] first whatever order the
    caller's dict has, and the bytes it hands to the signer are these. *)
Lemma htlc_send_note_type_first
    (svc : Ledger.Services) (s : Htlc.SwapState) (sender receiver : string)
    (d : Py.dict) (t : Py.JVal) :
  Py.get "type" d = Some t ->
  String.prefix Py.type_first (Py.dumps false (Py.JObj (Htlc.canonicalize d))) = true
  /\ forall e, In e (snd (fst (Htlc.tool_send_note svc s sender receiver (Py.JObj d)))) ->
       Ledger.is_signing e = true ->
       e = Ledger.SignTransaction
             (Ledger.PaymentTxn sender receiver 0 (Htlc.note_bytes d) None) None None.
Proof.
  intros Ht. split.
  - destruct (canonicalize_type_first d Ht) as [rest ->]. now apply dumps_type_first.
  - intros e. unfold Htlc.tool_send_note.
    destruct (negb (sender =? Htlc.my_address s)); [intros []|].
    destruct (negb (receiver =? Htlc.peer_address s)); [intros []|].
    destruct (Ledger.suggested_params svc); [intros []|].
    destruct (1024 <? _)%nat; [intros []|].
    unfold Ledger.sign_send_confirm.
    destruct (Ledger.sign_transaction svc _ _ _) as [x|signed]; simpl.
    + intros [<-|[]] _. reflexivity.
    + destruct (Ledger.send_raw_transaction svc signed) as [x|txid]; simpl.
      * intros [<-|[<-|[]]]; [reflexivity|discriminate].
      * destruct (Ledger.wait_for_confirmation svc txid); simpl;
          intros [<-|[<-|[<-|[]]]]; try reflexivity; discriminate.
Qed.

(** C5 at the failing input: the atomic-swap [send_note] accepts a note
    whose dict has another key before ["type"] and signs and submits
    its serialization unchanged, so the note on the ledger starts with
    the [app_id] key and not with [type]. *)
Theorem swap_send_note_keeps_caller_order :
  let note := Py.JObj [("app_id", Py.JInt 999); ("type", Py.JStr "swap_propose")] in
  let run := AtomicSwap.tool_send_note Demo.svc Demo.swap_buyer "BUYER" "SELLER" note in
  let written := "{" ++ Py.quote "app_id" ++ ":999," ++ Py.quote "type" ++ ":"
                     ++ Py.quote "swap_propose" ++ "}" in
  snd run = inr (Channel.OkReply "TXID")
  /\ AtomicSwap.status (fst (fst run)) = "propose_sent"
  /\ snd (fst run)
     = [Ledger.SignTransaction
          (Ledger.PaymentTxn "BUYER" "SELLER" 0 (Py.encode written) None) None None;
        Ledger.SendRawTransaction "c2lnbmVk"; Ledger.WaitForConfirmation "TXID"]
  /\ String.prefix Py.type_first written = false
  /\ String.prefix (Channel.note_prefix "swap_")
       (Base64Ref.b64encode (Py.encode written)) = false.
Proof. vm_compute. repeat split. Qed.

Example htlc_send_note_reorders :
  Htlc.note_bytes [("asa_id", Py.JInt 0); ("type", Py.JStr "htlc_offer");
                   ("timeout_round", Py.JInt 1500)]
  = Py.encode ("{" ++ Py.quote "type" ++ ":" ++ Py.quote "htlc_offer" ++ ","
                   ++ Py.quote "asa_id" ++ ":0," ++ Py.quote "timeout_round" ++ ":1500}").
Proof. vm_compute. reflexivity. Qed.

(** ** Session binding in [verify_and_submit_swap] *)

Example proposal_hash_of_swap_buyer :
  AtomicSwap.expected_proposal_hash Demo.int_of_str Sha256Ref.sha256 Demo.swap_buyer
  = inr "906befee3e8bdba4".
Proof. vm_compute. reflexivity. Qed.

Example verify_and_submit_matching_hash :
  Demo.verify_and_submit "906befee3e8bdba4"
  = (AtomicSwap.record "Submitted atomic group (txid: GROUPTXID)"
       (AtomicSwap.with_status "submitted"
          (AtomicSwap.with_group_txid "GROUPTXID"
             (AtomicSwap.record "Verified TxnA and TxnB fields match proposal"
                Demo.swap_buyer))),
     [Ledger.SignTransactionsList Demo.planned [Some "BUYER"; None];
      Ledger.SendRawTransaction "QUI="; Ledger.WaitForConfirmation "GROUPTXID"],
     inr (Channel.OkReply "GROUPTXID")).
Proof. vm_compute. reflexivity. Qed.

Section VerifyFacts.

Import Py Channel AtomicSwap.

Lemma is_str_false (v : JVal) (h : string) : v <> JStr h -> is_str v h = false.
Proof.
  destruct v; simpl; try reflexivity. intros H.
  apply String.eqb_neq. congruence.
Qed.

Lemma is_str_true (v : JVal) (h : string) : is_str v h = true -> v = JStr h.
Proof.
  destruct v; simpl; try discriminate. intros H. apply String.eqb_eq in H. now subst.
Qed.

End VerifyFacts.

(** C7.  [verify_and_submit_swap] computes the expected hash from the
    session's own addresses, assets and amounts.  When the box is read
    and the [proposal_hash] it holds is not that hash, the tool records
    the mismatch and answers an error: it calls neither the signer nor
    the ledger node, and the status and group id stay as they were.
    Conversely a run that makes any call, or answers a transaction id,
    read a box whose [proposal_hash] is the expected hash. *)
Theorem verify_and_submit_binds_session
    (int_of_str : string -> option Z) (sha256 : bytes -> bytes) (svc : Ledger.Services)
    (loads : bytes -> exn + Py.JVal) (decode_planned : Py.JVal -> exn + list Ledger.Txn)
    (signed_entries : Py.JVal -> exn + list string)
    (read_box : Z -> bytes -> exn + bytes) (b64decode : string -> exn + bytes)
    (s : AtomicSwap.SwapState) :
  let run := AtomicSwap.tool_verify_and_submit_swap int_of_str sha256 svc loads
               decode_planned signed_entries read_box b64decode s in
  AtomicSwap.expected_proposal_hash int_of_str sha256 s
  = AtomicSwap._proposal_hash int_of_str sha256
      (AtomicSwap.my_address s) (AtomicSwap.peer_address s)
      (Py.JInt (AtomicSwap.my_asa_id s)) (Py.JInt (AtomicSwap.my_asa_amount s))
      (AtomicSwap.peer_asa_id s) (AtomicSwap.peer_asa_amount s)
  /\ (forall expected planned signed file_hash,
        AtomicSwap.expected_proposal_hash int_of_str sha256 s = inr expected ->
        AtomicSwap.read_exchange loads read_box expected s
        = inr (planned, signed, file_hash) ->
        file_hash <> Py.JStr expected ->
        exists msg,
          run = (AtomicSwap.record msg s, [], inr (Channel.ErrorReply msg))
          /\ AtomicSwap.status (fst (fst run)) = AtomicSwap.status s
          /\ AtomicSwap.group_txid (fst (fst run)) = AtomicSwap.group_txid s)
  /\ ((snd (fst run) <> [] \/ (exists txid, snd run = inr (Channel.OkReply txid))
       \/ AtomicSwap.status (fst (fst run)) <> AtomicSwap.status s) ->
      exists expected planned signed,
        AtomicSwap.expected_proposal_hash int_of_str sha256 s = inr expected
        /\ AtomicSwap.read_exchange loads read_box expected s
           = inr (planned, signed, Py.JStr expected)).
Proof.
  cbv zeta. split; [reflexivity|]. split.
  - intros expected planned signed file_hash Hexp Hread Hneq.
    unfold AtomicSwap.tool_verify_and_submit_swap.
    rewrite Hexp, Hread, (is_str_false Hneq). simpl negb. cbv iota.
    eexists. repeat split.
  - unfold AtomicSwap.tool_verify_and_submit_swap.
    destruct (AtomicSwap.expected_proposal_hash int_of_str sha256 s) as [e|expected].
    { simpl. intros [H|[[txid H]|H]]; [now destruct H|discriminate|now destruct H]. }
    destruct (AtomicSwap.read_exchange loads read_box expected s)
      as [e|[[planned signed] file_hash]] eqn:Hread.
    { simpl. intros [H|[[txid H]|H]]; [now destruct H|discriminate|now destruct H]. }
    destruct (Channel.is_str file_hash expected) eqn:Hstr; simpl negb; cbv iota.
    + intros _. apply is_str_true in Hstr. subst file_hash.
      now exists expected, planned, signed.
    + simpl. intros [H|[[txid H]|H]]; [now destruct H|discriminate|now destruct H].
Qed.

Lemma verify_and_submit_binds_session_witness :
  exists msg,
    Demo.verify_and_submit "0000000000000000"
    = (AtomicSwap.record msg Demo.swap_buyer, [], inr (Channel.ErrorReply msg)).
Proof.
  destruct (proj1 (proj2 (verify_and_submit_binds_session Demo.int_of_str Sha256Ref.sha256
                     Demo.buyer_svc (fun _ => inr (Demo.exchange "0000000000000000"))
                     (fun _ => inr Demo.planned) Demo.signed_entries
                     (fun _ _ => inr []) Base64Ref.b64decode Demo.swap_buyer))
              "906befee3e8bdba4"
              (Py.JList [Py.JStr "5458a1"; Py.JStr "5458a2"])
              (Py.JList [Py.JStr ""; Py.JStr "Qg=="])
              (Py.JStr "0000000000000000"))
    as [msg [Hrun _]].
  - vm_compute. reflexivity.
  - reflexivity.
  - discriminate.
  - exists msg. exact Hrun.
Defined.

(** ** Preimage discovery and claim *)

Section PreimageFacts.

Import Py Channel Htlc.

Variable b64decode : string -> exn + bytes.

Lemma first_claim_spec (txns : list IndexerTxn) (c : Claim) :
  first_claim b64decode txns = Some c ->
  exists pre txn post arg args raw,
    txns = (pre ++ txn :: post)%list
    /\ Forall (fun x => tx_lsig_args x = []) pre
    /\ tx_lsig_args txn = arg :: args
    /\ b64decode arg = inr raw
    /\ c = {| c_preimage := HexRef.hex raw; c_txid := tx_id txn;
              c_round := tx_confirmed_round txn |}.
Proof.
  induction txns as [|txn txns IH]; simpl; [discriminate|].
  destruct (tx_lsig_args txn) as [|arg args] eqn:Hargs.
  - intros H. destruct (IH H) as [pre [t [post [a [as' [raw [-> [Hpre Hrest]]]]]]]].
    exists (txn :: pre), t, post, a, as', raw. split; [reflexivity|].
    split; [now constructor|exact Hrest].
  - destruct (b64decode arg) as [e|raw] eqn:Hdec; [discriminate|].
    intros H; injection H as <-.
    exists [], txn, txns, arg, args, raw. repeat split; try assumption. constructor.
Qed.

Lemma poll_hashlock_claim_spec (indexer : Indexer) (address : string) (min_round : Z)
    (c : Claim) :
  _poll_hashlock_claim b64decode indexer address min_round = Some c ->
  exists txns,
    indexer {| q_address := address; q_address_role := "sender"; q_tx_type := None;
               q_note_prefix := None; q_min_round := Some min_round |}
    = IndexerResponse 200 txns
    /\ first_claim b64decode txns = Some c.
Proof.
  unfold _poll_hashlock_claim.
  destruct (indexer _) as [|status txns]; [discriminate|].
  destruct (status =? 200)%Z eqn:E; simpl; [|discriminate].
  apply Z.eqb_eq in E. subst. intros H. now exists txns.
Qed.

End PreimageFacts.

Section ClaimFacts.

Import Py Channel Htlc.

Variable int_of_str : string -> option Z.
Variable sha256 : bytes -> bytes.
Variable fromhex : string -> option bytes.
Variable svc : Ledger.Services.

(** Every path of [claim_hashlock_asa] that reaches the signer has
    passed the hash check. *)
Lemma claim_requires_matching_preimage (s : SwapState) (hashlock_address recipient : string)
    (preimage_hex asa_id : JVal) :
  let run := tool_claim_hashlock_asa int_of_str sha256 fromhex svc s hashlock_address
               recipient preimage_hex asa_id in
  (snd (fst run) <> [] \/ exists txid, snd run = inr (OkReply txid)) ->
  exists p preimage_bytes,
    preimage_hex = JStr p
    /\ fromhex p = Some preimage_bytes
    /\ (hash s = "" \/ hexdigest sha256 preimage_bytes = hash s)
    /\ forall e, In e (snd (fst run)) -> Ledger.is_signing e = true ->
         e = Ledger.SignTransaction
               (claim_txn hashlock_address recipient
                  (match Py.int int_of_str asa_id with
                   | inr n => (n =? 0)%Z | inl _ => false end)
                  (match Py.int int_of_str asa_id with inr n => n | inl _ => 0%Z end))
               (Some hashlock_address) (Some [("preimage", preimage_bytes)]).
Proof.
  cbv zeta. unfold tool_claim_hashlock_asa.
  assert (Hno : forall (st : SwapState) (r : exn + Reply string),
             r = inl (ValueError "") \/ (exists m, r = inr (ErrorReply m))
             \/ (exists e, r = inl e) ->
             (snd (fst (st, @nil Ledger.Effect, r)) <> []
              \/ exists txid, snd (st, @nil Ledger.Effect, r) = inr (OkReply txid)) ->
             False).
  { intros st r Hr [H|[txid H]]; simpl in *; [now apply H|].
    destruct Hr as [->|[[m ->]|[e ->]]]; discriminate. }
  destruct (peer_hashlock s =? "");
    [intros H; exfalso; eapply Hno; [|exact H]; right; left; eexists; reflexivity|].
  destruct (negb (hashlock_address =? peer_hashlock s));
    [intros H; exfalso; eapply Hno; [|exact H]; right; left; eexists; reflexivity|].
  destruct (negb (recipient =? my_address s));
    [intros H; exfalso; eapply Hno; [|exact H]; right; left; eexists; reflexivity|].
  destruct (Py.int int_of_str asa_id) as [e|asa];
    [intros H; exfalso; eapply Hno; [|exact H]; right; right; eexists; reflexivity|].
  destruct (negb (asa =? 0)%Z && negb (asa =? peer_asa_id s)%Z)%bool;
    [intros H; exfalso; eapply Hno; [|exact H]; right; left; eexists; reflexivity|].
  destruct preimage_hex as [| | |p| |];
    try (intros H; exfalso; eapply Hno; [|exact H]; right; left; eexists; reflexivity).
  destruct (negb (Nat.eqb (String.length p) 64));
    [intros H; exfalso; eapply Hno; [|exact H]; right; left; eexists; reflexivity|].
  destruct (fromhex p) as [preimage_bytes|] eqn:Hhex;
    [|intros H; exfalso; eapply Hno; [|exact H]; right; left; eexists; reflexivity].
  destruct (negb (hash s =? "") && negb (hexdigest sha256 preimage_bytes =? hash s))%bool
    eqn:Hcheck;
    [intros H; exfalso; eapply Hno; [|exact H]; right; left; eexists; reflexivity|].
  intros _. exists p, preimage_bytes. split; [reflexivity|]. split; [exact Hhex|]. split.
  - apply Bool.andb_false_iff in Hcheck. destruct Hcheck as [H|H];
      apply Bool.negb_false_iff, String.eqb_eq in H; auto.
  - destruct (Ledger.suggested_params svc); [intros e0 []|].
    unfold Ledger.sign_send_confirm.
    destruct (Ledger.sign_transaction svc _ _ _) as [x|signed]; simpl.
    + intros e0 [<-|[]] _. reflexivity.
    + destruct (Ledger.send_raw_transaction svc signed) as [x|txid]; simpl.
      * intros e0 [<-|[<-|[]]]; [reflexivity|discriminate].
      * destruct (Ledger.wait_for_confirmation svc txid); simpl;
          intros e0 [<-|[<-|[<-|[]]]]; try reflexivity; discriminate.
Qed.

End ClaimFacts.

(** C8 (amended).  Preimage discovery queries the transactions sent from
    the session's own lock address and takes the first one that carries
    logic-signature arguments: it stores the hex form of its first
    argument in the session, with status [preimage_discovered], and
    leaves the commitment untouched and unread.  The check against the
    commitment is made by the claim: [claim_hashlock_asa] reaches the
    signer, or answers a transaction id, only with a secret that is
    valid hex and, when the session holds a commitment, hashes
    (SHA-256) to it; what it signs is the claim that carries this
    secret. *)
Theorem preimage_stored_then_checked_at_claim
    (int_of_str : string -> option Z) (sha256 : bytes -> bytes)
    (fromhex : string -> option bytes) (b64decode : string -> exn + bytes)
    (svc : Ledger.Services) :
  (forall indexer later s claim,
      Htlc.my_hashlock s <> "" ->
      Htlc._poll_hashlock_claim b64decode indexer (Htlc.my_hashlock s)
        (Htlc.last_seen_round s) = Some claim ->
      exists txns pre txn post arg args raw,
        indexer {| Channel.q_address := Htlc.my_hashlock s;
                   Channel.q_address_role := "sender";
                   Channel.q_tx_type := None;
                   Channel.q_note_prefix := None;
                   Channel.q_min_round := Some (Htlc.last_seen_round s) |}
        = Channel.IndexerResponse 200 txns
        /\ txns = (pre ++ txn :: post)%list
        /\ Forall (fun x => Channel.tx_lsig_args x = []) pre
        /\ Channel.tx_lsig_args txn = arg :: args
        /\ b64decode arg = inr raw
        /\ let run := Htlc.tool_wait_for_preimage b64decode (indexer :: later) s in
           snd run = Channel.OkReply claim
           /\ Htlc.c_preimage claim = HexRef.hex raw
           /\ Htlc.preimage (fst run) = HexRef.hex raw
           /\ Htlc.status (fst run) = "preimage_discovered"
           /\ Htlc.hash (fst run) = Htlc.hash s)
  /\ (forall s hashlock_address recipient preimage_hex asa_id,
        let run := Htlc.tool_claim_hashlock_asa int_of_str sha256 fromhex svc s
                     hashlock_address recipient preimage_hex asa_id in
        (snd (fst run) <> [] \/ exists txid, snd run = inr (Channel.OkReply txid)) ->
        exists p preimage_bytes,
          preimage_hex = Py.JStr p
          /\ fromhex p = Some preimage_bytes
          /\ (Htlc.hash s = "" \/ Htlc.hexdigest sha256 preimage_bytes = Htlc.hash s)
          /\ forall e, In e (snd (fst run)) -> Ledger.is_signing e = true ->
               exists algo asa,
                 e = Ledger.SignTransaction
                       (Htlc.claim_txn hashlock_address recipient algo asa)
                       (Some hashlock_address) (Some [("preimage", preimage_bytes)])).
Proof.
  split.
  - intros indexer later s claim Hlock Hpoll.
    destruct (poll_hashlock_claim_spec _ _ _ _ Hpoll) as [txns [Hidx Hfirst]].
    destruct (first_claim_spec _ _ Hfirst)
      as [pre [txn [post [arg [args [raw [Htx [Hpre [Hargs [Hdec Hclaim]]]]]]]]]].
    exists txns, pre, txn, post, arg, args, raw.
    repeat (split; [assumption|]).
    cbv zeta. unfold Htlc.tool_wait_for_preimage.
    apply String.eqb_neq in Hlock. rewrite Hlock.
    cbn [Htlc.preimage_loop]. rewrite Hpoll. subst claim. now simpl.
  - intros s hashlock_address recipient preimage_hex asa_id run H.
    destruct (claim_requires_matching_preimage int_of_str sha256 fromhex svc s
                hashlock_address recipient preimage_hex asa_id H)
      as [p [preimage_bytes [Hp [Hhex [Hhash Hsign]]]]].
    exists p, preimage_bytes. repeat (split; [assumption|]).
    intros e He Hs. eexists _, _. exact (Hsign e He Hs).
Qed.

Lemma preimage_stored_then_checked_at_claim_witness :
  let txn := {| Channel.tx_id := "CLAIMTX"; Channel.tx_note := "";
                Channel.tx_confirmed_round := 140; Channel.tx_sender := "SELLERLOCK";
                Channel.tx_lsig_args := ["AAAAAAAAAAAAAAAAAAAAAAAAAAAAAAAAAAAAAAAAAAA="];
                Channel.tx_amount := 0 |} in
  Htlc.my_hashlock Demo.htlc_seller <> ""
  /\ exists raw,
       Base64Ref.b64decode "AAAAAAAAAAAAAAAAAAAAAAAAAAAAAAAAAAAAAAAAAAA=" = inr raw
       /\ Htlc.preimage (fst (Htlc.tool_wait_for_preimage Base64Ref.b64decode
                                [Demo.indexer [txn]] Demo.htlc_seller))
          = HexRef.hex raw.
Proof.
  cbv zeta. split; [discriminate|].
  destruct (proj1 (preimage_stored_then_checked_at_claim Demo.int_of_str Sha256Ref.sha256
                     HexRef.fromhex_opt Base64Ref.b64decode Demo.svc)
              (Demo.indexer
                 [{| Channel.tx_id := "CLAIMTX"; Channel.tx_note := "";
                     Channel.tx_confirmed_round := 140;
                     Channel.tx_sender := "SELLERLOCK";
                     Channel.tx_lsig_args :=
                       ["AAAAAAAAAAAAAAAAAAAAAAAAAAAAAAAAAAAAAAAAAAA="];
                     Channel.tx_amount := 0 |}])
              [] Demo.htlc_seller
              {| Htlc.c_preimage :=
                   "0000000000000000000000000000000000000000000000000000000000000000";
                 Htlc.c_txid := "CLAIMTX"; Htlc.c_round := 140 |})
    as [txns [pre [txn [post [arg [args [raw H]]]]]]].
  - discriminate.
  - vm_compute. reflexivity.
  - destruct H as [Hidx [Htx [Hpre [Hargs [Hdec [_ [_ [Hstored _]]]]]]]].
    injection Hidx as <-.
    destruct pre as [|x pre].
    + injection Htx as <- _. simpl in Hargs. injection Hargs as <- _.
      exists raw. split; [exact Hdec|exact Hstored].
    + exfalso. injection Htx as <- Hrest. inversion Hpre as [|? ? Hx _]; subst.
      discriminate Hx.
Defined.

(** C8 as stated fails: discovery stores a secret that does not hash to
    the session's commitment and reports it as discovered. *)
Lemma preimage_stored_unverified_counterexample :
  let txn := {| Channel.tx_id := "CLAIMTX"; Channel.tx_note := "";
                Channel.tx_confirmed_round := 140; Channel.tx_sender := "SELLERLOCK";
                Channel.tx_lsig_args := ["AQEBAQEBAQEBAQEBAQEBAQEBAQEBAQEBAQEBAQEBAQE="];
                Channel.tx_amount := 0 |} in
  let run := Htlc.tool_wait_for_preimage Base64Ref.b64decode [Demo.indexer [txn]]
               Demo.htlc_seller in
  Htlc.preimage (fst run)
  = "0101010101010101010101010101010101010101010101010101010101010101"
  /\ Htlc.status (fst run) = "preimage_discovered"
  /\ Htlc.hash (fst run) = Htlc.hash Demo.htlc_seller
  /\ HexRef.fromhex_opt (Htlc.preimage (fst run)) = Some (repeat x01 32)
  /\ Sha256Ref.hexdigest (repeat x01 32)
     = "72cd6e8422c407fb6d098690f1130b7ded7ec2f7f5e1d30bd9d521f015363793"
  /\ Sha256Ref.hexdigest (repeat x01 32) <> Htlc.hash (fst run).
Proof. vm_compute. repeat split. discriminate. Qed.

(** The claim with that secret is refused before any call, the claim
    with the committed secret goes through. *)
Example claim_refuses_wrong_preimage :
  Htlc.tool_claim_hashlock_asa Demo.int_of_str Sha256Ref.sha256 HexRef.fromhex_opt
    Demo.svc Demo.htlc_seller "BUYERLOCK" "SELLER"
    (Py.JStr "0101010101010101010101010101010101010101010101010101010101010101")
    (Py.JInt 0)
  = (Demo.htlc_seller, [],
     inr (Channel.ErrorReply "preimage_hex does not match expected hash in state")).
Proof. vm_compute. reflexivity. Qed.

Example claim_accepts_committed_preimage :
  snd (Htlc.tool_claim_hashlock_asa Demo.int_of_str Sha256Ref.sha256 HexRef.fromhex_opt
         Demo.svc Demo.htlc_seller "BUYERLOCK" "SELLER"
         (Py.JStr "0000000000000000000000000000000000000000000000000000000000000000")
         (Py.JInt 0))
  = inr (Channel.OkReply "TXID").
Proof. vm_compute. reflexivity. Qed.

(** ** Proposal hash *)

(** *** Sorting by key does not depend on the order of the items *)

Section SortFacts.

Import Py.

Lemma compare_not_gt_trans (a b c : string) :
  String.compare a b <> Gt -> String.compare b c <> Gt -> String.compare a c <> Gt.
Proof.
  revert b c. induction a as [|x a IH]; intros [|y b] [|z c]; simpl;
    try congruence.
  unfold Ascii.compare.
  destruct (N.compare_spec (N_of_ascii x) (N_of_ascii y)) as [Hxy|Hxy|Hxy];
    destruct (N.compare_spec (N_of_ascii y) (N_of_ascii z)) as [Hyz|Hyz|Hyz];
    destruct (N.compare_spec (N_of_ascii x) (N_of_ascii z)) as [Hxz|Hxz|Hxz];
    try congruence; try lia.
  apply IH.
Qed.

Lemma leb_trans (a b c : string) :
  String.leb a b = true -> String.leb b c = true -> String.leb a c = true.
Proof.
  unfold String.leb. intros Hab Hbc.
  pose proof (@compare_not_gt_trans a b c) as H.
  destruct (String.compare a b); destruct (String.compare b c);
    destruct (String.compare a c); try reflexivity; try discriminate;
    exfalso; apply H; congruence.
Qed.

Lemma insert_by_key_perm (kv : string * string) (l : list (string * string)) :
  Permutation (insert_by_key kv l) (kv :: l).
Proof.
  induction l as [|kv' l IH]; simpl; [reflexivity|].
  destruct (String.leb (fst kv) (fst kv')); [reflexivity|].
  rewrite IH. apply perm_swap.
Qed.

Lemma sort_by_key_perm (l : list (string * string)) : Permutation (sort_by_key l) l.
Proof.
  induction l as [|kv l IH]; simpl; [reflexivity|].
  rewrite insert_by_key_perm. now constructor.
Qed.

Lemma insert_by_key_sorted (kv : string * string) (l : list (string * string)) :
  StronglySorted key_le l -> StronglySorted key_le (insert_by_key kv l).
Proof.
  induction l as [|kv' l IH]; intros Hs; simpl.
  - repeat constructor.
  - inversion Hs as [|? ? Hl Hall]; subst.
    destruct (String.leb (fst kv) (fst kv')) eqn:E.
    + constructor; [exact Hs|]. constructor; [exact E|].
      eapply Forall_impl; [|exact Hall]. intros x Hx. unfold key_le in *.
      eapply leb_trans; eassumption.
    + constructor; [now apply IH|].
      assert (Hle : key_le kv' kv).
      { unfold key_le. destruct (String.leb_total (fst kv') (fst kv)); congruence. }
      rewrite Forall_forall in *. intros x Hx.
      apply (Permutation_in _ (insert_by_key_perm kv l)) in Hx.
      destruct Hx as [<-|Hx]; [exact Hle|now apply Hall].
Qed.

Lemma sort_by_key_sorted (l : list (string * string)) :
  StronglySorted key_le (sort_by_key l).
Proof.
  induction l as [|kv l IH]; simpl; [constructor|now apply insert_by_key_sorted].
Qed.

Lemma sorted_perm_unique (l1 l2 : list (string * string)) :
  StronglySorted key_le l1 -> StronglySorted key_le l2 ->
  NoDup (map fst l1) -> Permutation l1 l2 -> l1 = l2.
Proof.
  revert l2. induction l1 as [|a l1 IH]; intros l2 H1 H2 Hnd Hp.
  - apply Permutation_nil in Hp. now subst.
  - destruct l2 as [|b l2]; [now apply Permutation_sym, Permutation_nil in Hp|].
    inversion H1 as [|? ? Hs1 Ha]; subst. inversion H2 as [|? ? Hs2 Hb]; subst.
    inversion Hnd as [|? ? Hnotin Hnd1]; subst.
    assert (Hab : a = b).
    { assert (Hin_a : In a (b :: l2)) by (eapply Permutation_in; [exact Hp|now left]).
      assert (Hin_b : In b (a :: l1))
        by (eapply Permutation_in; [apply Permutation_sym; exact Hp|now left]).
      destruct Hin_a as [->|Hin_a]; [reflexivity|].
      destruct Hin_b as [->|Hin_b]; [reflexivity|].
      rewrite Forall_forall in Ha, Hb.
      pose proof (Ha _ Hin_b) as Hle1. pose proof (Hb _ Hin_a) as Hle2.
      exfalso. apply Hnotin.
      rewrite (String.leb_antisym _ _ Hle1 Hle2). now apply in_map. }
    subst b. f_equal. apply IH; try assumption.
    now apply Permutation_cons_inv in Hp.
Qed.

Lemma sort_by_key_perm_invariant (l1 l2 : list (string * string)) :
  NoDup (map fst l1) -> Permutation l1 l2 -> sort_by_key l1 = sort_by_key l2.
Proof.
  intros Hnd Hp. apply sorted_perm_unique; try apply sort_by_key_sorted.
  - eapply Permutation_NoDup; [|exact Hnd].
    apply Permutation_map, Permutation_sym, sort_by_key_perm.
  - rewrite (sort_by_key_perm l1), Hp. apply Permutation_sym, sort_by_key_perm.
Qed.

Lemma dumps_obj (sort_keys : bool) (items : dict) :
  dumps sort_keys (JObj items)
  = render_items sort_keys (map (fun kv => (fst kv, dumps sort_keys (snd kv))) items).
Proof.
  cbn [dumps]. f_equal.
  induction items as [|[k v] items IH]; [reflexivity|].
  cbn [map fst snd]. now rewrite <- IH.
Qed.

Lemma dumps_sorted_perm_invariant (items1 items2 : dict) :
  NoDup (keys items1) -> Permutation items1 items2 ->
  dumps true (JObj items1) = dumps true (JObj items2).
Proof.
  intros Hnd Hp. rewrite !dumps_obj. unfold render_items.
  assert (E : sort_by_key (map (fun kv => (fst kv, dumps true (snd kv))) items1)
              = sort_by_key (map (fun kv => (fst kv, dumps true (snd kv))) items2)).
  { apply sort_by_key_perm_invariant.
    - unfold keys in Hnd. now rewrite map_map.
    - now apply Permutation_map. }
  now rewrite E.
Qed.

End SortFacts.

(** *** The canonical string determines the six values *)

Section CanonicalFacts.

Import Py.

Lemma append_inv_head (a x y : string) : a ++ x = a ++ y -> x = y.
Proof.
  induction a as [|c a IH]; simpl; [easy|]. intros H. injection H as H. now apply IH.
Qed.

Lemma unescape_escape_char (c : ascii) (x : string) :
  unescape_head (escape_char c ++ x) = Some (c, x).
Proof.
  destruct c as [[] [] [] [] [] [] [] []]; reflexivity.
Qed.

Lemma escape_inj (s1 s2 r1 r2 : string) :
  escape s1 ++ String dq r1 = escape s2 ++ String dq r2 -> s1 = s2 /\ r1 = r2.
Proof.
  revert s2. induction s1 as [|c1 s1 IH]; intros [|c2 s2]; simpl.
  - intros H. injection H as H. now split.
  - rewrite append_assoc. intros H. apply (f_equal unescape_head) in H.
    rewrite unescape_escape_char in H. discriminate.
  - rewrite append_assoc. intros H. apply (f_equal unescape_head) in H.
    rewrite unescape_escape_char in H. discriminate.
  - rewrite !append_assoc. intros H.
    pose proof (f_equal unescape_head H) as Hh.
    rewrite !unescape_escape_char in Hh. injection Hh as -> Hrest.
    destruct (IH _ Hrest) as [-> ->]. now split.
Qed.

Lemma quote_inj (s1 s2 r1 r2 : string) :
  quote s1 ++ r1 = quote s2 ++ r2 -> s1 = s2 /\ r1 = r2.
Proof.
  unfold quote. simpl. rewrite !append_assoc. simpl.
  intros H. injection H as H. now apply escape_inj.
Qed.

Lemma uint_inj (d1 d2 : Decimal.uint) (c1 c2 : ascii) (r1 r2 : string) :
  is_digit c1 = false -> is_digit c2 = false ->
  NilEmpty.string_of_uint d1 ++ String c1 r1 = NilEmpty.string_of_uint d2 ++ String c2 r2 ->
  d1 = d2 /\ c1 = c2 /\ r1 = r2.
Proof.
  intros Hc1 Hc2. revert d2.
  induction d1 as [|d1 IH|d1 IH|d1 IH|d1 IH|d1 IH|d1 IH|d1 IH|d1 IH|d1 IH|d1 IH];
    intros [|d2|d2|d2|d2|d2|d2|d2|d2|d2|d2]; simpl; intros H;
    injection H; intros; subst;
    first [ discriminate
          | match goal with
            | Hr : (_ ++ _)%string = (_ ++ _)%string |- _ =>
                destruct (IH _ Hr) as [-> [-> ->]]
            end; now repeat split
          | now repeat split ].
Qed.

Lemma str_Z_inj (z1 z2 : Z) (c : ascii) (r1 r2 : string) :
  is_digit c = false -> c <> "-"%char ->
  str_Z z1 ++ String c r1 = str_Z z2 ++ String c r2 -> z1 = z2 /\ r1 = r2.
Proof.
  intros Hc Hm. unfold str_Z, NilEmpty.string_of_int.
  destruct (Z.to_int z1) as [d1|d1] eqn:E1; destruct (Z.to_int z2) as [d2|d2] eqn:E2;
    simpl; intros H.
  - destruct (@uint_inj _ _ _ _ _ _ Hc Hc H) as [-> [_ ->]].
    split; [|reflexivity]. apply DecimalZ.to_int_inj. congruence.
  - exfalso. destruct d1; simpl in H; injection H as Hh _;
      first [now apply Hm | discriminate].
  - exfalso. destruct d2; simpl in H; injection H as Hh _;
      first [now (symmetry in Hh; apply Hm) | discriminate].
  - injection H as H. destruct (@uint_inj _ _ _ _ _ _ Hc Hc H) as [-> [_ ->]].
    split; [|reflexivity]. apply DecimalZ.to_int_inj. congruence.
Qed.

End CanonicalFacts.

Section TermsFacts.

Import Py AtomicSwap.

Lemma sorted_terms (x1 x2 x3 x4 x5 x6 : string) :
  sort_by_key [("buyer", x1); ("seller", x2); ("offer_asa", x3); ("offer_amount", x4);
               ("want_asa", x5); ("want_amount", x6)]
  = [("buyer", x1); ("offer_amount", x4); ("offer_asa", x3); ("seller", x2);
     ("want_amount", x6); ("want_asa", x5)].
Proof. reflexivity. Qed.

(** The canonical string, written out. *)
Lemma canonical_form (t : SwapTerms) :
  canonical t
  = String "{"
      (quote "buyer" ++ String ":"
      (quote (buyer t) ++ String ","
      (quote "offer_amount" ++ String ":"
      (str_Z (offer_amount t) ++ String ","
      (quote "offer_asa" ++ String ":"
      (str_Z (offer_asa t) ++ String ","
      (quote "seller" ++ String ":"
      (quote (seller t) ++ String ","
      (quote "want_amount" ++ String ":"
      (str_Z (want_amount t) ++ String ","
      (quote "want_asa" ++ String ":"
      (str_Z (want_asa t) ++ "}")))))))))))).
Proof.
  unfold canonical, terms_dict, proposal_dict. rewrite dumps_obj.
  cbn [map fst snd dumps]. unfold render_items. rewrite sorted_terms.
  cbn [map fst snd join]. rewrite !append_assoc. reflexivity.
Qed.

Ltac peel H := injection H as H; rewrite ?append_assoc in H; cbn [append] in H.

Lemma canonical_inj (t1 t2 : SwapTerms) : canonical t1 = canonical t2 -> t1 = t2.
Proof.
  rewrite !canonical_form. intros H.
  peel H. apply escape_inj in H. destruct H as [Hbuyer H].
  peel H. apply str_Z_inj in H; [|reflexivity|discriminate].
  destruct H as [Hoffer_amount H].
  peel H. apply str_Z_inj in H; [|reflexivity|discriminate].
  destruct H as [Hoffer_asa H].
  peel H. apply escape_inj in H. destruct H as [Hseller H].
  peel H. apply str_Z_inj in H; [|reflexivity|discriminate].
  destruct H as [Hwant_amount H].
  peel H. apply str_Z_inj in H; [|reflexivity|discriminate].
  destruct H as [Hwant_asa _].
  destruct t1, t2; simpl in *. congruence.
Qed.

Lemma terms_keys_nodup (t : SwapTerms) : NoDup (keys (terms_dict t)).
Proof.
  unfold keys, terms_dict, proposal_dict. cbn [map fst].
  repeat constructor; simpl; intros H;
    repeat (destruct H as [H|H]; [discriminate H|]); exact H.
Qed.

End TermsFacts.

(** *** A 16-digit hash takes finitely many values *)

Section FiniteDigest.

Lemma digit_in_hexchars (n : N) : In (HexRef.digit n) HexRef.hexchars.
Proof.
  unfold HexRef.digit. fold HexRef.hexchars.
  destruct (Nat.lt_ge_cases (N.to_nat n) (List.length HexRef.hexchars)) as [H|H].
  - now apply nth_In.
  - rewrite nth_overflow by assumption. now left.
Qed.

Lemma hex_all_hex (data : bytes) : HexRef.all_hex (HexRef.hex data).
Proof.
  induction data as [|b data IH]; simpl; [exact I|].
  repeat split; try apply digit_in_hexchars. exact IH.
Qed.

Lemma take_in_words (n : nat) (s : string) :
  HexRef.all_hex s -> In (Signer.take n s) (HexRef.words_upto n).
Proof.
  revert s. induction n as [|n IH]; intros s Hs.
  - simpl. now left.
  - destruct s as [|c s]; cbn [Signer.take HexRef.words_upto]; [now left|].
    right. destruct Hs as [Hc Hs].
    apply in_flat_map. exists c. split; [exact Hc|].
    apply in_map. now apply IH.
Qed.

Lemma NoDup_map_injective {A B} (f : A -> B) (l : list A) :
  (forall x y, f x = f y -> x = y) -> NoDup l -> NoDup (map f l).
Proof.
  intros Hinj Hnd. induction Hnd as [|x l Hx _ IH]; simpl; constructor; [|exact IH].
  intros Hin. apply in_map_iff in Hin. destruct Hin as [y [E Hy]].
  apply Hinj in E. now subst.
Qed.

Lemma pigeonhole_strings (f : nat -> string) (L : list string) :
  (forall n, In (f n) L) -> (forall x y, f x = f y -> x = y) -> False.
Proof.
  intros Hin Hinj.
  assert (Hnd : NoDup (map f (seq 0 (S (List.length L))))).
  { apply NoDup_map_injective; [exact Hinj|apply seq_NoDup]. }
  assert (Hincl : incl (map f (seq 0 (S (List.length L)))) L).
  { intros x Hx. apply in_map_iff in Hx. destruct Hx as [n [<- _]]. apply Hin. }
  pose proof (NoDup_incl_length Hnd Hincl) as Hlen.
  rewrite length_map, length_seq in Hlen. lia.
Qed.

End FiniteDigest.

Section HashFacts.

Import Py AtomicSwap.

Variable int_of_str : string -> option Z.
Variable sha256 : bytes -> bytes.

Lemma proposal_hash_digest (t : SwapTerms) :
  proposal_hash int_of_str sha256 t = inr (digest16 sha256 (canonical t)).
Proof. reflexivity. Qed.

Lemma digest16_in_words (text : string) :
  In (digest16 sha256 text) (HexRef.words_upto 16).
Proof. unfold digest16. apply take_in_words, hex_all_hex. Qed.

(** Terms that differ only in the wanted amount. *)
Lemma proposal_hash_collides :
  ~ (forall t1 t2 : SwapTerms,
        t1 <> t2 ->
        proposal_hash int_of_str sha256 t1 <> proposal_hash int_of_str sha256 t2).
Proof.
  intros Hclaim.
  pose (terms := fun n : nat =>
                   {| buyer := "BUYER"; seller := "SELLER"; offer_asa := 0;
                      offer_amount := 1000000; want_asa := 10458941;
                      want_amount := Z.of_nat n |}).
  apply (@pigeonhole_strings (fun n => digest16 sha256 (canonical (terms n)))
           (HexRef.words_upto 16)).
  - intros n. apply digest16_in_words.
  - intros x y Heq. destruct (Nat.eq_dec x y) as [E|N]; [exact E|]. exfalso.
    apply (Hclaim (terms x) (terms y)).
    + intros Ht. apply N. apply (f_equal want_amount) in Ht. simpl in Ht. lia.
    + rewrite !proposal_hash_digest. now rewrite Heq.
Qed.

End HashFacts.

(** C6 (amended).  [_proposal_hash] is a function of the six values: it
    is the first 16 hex digits of the SHA-256 digest of their canonical
    JSON text.  That text is the same for every order in which the six
    keys are supplied, and two sets of terms that differ in a field have
    different canonical texts.  Hence equal terms have equal hashes, and
    terms that differ have equal hashes only when the truncated digest
    of two different texts coincides. *)
Theorem proposal_hash_canonical
    (int_of_str : string -> option Z) (sha256 : bytes -> bytes) :
  (forall t,
      AtomicSwap.proposal_hash int_of_str sha256 t
      = inr (AtomicSwap.digest16 sha256 (AtomicSwap.canonical t)))
  /\ (forall t items,
        Permutation items (AtomicSwap.terms_dict t) ->
        Py.dumps true (Py.JObj items) = AtomicSwap.canonical t)
  /\ (forall t1 t2, AtomicSwap.canonical t1 = AtomicSwap.canonical t2 -> t1 = t2)
  /\ (forall t1 t2,
        t1 <> t2 ->
        AtomicSwap.proposal_hash int_of_str sha256 t1
        = AtomicSwap.proposal_hash int_of_str sha256 t2 ->
        AtomicSwap.canonical t1 <> AtomicSwap.canonical t2
        /\ AtomicSwap.digest16 sha256 (AtomicSwap.canonical t1)
           = AtomicSwap.digest16 sha256 (AtomicSwap.canonical t2)).
Proof.
  split; [|split; [|split]].
  - intros t. reflexivity.
  - intros t items Hp. unfold AtomicSwap.canonical. symmetry.
    apply dumps_sorted_perm_invariant; [apply terms_keys_nodup|].
    now apply Permutation_sym.
  - apply canonical_inj.
  - intros t1 t2 Hneq Heq. split.
    + intros Hc. apply Hneq. now apply canonical_inj.
    + rewrite !proposal_hash_digest in Heq. now injection Heq.
Qed.

Lemma proposal_hash_canonical_witness :
  let t := {| AtomicSwap.buyer := "BUYER"; AtomicSwap.seller := "SELLER";
              AtomicSwap.offer_asa := 0; AtomicSwap.offer_amount := 1000000;
              AtomicSwap.want_asa := 10458941; AtomicSwap.want_amount := 1000000 |} in
  let items := [("want_amount", Py.JInt 1000000); ("seller", Py.JStr "SELLER");
                ("buyer", Py.JStr "BUYER"); ("want_asa", Py.JInt 10458941);
                ("offer_amount", Py.JInt 1000000); ("offer_asa", Py.JInt 0)] in
  Permutation items (AtomicSwap.terms_dict t)
  /\ Py.dumps true (Py.JObj items) = AtomicSwap.canonical t.
Proof.
  cbv zeta.
  assert (Hp : Permutation
                 [("want_amount", Py.JInt 1000000); ("seller", Py.JStr "SELLER");
                  ("buyer", Py.JStr "BUYER"); ("want_asa", Py.JInt 10458941);
                  ("offer_amount", Py.JInt 1000000); ("offer_asa", Py.JInt 0)]
                 (AtomicSwap.terms_dict
                    {| AtomicSwap.buyer := "BUYER"; AtomicSwap.seller := "SELLER";
                       AtomicSwap.offer_asa := 0; AtomicSwap.offer_amount := 1000000;
                       AtomicSwap.want_asa := 10458941;
                       AtomicSwap.want_amount := 1000000 |})).
  { unfold AtomicSwap.terms_dict, AtomicSwap.proposal_dict.
    apply NoDup_Permutation.
    - repeat constructor; simpl; intros H;
        repeat (destruct H as [H|H]; [discriminate H|]); exact H.
    - repeat constructor; simpl; intros H;
        repeat (destruct H as [H|H]; [discriminate H|]); exact H.
    - intros x. simpl. tauto. }
  split; [exact Hp|].
  exact (proj1 (proj2 (proposal_hash_canonical Demo.int_of_str Sha256Ref.sha256)) _ _ Hp).
Defined.

(** C6 as stated fails: not all pairs of differing terms have
    different hashes, as a hash has at most 16 hexadecimal digits. *)
Lemma proposal_hash_injective_counterexample :
  ~ (forall t1 t2 : AtomicSwap.SwapTerms,
        t1 <> t2 ->
        AtomicSwap.proposal_hash Demo.int_of_str Sha256Ref.sha256 t1
        <> AtomicSwap.proposal_hash Demo.int_of_str Sha256Ref.sha256 t2).
Proof. apply proposal_hash_collides. Qed.

(** * Further properties of the code *)

(** ** Group assembler: the order of the signers *)

Section AssembleOrder.

Import Signer.

Lemma filter_perm {A} (f : A -> bool) (l l' : list A) :
  Permutation l l' -> Permutation (filter f l) (filter f l').
Proof.
  induction 1 as [|x l l' _ IH|x y l|l l' l'' _ IH1 _ IH2]; simpl.
  - constructor.
  - destruct (f x); [now constructor|exact IH].
  - destruct (f x), (f y); try reflexivity. apply perm_swap.
  - now transitivity (filter f l').
Qed.

Lemma entries_at_perm (ls ls' : list (list string)) (idx : nat) :
  Permutation ls ls' -> Permutation (entries_at ls idx) (entries_at ls' idx).
Proof. intros H. unfold entries_at. now apply filter_perm, Permutation_map. Qed.

Lemma resolve_slot_perm (ls ls' : list (list string)) (idx : nat) :
  Permutation ls ls' -> resolve_slot ls' idx = resolve_slot ls idx.
Proof.
  intros H. pose proof (entries_at_perm idx H) as Hp. unfold resolve_slot.
  destruct (entries_at ls idx) as [|x [|y r]].
  - apply Permutation_nil in Hp. now rewrite Hp.
  - apply Permutation_length_1_inv in Hp. now rewrite Hp.
  - pose proof (Permutation_length Hp) as Hlen.
    destruct (entries_at ls' idx) as [|x' [|y' r']]; simpl in Hlen; try lia.
    reflexivity.
Qed.

Lemma mapM_ext {A B} (f g : A -> exn + B) (l : list A) :
  (forall a, f a = g a) -> mapM f l = mapM g l.
Proof.
  intros H. induction l as [|a l IH]; simpl; [reflexivity|]. now rewrite H, IH.
Qed.

End AssembleOrder.

(** X1.  The result of [assemble_group] does not depend on the order
    in which the signers' lists are given, as long as they all have the
    same length: the same string, or the same error. *)
Theorem assemble_group_signer_order
    (b64decode : string -> exn + bytes) (b64encode : bytes -> string)
    (ls ls' : list (list string)) (N : nat) :
  Forall (fun sl => List.length sl = N) ls ->
  Permutation ls ls' ->
  Signer.assemble_group b64decode b64encode ls'
  = Signer.assemble_group b64decode b64encode ls.
Proof.
  intros Hall Hp.
  assert (Hall' : Forall (fun sl => List.length sl = N) ls')
    by (eapply Permutation_Forall; eassumption).
  destruct ls as [|first rest].
  - apply Permutation_nil in Hp. now subst.
  - destruct ls' as [|first' rest'];
      [now apply Permutation_sym, Permutation_nil in Hp|].
    unfold Signer.assemble_group.
    assert (H1 : List.length first = N) by now inversion Hall.
    assert (H2 : List.length first' = N) by now inversion Hall'.
    rewrite H1, H2, (check_lengths_ok 0 Hall), (check_lengths_ok 0 Hall').
    cbn [Exc.bind]. unfold Signer.merge_slots.
    rewrite (mapM_ext (Signer.resolve_slot (first' :: rest'))
               (Signer.resolve_slot (first :: rest))); [reflexivity|].
    intros idx. now apply resolve_slot_perm.
Qed.

Lemma assemble_group_signer_order_witness :
  Signer.assemble_group Base64Ref.b64decode Base64Ref.b64encode
    [[""; "Qg=="]; ["QQ=="; ""]]
  = Signer.assemble_group Base64Ref.b64decode Base64Ref.b64encode
      [["QQ=="; ""]; [""; "Qg=="]].
Proof.
  apply (@assemble_group_signer_order Base64Ref.b64decode Base64Ref.b64encode
           [["QQ=="; ""]; [""; "Qg=="]] [[""; "Qg=="]; ["QQ=="; ""]] 2).
  - repeat constructor.
  - apply perm_swap.
Defined.

(** ** Signing client: the request body and the reply *)

Section RequestFacts.

Import Signer SignerSlots.

Variable Transaction : Type.
Variable encode_transaction : Transaction -> string * string.
Variable b64decode_validate : string -> exn + bytes.
Variable hex : bytes -> string.

Lemma build_entry_kind lsig_args_map (p : option (list (Z * string))) lsig_sizes
    (i : nat) (txn : option Transaction) (auth_addr : option string)
    (e : SignRequestEntry) :
  build_entry encode_transaction b64decode_validate hex lsig_args_map
    (match p with Some ((_ :: _) as q) => Some q | _ => None end) lsig_sizes
    i txn auth_addr = inr e ->
  entry_kind e = slot_kind p i auth_addr.
Proof.
  unfold build_entry, slot_kind.
  assert (E : match match p with Some ((_ :: _) as q) => Some q | _ => None end with
              | Some q => lookupZ (Z.of_nat i) q
              | None => None
              end
              = match p with
                | Some ((_ :: _) as q) => lookupZ (Z.of_nat i) q
                | _ => None
                end) by (destruct p as [[|x q]|]; reflexivity).
  rewrite E. clear E.
  destruct (match p with Some ((_ :: _) as q) => lookupZ (Z.of_nat i) q | _ => None end)
    as [pre|].
  - destruct (b64decode_validate pre); [discriminate|].
    intros H; injection H as <-. reflexivity.
  - destruct auth_addr as [[|c a]|]; destruct txn as [t|]; try discriminate.
    + intros H; injection H as <-. reflexivity.
    + destruct (encode_transaction t). intros H; injection H as <-. reflexivity.
    + intros H; injection H as <-. reflexivity.
Qed.

Lemma build_entries_kinds lsig_args_map (p : option (list (Z * string))) lsig_sizes
    (i : nat) (pairs : list (option Transaction * option string))
    (es : list SignRequestEntry) :
  build_entries encode_transaction b64decode_validate hex lsig_args_map
    (match p with Some ((_ :: _) as q) => Some q | _ => None end) lsig_sizes
    i pairs = inr es ->
  map entry_kind es
  = map (fun ia => slot_kind p (fst ia) (snd ia))
        (combine (seq i (List.length pairs)) (map snd pairs)).
Proof.
  revert i es. induction pairs as [|[txn auth] pairs IH]; intros i es; simpl.
  - intros H; injection H as <-. reflexivity.
  - destruct (build_entry _ _ _ _ _ _ i txn auth) as [x|e] eqn:He; simpl; [discriminate|].
    destruct (build_entries _ _ _ _ _ _ (S i) pairs) as [x|es'] eqn:Hes; simpl;
      [discriminate|].
    intros H; injection H as <-. simpl.
    rewrite (build_entry_kind _ _ _ _ _ _ He). f_equal. now apply IH.
Qed.

Lemma validate_passthrough_fails (n : nat) (p : list (Z * string)) :
  (exists idx v, In (idx, v) p /\ index_in_range idx n = false) ->
  exists msg, validate_passthrough n p = inl (ValueError msg).
Proof.
  induction p as [|[k v] p IH]; intros [idx [w [Hin Hr]]]; simpl; [destruct Hin|].
  destruct (index_in_range k n) eqn:E; [|eexists; reflexivity].
  destruct Hin as [H|Hin]; [injection H as -> _; congruence|].
  apply IH. now exists idx, w.
Qed.

Lemma validate_lsig_sizes_fails (n : nat) (m : list (Z * Z)) :
  (exists idx size, In (idx, size) m
                    /\ (index_in_range idx n = false \/ (size < 0)%Z)) ->
  exists msg, validate_lsig_sizes n m = inl (ValueError msg).
Proof.
  induction m as [|[k sz] m IH]; intros [idx [size [Hin Hr]]]; simpl; [destruct Hin|].
  destruct (index_in_range k n) eqn:E; simpl; [|eexists; reflexivity].
  destruct (sz <? 0)%Z eqn:Es; [eexists; reflexivity|].
  destruct Hin as [H|Hin].
  - injection H as -> ->. apply Z.ltb_ge in Es. destruct Hr as [Hr|Hr]; [congruence|lia].
  - apply IH. now exists idx, size.
Qed.

End RequestFacts.

(** X2.  A request body that is built has one entry for each
    transaction, in slot order, and the kind of entry [i] is read off
    slot [i] alone: passthrough if [i] is a key of [passthrough], else
    foreign if the slot has no auth address, else a sign entry that
    carries the slot's auth address. *)
Theorem request_body_matches_slots
    (Transaction : Type) (encode_transaction : Transaction -> string * string)
    (b64decode_validate : string -> exn + bytes) (hex : bytes -> string)
    (txns : list (option Transaction)) (auth_addresses : list (option string))
    lsig_args_map passthrough lsig_sizes (body : list Signer.SignRequestEntry) :
  List.length auth_addresses = List.length txns ->
  Signer._build_sign_request_body encode_transaction b64decode_validate hex
    txns auth_addresses lsig_args_map passthrough lsig_sizes = inr body ->
  List.length body = List.length txns
  /\ map SignerSlots.entry_kind body
     = map (fun ia => SignerSlots.slot_kind passthrough (fst ia) (snd ia))
           (combine (seq 0 (List.length txns)) auth_addresses).
Proof.
  intros Hlen. unfold Signer._build_sign_request_body.
  destruct (match passthrough with
            | Some ((_ :: _) as p) => Signer.validate_passthrough (List.length txns) p
            | _ => inr tt
            end) as [e|[]]; cbn [Exc.bind]; [discriminate|].
  destruct (match lsig_sizes with
            | Some ((_ :: _) as m) => Signer.validate_lsig_sizes (List.length txns) m
            | _ => inr tt
            end) as [e|[]]; cbn [Exc.bind]; [discriminate|].
  intros H. apply build_entries_kinds in H.
  assert (Hc : List.length (combine txns auth_addresses) = List.length txns)
    by (rewrite length_combine; lia).
  assert (Hs : map snd (combine txns auth_addresses) = auth_addresses).
  { clear H Hc. revert auth_addresses Hlen.
    induction txns as [|t txns IH]; intros [|a auth]; simpl; intros Hl;
      try reflexivity; try discriminate.
    f_equal. apply IH. lia. }
  rewrite Hc, Hs in H. split; [|exact H].
  apply (f_equal (@List.length _)) in H.
  rewrite !length_map, length_combine, length_seq in H. lia.
Qed.

Lemma request_body_matches_slots_witness :
  exists body,
    Signer._build_sign_request_body ClientRun.encode_transaction Base64Ref.b64decode
      HexRef.hex [Some "A"; None; Some "C"] [None; None; Some "C"] None
      (Some [(1%Z, "QQ==")]) (Some [(0%Z, 3000%Z)]) = inr body
    /\ map SignerSlots.entry_kind body
       = [SignerSlots.ForeignSlot; SignerSlots.PassthroughSlot; SignerSlots.SignSlot "C"].
Proof.
  eexists. split; [reflexivity|].
  exact (proj2 (@request_body_matches_slots string ClientRun.encode_transaction
                  Base64Ref.b64decode HexRef.hex [Some "A"; None; Some "C"]
                  [None; None; Some "C"] None (Some [(1%Z, "QQ==")])
                  (Some [(0%Z, 3000%Z)]) _ eq_refl eq_refl)).
Defined.

(** X3.  A [passthrough] key outside the group, an [lsig_sizes] key
    outside the group or a negative size hint makes the request fail
    with a [ValueError]; the same error comes out of [_sign_request],
    whatever the server would answer. *)
Theorem request_rejects_bad_indices
    (Transaction : Type) (encode_transaction : Transaction -> string * string)
    (b64decode_validate : string -> exn + bytes) (b64encode : bytes -> string)
    (hex : bytes -> string) (fromhex : string -> exn + bytes)
    (post_sign : list Signer.SignRequestEntry -> Signer.HttpReply)
    (txns : list (option Transaction)) (auth_addresses : list (option string))
    lsig_args_map (passthrough : list (Z * string)) (lsig_sizes : list (Z * Z)) :
  ((exists idx v, In (idx, v) passthrough
                  /\ ((idx < 0)%Z \/ (Z.of_nat (List.length txns) <= idx)%Z))
   \/ ((forall idx v, In (idx, v) passthrough ->
                      (0 <= idx < Z.of_nat (List.length txns))%Z)
       /\ exists idx size, In (idx, size) lsig_sizes
                           /\ ((idx < 0)%Z \/ (Z.of_nat (List.length txns) <= idx)%Z
                               \/ (size < 0)%Z))) ->
  exists msg,
    Signer._build_sign_request_body encode_transaction b64decode_validate hex
      txns auth_addresses lsig_args_map (Some passthrough) (Some lsig_sizes)
    = inl (ValueError msg)
    /\ Signer._sign_request encode_transaction b64decode_validate b64encode hex fromhex
         post_sign txns auth_addresses lsig_args_map (Some passthrough) (Some lsig_sizes)
       = inl (ValueError msg).
Proof.
  assert (Hrange : forall idx n, (idx < 0)%Z \/ (Z.of_nat n <= idx)%Z ->
                                 Signer.index_in_range idx n = false).
  { intros idx n H. unfold Signer.index_in_range.
    destruct (0 <=? idx)%Z eqn:E1; [|reflexivity]. simpl.
    apply Z.ltb_ge. apply Z.leb_le in E1. lia. }
  assert (Hin : forall idx n, (0 <= idx < Z.of_nat n)%Z ->
                              Signer.index_in_range idx n = true).
  { intros idx n H. unfold Signer.index_in_range.
    apply andb_true_intro. split; [apply Z.leb_le|apply Z.ltb_lt]; lia. }
  intros [[idx [v [Hp Hbad]]]|[Hok [idx [size [Hl Hbad]]]]].
  - destruct (@validate_passthrough_fails (List.length txns) passthrough) as [msg Hmsg].
    { exists idx, v. split; [exact Hp|now apply Hrange]. }
    exists msg. unfold Signer._sign_request, Signer._build_sign_request_body.
    destruct passthrough as [|x p]; [destruct Hp|].
    rewrite Hmsg. now split.
  - assert (Hpass : forall p, (forall i v, In (i, v) p ->
                                 (0 <= i < Z.of_nat (List.length txns))%Z) ->
                              Signer.validate_passthrough (List.length txns) p = inr tt).
    { induction p as [|[k v] p IH]; intros Hall; simpl; [reflexivity|].
      rewrite (Hin k _ (Hall k v (or_introl eq_refl))). apply IH.
      intros i w Hi. apply (Hall i w). now right. }
    destruct (@validate_lsig_sizes_fails (List.length txns) lsig_sizes) as [msg Hmsg].
    { exists idx, size. split; [exact Hl|].
      destruct Hbad as [H|[H|H]]; [left; apply Hrange; now left
                                  |left; apply Hrange; now right|now right]. }
    exists msg. unfold Signer._sign_request, Signer._build_sign_request_body.
    assert (E : match Some passthrough with
                | Some ((_ :: _) as p) => Signer.validate_passthrough (List.length txns) p
                | _ => inr tt
                end = inr tt).
    { destruct passthrough as [|x p]; [reflexivity|]. now apply Hpass. }
    rewrite E. cbn [Exc.bind].
    destruct lsig_sizes as [|x m]; [destruct Hl|].
    rewrite Hmsg. now split.
Qed.

Lemma request_rejects_bad_indices_witness :
  exists msg,
    Signer._sign_request ClientRun.encode_transaction Base64Ref.b64decode
      Base64Ref.b64encode HexRef.hex HexRef.fromhex
      (fun _ => ClientRun.reply_ok ["41"]) [Some "A"] [Some "A"] None
      (Some [(1%Z, "QQ==")]) (Some [])
    = inl (ValueError msg).
Proof.
  destruct (@request_rejects_bad_indices string ClientRun.encode_transaction
              Base64Ref.b64decode Base64Ref.b64encode HexRef.hex HexRef.fromhex
              (fun _ => ClientRun.reply_ok ["41"]) [Some "A"] [Some "A"] None
              [(1%Z, "QQ==")] []) as [msg [_ H]].
  - left. exists 1%Z, "QQ==". split; [now left|right; simpl; lia].
  - exists msg. exact H.
Defined.

Section ReplyFacts.

Import Signer.

Variable b64encode : bytes -> string.
Variable fromhex : string -> exn + bytes.

Lemma convert_signed_converted (h r : string) :
  convert_signed b64encode fromhex h = inr r ->
  SignerSlots.converted b64encode fromhex h r.
Proof.
  unfold convert_signed, SignerSlots.converted.
  destruct (h =? "") eqn:E.
  - apply String.eqb_eq in E. intros H; injection H as <-. now left.
  - apply String.eqb_neq in E. destruct (fromhex h) as [e|raw]; simpl; [discriminate|].
    intros H; injection H as <-. right. split; [exact E|]. now exists raw.
Qed.

Lemma parse_sign_reply_inr (reply : HttpReply) (result : list string) :
  parse_sign_reply b64encode fromhex reply = inr result ->
  exists text data hexes,
    reply = Response 200 text (Some data)
    /\ (d_error data = None \/ d_error data = Some "")
    /\ d_signed data = Some hexes
    /\ hexes <> []
    /\ Forall2 (SignerSlots.converted b64encode fromhex) hexes result.
Proof.
  destruct reply as [e|status text json]; simpl; [discriminate|].
  destruct (status =? 401)%Z; [discriminate|].
  destruct (status =? 400)%Z.
  { destruct (contains _ _); discriminate. }
  destruct (status =? 403)%Z; [discriminate|].
  destruct (status =? 503)%Z; [discriminate|].
  destruct (status =? 200)%Z eqn:E200; simpl; [|discriminate].
  apply Z.eqb_eq in E200. subst status.
  destruct json as [data|]; [|discriminate].
  destruct (d_error data) as [[|c e]|] eqn:Eerr; try discriminate;
    (destruct (d_signed data) as [[|h hs]|] eqn:Esig; try discriminate;
     intros H; exists text, data, (h :: hs);
     repeat split; auto; try discriminate;
     apply mapM_inr_Forall2 in H;
     eapply Forall2_impl; [|exact H];
     intros a b Hab; now apply convert_signed_converted).
Qed.

Lemma parse_sign_reply_not_200 (status : Z) (text : string) (json : option ReplyData) :
  status <> 200%Z ->
  exists e,
    parse_sign_reply b64encode fromhex (Response status text json) = inl e
    /\ is_SignerError e = true
    /\ (status = 401%Z -> exists m, e = AuthenticationError m)
    /\ (status = 403%Z -> exists m, e = SigningRejectedError m)
    /\ (status = 503%Z -> exists m, e = SignerUnavailableError m)
    /\ (status = 400%Z -> exists m, e = KeyNotFoundError m \/ e = SignerError m).
Proof.
  intros Hne. simpl.
  destruct (status =? 401)%Z eqn:E401.
  { apply Z.eqb_eq in E401. eexists. split; [reflexivity|].
    repeat split; intros; try lia. now eexists. }
  destruct (status =? 400)%Z eqn:E400.
  { apply Z.eqb_eq in E400.
    destruct (contains _ _); (eexists; split; [reflexivity|]);
      repeat split; intros; try lia; eexists; [left|right]; reflexivity. }
  destruct (status =? 403)%Z eqn:E403.
  { apply Z.eqb_eq in E403. eexists. split; [reflexivity|].
    repeat split; intros; try lia. now eexists. }
  destruct (status =? 503)%Z eqn:E503.
  { apply Z.eqb_eq in E503. eexists. split; [reflexivity|].
    repeat split; intros; try lia. now eexists. }
  destruct (status =? 200)%Z eqn:E200.
  { apply Z.eqb_eq in E200. contradiction. }
  apply Z.eqb_neq in E401, E400, E403, E503.
  simpl. eexists. split; [reflexivity|]. repeat split; intros; contradiction.
Qed.

End ReplyFacts.

(** X4.  When [_sign_request] returns a list, the server answered the
    request body with status 200, a JSON document without (or with an
    empty) ["error"] and a non-empty ["signed"] array; the result has
    one entry for each entry of that array, in the same order: [""]
    where the server sent [""], the base64 of the decoded hex
    otherwise. *)
Theorem sign_request_result_follows_reply
    (Transaction : Type) (encode_transaction : Transaction -> string * string)
    (b64decode_validate : string -> exn + bytes) (b64encode : bytes -> string)
    (hex : bytes -> string) (fromhex : string -> exn + bytes)
    (post_sign : list Signer.SignRequestEntry -> Signer.HttpReply)
    (txns : list (option Transaction)) (auth_addresses : list (option string))
    lsig_args_map passthrough lsig_sizes (result : list string) :
  Signer._sign_request encode_transaction b64decode_validate b64encode hex fromhex
    post_sign txns auth_addresses lsig_args_map passthrough lsig_sizes = inr result ->
  exists body text data hexes,
    Signer._build_sign_request_body encode_transaction b64decode_validate hex
      txns auth_addresses lsig_args_map passthrough lsig_sizes = inr body
    /\ post_sign body = Signer.Response 200 text (Some data)
    /\ (Signer.d_error data = None \/ Signer.d_error data = Some "")
    /\ Signer.d_signed data = Some hexes
    /\ hexes <> []
    /\ List.length result = List.length hexes
    /\ Forall2 (SignerSlots.converted b64encode fromhex) hexes result.
Proof.
  unfold Signer._sign_request.
  destruct (Signer._build_sign_request_body _ _ _ _ _ _ _ _) as [e|body];
    cbn [Exc.bind]; [discriminate|].
  intros H. apply parse_sign_reply_inr in H.
  destruct H as [text [data [hexes [Hr [He [Hs [Hn Hf]]]]]]].
  exists body, text, data, hexes. repeat split; auto.
  symmetry. eapply Forall2_length; eassumption.
Qed.

Lemma sign_request_result_follows_reply_witness :
  exists body text data hexes,
    Signer._build_sign_request_body ClientRun.encode_transaction Base64Ref.b64decode
      HexRef.hex [Some "A"; Some "B"] [Some "A"; None] None None None = inr body
    /\ ClientRun.reply_ok ["41"; ""] = Signer.Response 200 text (Some data)
    /\ (Signer.d_error data = None \/ Signer.d_error data = Some "")
    /\ Signer.d_signed data = Some hexes
    /\ hexes <> []
    /\ List.length ["QQ=="; ""] = List.length hexes
    /\ Forall2 (SignerSlots.converted Base64Ref.b64encode HexRef.fromhex) hexes ["QQ=="; ""].
Proof.
  exact (@sign_request_result_follows_reply string ClientRun.encode_transaction
           Base64Ref.b64decode Base64Ref.b64encode HexRef.hex HexRef.fromhex
           (fun _ => ClientRun.reply_ok ["41"; ""]) [Some "A"; Some "B"]
           [Some "A"; None] None None None ["QQ=="; ""] eq_refl).
Defined.

(** X5.  When the request body builds and the server's answer has a
    status other than 200, [_sign_request] raises an exception of the
    [SignerError] family whatever the answer's text is: 401 gives
    [AuthenticationError], 403 [SigningRejectedError], 503
    [SignerUnavailableError], 400 [KeyNotFoundError] or [SignerError];
    a transport failure gives [SignerUnavailableError]. *)
Theorem sign_request_failure_classes
    (Transaction : Type) (encode_transaction : Transaction -> string * string)
    (b64decode_validate : string -> exn + bytes) (b64encode : bytes -> string)
    (hex : bytes -> string) (fromhex : string -> exn + bytes)
    (post_sign : list Signer.SignRequestEntry -> Signer.HttpReply)
    (txns : list (option Transaction)) (auth_addresses : list (option string))
    lsig_args_map passthrough lsig_sizes (body : list Signer.SignRequestEntry) :
  Signer._build_sign_request_body encode_transaction b64decode_validate hex
    txns auth_addresses lsig_args_map passthrough lsig_sizes = inr body ->
  (forall text json, post_sign body <> Signer.Response 200 text json) ->
  exists e,
    Signer._sign_request encode_transaction b64decode_validate b64encode hex fromhex
      post_sign txns auth_addresses lsig_args_map passthrough lsig_sizes = inl e
    /\ Exc.is_SignerError e = true
    /\ (forall x, post_sign body = Signer.RequestException x ->
                  exists m, e = SignerUnavailableError m)
    /\ (forall text json, post_sign body = Signer.Response 401 text json ->
                          exists m, e = AuthenticationError m)
    /\ (forall text json, post_sign body = Signer.Response 403 text json ->
                          exists m, e = SigningRejectedError m)
    /\ (forall text json, post_sign body = Signer.Response 503 text json ->
                          exists m, e = SignerUnavailableError m)
    /\ (forall text json, post_sign body = Signer.Response 400 text json ->
                          exists m, e = KeyNotFoundError m \/ e = SignerError m).
Proof.
  intros Hbody Hne. unfold Signer._sign_request. rewrite Hbody. cbn [Exc.bind].
  destruct (post_sign body) as [x|status text json] eqn:Er.
  - eexists. split; [reflexivity|]. split; [reflexivity|].
    repeat split; intros; try discriminate. now eexists.
  - assert (Hs : status <> 200%Z) by (intros ->; now apply (Hne text json)).
    destruct (parse_sign_reply_not_200 b64encode fromhex text json Hs)
      as [e [He [Hc [H401 [H403 [H503 H400]]]]]].
    exists e. split; [exact He|]. split; [exact Hc|].
    repeat split; intros; try discriminate;
      match goal with
      | H : Signer.Response _ _ _ = Signer.Response _ _ _ |- _ =>
          injection H as -> _ _
      end; auto.
Qed.

Lemma sign_request_failure_classes_witness :
  exists e,
    Signer._sign_request ClientRun.encode_transaction Base64Ref.b64decode
      Base64Ref.b64encode HexRef.hex HexRef.fromhex
      (fun _ => Signer.Response 403 "denied" None) [Some "A"] [Some "A"] None None None
    = inl e
    /\ Exc.is_SignerError e = true.
Proof.
  destruct (@sign_request_failure_classes string ClientRun.encode_transaction
              Base64Ref.b64decode Base64Ref.b64encode HexRef.hex HexRef.fromhex
              (fun _ => Signer.Response 403 "denied" None) [Some "A"] [Some "A"]
              None None None _ eq_refl) as [e [He [Hc _]]].
  - intros text json H. discriminate H.
  - exists e. now split.
Defined.

Section Composition.

Import Signer.

Lemma map_nth_seq (l : list string) :
  map (fun i => nth i l "") (seq 0 (List.length l)) = l.
Proof.
  induction l as [|x l IH]; simpl; [reflexivity|].
  f_equal. rewrite <- seq_shift, map_map. exact IH.
Qed.

Lemma merge_single_list (l : list string) :
  Forall (fun s => s <> "") l ->
  merge_slots [l] (List.length l) = inr l.
Proof.
  intros Hall. unfold merge_slots.
  rewrite (proj2 (mapM_inr_Forall2 (resolve_slot [l]) (seq 0 (List.length l)) l));
    [reflexivity|].
  rewrite <- (map_nth_seq l) at 2.
  assert (Hgen : forall idxs, Forall (fun i => i < List.length l) idxs ->
            Forall2 (fun a b => resolve_slot [l] a = inr b) idxs
                    (map (fun i => nth i l "") idxs)).
  { induction idxs as [|i idxs IH]; intros Hi; simpl; constructor.
    - inversion Hi; subst.
      unfold resolve_slot, entries_at. simpl.
      assert (Ht : truthy (nth i l "") = true).
      { unfold truthy. apply negb_true_iff, String.eqb_neq.
        rewrite Forall_forall in Hall. apply Hall. now apply nth_In. }
      now rewrite Ht.
    - apply IH. now inversion Hi. }
  apply Hgen. apply Forall_forall. intros i Hi. apply in_seq in Hi. lia.
Qed.

End Composition.

(** X6.  [sign_transactions] is [sign_transactions_list] followed by
    [assemble_group] on that one list: when the list has no empty
    entry, both give the same string or the same error. *)
Theorem sign_transactions_is_assembled_list
    (Transaction : Type) (encode_transaction : Transaction -> string * string)
    (sender_of : Transaction -> string)
    (b64decode b64decode_validate : string -> exn + bytes) (b64encode : bytes -> string)
    (hex : bytes -> string) (fromhex : string -> exn + bytes)
    (post_sign : list Signer.SignRequestEntry -> Signer.HttpReply)
    (txns : list (option Transaction)) (auth_addresses : option (list (option string)))
    lsig_args_map passthrough lsig_sizes (l : list string) :
  Signer.sign_transactions_list encode_transaction sender_of b64decode_validate
    b64encode hex fromhex post_sign txns auth_addresses lsig_args_map passthrough
    lsig_sizes = inr l ->
  Forall (fun s => s <> "") l ->
  Signer.sign_transactions encode_transaction sender_of b64decode b64decode_validate
    b64encode hex fromhex post_sign txns auth_addresses lsig_args_map passthrough
    lsig_sizes
  = Signer.assemble_group b64decode b64encode [l].
Proof.
  unfold Signer.sign_transactions_list, Signer.sign_transactions.
  destruct (negb (Nat.eqb _ _)); [discriminate|].
  intros -> Hall. cbn [Exc.bind].
  assert (He : existsb (fun s => s =? "") l = false).
  { destruct (existsb (fun s => s =? "") l) eqn:E; [|reflexivity].
    apply existsb_empty_In in E. rewrite Forall_forall in Hall.
    now destruct (Hall "" E). }
  rewrite He. unfold Signer.assemble_group. simpl Signer.check_lengths.
  rewrite Nat.eqb_refl. cbn [Exc.bind].
  now rewrite (merge_single_list Hall).
Qed.

Lemma sign_transactions_is_assembled_list_witness :
  ClientRun.sign_transactions (fun _ => ClientRun.reply_ok ["41"; "42"])
    [Some "A"; Some "B"] None None None None
  = Signer.assemble_group Base64Ref.b64decode Base64Ref.b64encode [["QQ=="; "Qg=="]].
Proof.
  apply (@sign_transactions_is_assembled_list string ClientRun.encode_transaction
           ClientRun.sender_of Base64Ref.b64decode Base64Ref.b64decode
           Base64Ref.b64encode HexRef.hex HexRef.fromhex
           (fun _ => ClientRun.reply_ok ["41"; "42"]) [Some "A"; Some "B"] None
           None None None ["QQ=="; "Qg=="] eq_refl).
  repeat constructor; discriminate.
Defined.

(** ** Box exchange: the payload of the write calls *)

Example inflate_hello :
  InflateRef.decompress (ZlibRef.compress (Py.encode "hello")) = inr (Py.encode "hello").
Proof. vm_compute. reflexivity. Qed.

Section BoxPayload.

Import Ledger BoxExchange BoxContents.

Lemma chunk_offsets_closed (n : nat) :
  chunk_offsets n
  = map (fun i => i * CHUNK_SIZE) (seq 0 ((n + (CHUNK_SIZE - 1)) / CHUNK_SIZE)).
Proof.
  unfold chunk_offsets. rewrite offsets_closed_form by lia.
  now rewrite Nat.sub_0_r.
Qed.

Lemma chunk_index_bound (n i : nat) :
  i < (n + (CHUNK_SIZE - 1)) / CHUNK_SIZE -> i * CHUNK_SIZE < n.
Proof.
  unfold CHUNK_SIZE. intros H.
  pose proof (Nat.Div0.mul_div_le (n + (2000 - 1)) 2000). lia.
Qed.

Lemma chunk_index_full (n i : nat) :
  S i < (n + (CHUNK_SIZE - 1)) / CHUNK_SIZE -> i * CHUNK_SIZE + CHUNK_SIZE <= n.
Proof.
  intros H. apply chunk_index_bound in H. unfold CHUNK_SIZE in *. lia.
Qed.

Lemma slice_length (data : bytes) (offset len : nat) :
  List.length (slice data offset len) = Nat.min len (List.length data - offset).
Proof. unfold slice. now rewrite length_firstn, length_skipn. Qed.

Lemma combine_seq_map {A} (f : nat -> A) (start len : nat) :
  combine (seq start len) (map f (seq start len))
  = map (fun i => (i, f i)) (seq start len).
Proof.
  revert start. induction len as [|len IH]; intros start; simpl; [reflexivity|].
  now rewrite IH.
Qed.

Lemma bytes_eqb_refl (a : bytes) : InflateRef.bytes_eqb a a = true.
Proof.
  unfold InflateRef.bytes_eqb. rewrite Nat.eqb_refl. simpl.
  induction a as [|x a IH]; simpl; [reflexivity|].
  rewrite IH, andb_true_r. destruct x; reflexivity.
Qed.

Lemma written_chunks_of_writes compress svc (app_id : Z) (sender : string)
    (box_name data : bytes) (acl_addrs : option (list string)) :
  written_chunks (write_box_txns compress svc app_id sender box_name data acl_addrs)
  = map (fun o => slice (compress data) o CHUNK_SIZE)
        (chunk_offsets (List.length (compress data))).
Proof.
  assert (Hw : forall o, chunk_of (write_txn app_id sender box_name (compress data) o)
                         = [slice (compress data) o CHUNK_SIZE]).
  { intros o. unfold write_txn, chunk_of. now rewrite bytes_eqb_refl. }
  unfold write_box_txns, written_chunks. cbn [flat_map pay_txn create_txn chunk_of].
  cbn [List.app].
  induction (chunk_offsets (List.length (compress data))) as [|o os IH];
    cbn [map flat_map]; [reflexivity|].
  rewrite Hw, IH. reflexivity.
Qed.

End BoxPayload.

(** X7.  The write calls of the group that [write_box] builds carry the
    compressed payload in order and without gaps: call [k] writes at
    offset [2000 * k], every chunk has between 1 and 2000 bytes, every
    chunk but the last has 2000, and the chunks joined are the
    compressed payload.  Every transaction of the group has the same
    sender. *)
Theorem write_calls_carry_payload
    (compress : bytes -> bytes) (svc : Ledger.Services)
    (app_id : Z) (sender : string) (box_name data : bytes)
    (acl_addrs : option (list string)) :
  let txns := BoxExchange.write_box_txns compress svc app_id sender box_name data
                acl_addrs in
  exists chunks,
    skipn 2 txns
    = map (fun kc => Ledger.ApplicationCallTxn sender app_id
                       [BoxExchange.b "write"; box_name;
                        BoxExchange.to_bytes8 (fst kc * BoxExchange.CHUNK_SIZE); snd kc]
                       [] [(app_id, box_name)])
          (combine (seq 0 (List.length chunks)) chunks)
    /\ List.concat chunks = compress data
    /\ BoxContents.written_chunks txns = chunks
    /\ Forall (fun c => 1 <= List.length c <= BoxExchange.CHUNK_SIZE) chunks
    /\ (forall k, S k < List.length chunks ->
                  List.length (nth k chunks []) = BoxExchange.CHUNK_SIZE)
    /\ Forall (fun t => Ledger.sender t = sender) txns.
Proof.
  cbv zeta.
  set (n := List.length (compress data)).
  set (m := (n + (BoxExchange.CHUNK_SIZE - 1)) / BoxExchange.CHUNK_SIZE).
  set (f := fun i => BoxExchange.slice (compress data) (i * BoxExchange.CHUNK_SIZE)
                       BoxExchange.CHUNK_SIZE).
  exists (map f (seq 0 m)).
  assert (Hoff : BoxExchange.chunk_offsets n
                 = map (fun i => i * BoxExchange.CHUNK_SIZE) (seq 0 m))
    by apply chunk_offsets_closed.
  split; [|split; [|split; [|split; [|split]]]].
  - unfold BoxExchange.write_box_txns. cbn [skipn]. fold n. rewrite Hoff.
    rewrite length_map, length_seq, combine_seq_map, !map_map. reflexivity.
  - etransitivity; [|apply write_box_chunks_cover]. fold n.
    rewrite Hoff, map_map. reflexivity.
  - rewrite written_chunks_of_writes. fold n. rewrite Hoff, map_map. reflexivity.
  - apply Forall_forall. intros c Hc. apply in_map_iff in Hc.
    destruct Hc as [i [<- Hi]]. apply in_seq in Hi. unfold f.
    rewrite slice_length. fold n.
    assert (Hb : i * BoxExchange.CHUNK_SIZE < n) by (apply chunk_index_bound; lia).
    unfold BoxExchange.CHUNK_SIZE in *. lia.
  - intros k Hk. rewrite length_map, length_seq in Hk.
    assert (Hd : (@nil byte) = f m).
    { unfold f, BoxExchange.slice. rewrite skipn_all2; [now rewrite firstn_nil|].
      fold n. unfold m, BoxExchange.CHUNK_SIZE.
      pose proof (Nat.div_mod_eq (n + (2000 - 1)) 2000).
      pose proof (Nat.mod_upper_bound (n + (2000 - 1)) 2000). lia. }
    rewrite Hd, map_nth, seq_nth by lia. cbn [Nat.add]. unfold f.
    rewrite slice_length. fold n.
    assert (Hb : k * BoxExchange.CHUNK_SIZE + BoxExchange.CHUNK_SIZE <= n)
      by (apply chunk_index_full; exact Hk).
    unfold BoxExchange.CHUNK_SIZE in *. lia.
  - unfold BoxExchange.write_box_txns. repeat constructor.
    apply Forall_forall. intros t Ht. apply in_map_iff in Ht.
    destruct Ht as [o [<- _]]. reflexivity.
Qed.

(** X8.  Reading back what was written: when the box holds a 160-byte
    prefix followed by the chunks of the write calls in order, and the
    decoders undo the encoders on these values, [read_box] returns the
    data that was given to [write_box]. *)
Theorem read_box_returns_written_data
    (compress : bytes -> bytes) (decompress : bytes -> exn + bytes)
    (b64decode : string -> exn + bytes) (svc : Ledger.Services)
    (app_id : Z) (sender : string) (box_name data : bytes)
    (acl_addrs : option (list string)) (prefix : bytes) (value : string) :
  List.length prefix = BoxExchange.PREFIX_SIZE ->
  Ledger.application_box_by_name svc app_id box_name = inr value ->
  b64decode value
  = inr (prefix ++ List.concat
                     (BoxContents.written_chunks
                        (BoxExchange.write_box_txns compress svc app_id sender
                           box_name data acl_addrs)))%list ->
  decompress (compress data) = inr data ->
  BoxExchange.read_box svc decompress b64decode app_id box_name = inr data.
Proof.
  intros Hlen Hbox Hdec Hinv. unfold BoxExchange.read_box.
  rewrite Hbox. cbn [Exc.bind]. rewrite Hdec. cbn [Exc.bind].
  rewrite written_chunks_of_writes, write_box_chunks_cover.
  rewrite skipn_app, <- Hlen, skipn_all, Nat.sub_diag. simpl. exact Hinv.
Qed.

Lemma read_box_returns_written_data_witness :
  let data := Py.encode "{}" in
  let prefix := repeat x00 160 in
  let value := (prefix ++ ZlibRef.compress data)%list in
  BoxExchange.read_box (BoxContents.box_svc value) InflateRef.decompress
    Base64Ref.b64decode 7 (BoxExchange.b "box") = inr data.
Proof.
  cbv zeta.
  apply (@read_box_returns_written_data ZlibRef.compress InflateRef.decompress
           Base64Ref.b64decode
           (BoxContents.box_svc
              (repeat x00 160 ++ ZlibRef.compress (Py.encode "{}"))%list)
           7 "SELLER" (BoxExchange.b "box") (Py.encode "{}") None (repeat x00 160)
           (Base64Ref.b64encode
              (repeat x00 160 ++ ZlibRef.compress (Py.encode "{}"))%list)).
  - reflexivity.
  - reflexivity.
  - vm_compute. reflexivity.
  - vm_compute. reflexivity.
Defined.

(** ** What the tools send to the signer *)

Section LedgerFacts.

Import Ledger.

(** The only signing call of [sign_send_confirm] is the one for the
    transaction it is given. *)
Lemma sign_send_confirm_signing (svc : Services) (txn : Txn) (auth : option string)
    (lsig_args : option (list (string * bytes))) (e : Effect) :
  In e (fst (sign_send_confirm svc txn auth lsig_args)) ->
  is_signing e = true ->
  e = SignTransaction txn auth lsig_args.
Proof.
  unfold sign_send_confirm.
  destruct (sign_transaction svc txn auth lsig_args) as [x|signed]; simpl.
  - intros [<-|[]] _. reflexivity.
  - destruct (send_raw_transaction svc signed) as [x|txid]; simpl.
    + intros [<-|[<-|[]]]; [reflexivity|discriminate].
    + destruct (wait_for_confirmation svc txid); simpl;
        intros [<-|[<-|[<-|[]]]]; try reflexivity; discriminate.
Qed.

End LedgerFacts.

(** X9.  [send_note] (both tool sets) hands to the signer nothing but
    a zero-amount payment from the session's own address to the peer's
    address, with a note of at most 1024 bytes and no close-to address.
    With another sender or receiver it answers an error and makes no
    call.  The session changes only when a transaction id is
    answered. *)
Theorem send_note_only_notifies_peer (svc : Ledger.Services) :
  (forall (s : AtomicSwap.SwapState) (sender receiver : string) (note : Py.JVal),
      let run := AtomicSwap.tool_send_note svc s sender receiver note in
      (forall e, In e (snd (fst run)) -> Ledger.is_signing e = true ->
                 e = Ledger.SignTransaction
                       (Ledger.PaymentTxn (AtomicSwap.my_address s)
                          (AtomicSwap.peer_address s) 0 (AtomicSwap.note_bytes note) None)
                       None None
                 /\ List.length (AtomicSwap.note_bytes note) <= 1024)
      /\ ((sender <> AtomicSwap.my_address s \/ receiver <> AtomicSwap.peer_address s) ->
          exists msg, run = (s, [], inr (Channel.ErrorReply msg)))
      /\ ((forall txid, snd run <> inr (Channel.OkReply txid)) -> fst (fst run) = s))
  /\ (forall (s : Htlc.SwapState) (sender receiver : string) (note : Py.JVal),
        let run := Htlc.tool_send_note svc s sender receiver note in
        (forall e, In e (snd (fst run)) -> Ledger.is_signing e = true ->
                   exists d,
                     note = Py.JObj d
                     /\ e = Ledger.SignTransaction
                              (Ledger.PaymentTxn (Htlc.my_address s) (Htlc.peer_address s)
                                 0 (Htlc.note_bytes d) None)
                              None None
                     /\ List.length (Htlc.note_bytes d) <= 1024)
        /\ ((sender <> Htlc.my_address s \/ receiver <> Htlc.peer_address s) ->
            exists msg, run = (s, [], inr (Channel.ErrorReply msg)))
        /\ ((forall txid, snd run <> inr (Channel.OkReply txid)) -> fst (fst run) = s)).
Proof.
  split.
  - intros s sender receiver note. cbv zeta. unfold AtomicSwap.tool_send_note.
    destruct (sender =? AtomicSwap.my_address s) eqn:Es; simpl negb; cbv iota.
    2: { split; [intros e []|split; [intros _; eexists; reflexivity|reflexivity]]. }
    apply String.eqb_eq in Es. subst sender.
    destruct (receiver =? AtomicSwap.peer_address s) eqn:Er; simpl negb; cbv iota.
    2: { split; [intros e []|split; [intros _; eexists; reflexivity|reflexivity]]. }
    apply String.eqb_eq in Er. subst receiver.
    destruct (Ledger.suggested_params svc) as [x|[]].
    { split; [intros e []|split; [intros [H|H]; now destruct H|reflexivity]]. }
    destruct (1024 <? List.length (AtomicSwap.note_bytes note))%nat eqn:El.
    { split; [intros e []|split; [intros [H|H]; now destruct H|reflexivity]]. }
    apply Nat.ltb_ge in El.
    destruct (Ledger.sign_send_confirm svc _ None None) as [effects [x|txid]] eqn:Hs;
      cbn [fst snd].
    + split; [|split; [intros [H|H]; now destruct H|reflexivity]].
      intros e He Hsig. split; [|exact El].
      eapply sign_send_confirm_signing; [rewrite Hs; eassumption|assumption].
    + split; [|split; [intros [H|H]; now destruct H|]].
      * intros e He Hsig. split; [|exact El].
        eapply sign_send_confirm_signing; [rewrite Hs; eassumption|assumption].
      * intros H. now destruct (H txid).
  - intros s sender receiver note. cbv zeta. unfold Htlc.tool_send_note.
    destruct (sender =? Htlc.my_address s) eqn:Es; simpl negb; cbv iota.
    2: { split; [intros e []|split; [intros _; eexists; reflexivity|reflexivity]]. }
    apply String.eqb_eq in Es. subst sender.
    destruct (receiver =? Htlc.peer_address s) eqn:Er; simpl negb; cbv iota.
    2: { split; [intros e []|split; [intros _; eexists; reflexivity|reflexivity]]. }
    apply String.eqb_eq in Er. subst receiver.
    destruct note as [| | | | |d];
      try (split; [intros e []|split; [intros [H|H]; now destruct H|reflexivity]]).
    destruct (Ledger.suggested_params svc) as [x|[]].
    { split; [intros e []|split; [intros [H|H]; now destruct H|reflexivity]]. }
    destruct (1024 <? List.length (Htlc.note_bytes d))%nat eqn:El.
    { split; [intros e []|split; [intros [H|H]; now destruct H|reflexivity]]. }
    apply Nat.ltb_ge in El.
    destruct (Ledger.sign_send_confirm svc _ None None) as [effects [x|txid]] eqn:Hs;
      cbn [fst snd].
    + split; [|split; [intros [H|H]; now destruct H|reflexivity]].
      intros e He Hsig. exists d. split; [reflexivity|]. split; [|exact El].
      eapply sign_send_confirm_signing; [rewrite Hs; eassumption|assumption].
    + split; [|split; [intros [H|H]; now destruct H|]].
      * intros e He Hsig. exists d. split; [reflexivity|]. split; [|exact El].
        eapply sign_send_confirm_signing; [rewrite Hs; eassumption|assumption].
      * intros H. now destruct (H txid).
Qed.

Lemma send_note_only_notifies_peer_witness :
  let note := Py.JObj [("type", Py.JStr "swap_propose")] in
  List.length (AtomicSwap.note_bytes note) <= 1024.
Proof.
  cbv zeta.
  refine (proj2 (proj1 (proj1 (send_note_only_notifies_peer Demo.svc) Demo.swap_buyer
                         "BUYER" "SELLER" (Py.JObj [("type", Py.JStr "swap_propose")]))
                  (Ledger.SignTransaction
                     (Ledger.PaymentTxn "BUYER" "SELLER" 0
                        (AtomicSwap.note_bytes (Py.JObj [("type", Py.JStr "swap_propose")]))
                        None) None None) _ _)).
  - vm_compute. left. reflexivity.
  - reflexivity.
Defined.

Section CanonicalizeFacts.

Import Py HtlcMore.

Lemma set_fresh (k : string) (v : JVal) (d : dict) :
  ~ In k (keys d) -> Py.set k v d = (d ++ [(k, v)])%list.
Proof.
  induction d as [|[k' v'] d IH]; intros Hk; simpl; [reflexivity|].
  destruct (k =? k') eqn:E.
  - apply String.eqb_eq in E. subst. exfalso. apply Hk. now left.
  - rewrite IH; [reflexivity|]. intros Hin. apply Hk. now right.
Qed.

Lemma canonicalize_fold_filter (l acc : dict) :
  NoDup (keys l) ->
  (forall k, In k (keys l) -> k <> "type" -> ~ In k (keys acc)) ->
  fold_left (fun canonical kv =>
               if negb (fst kv =? "type") then Py.set (fst kv) (snd kv) canonical
               else canonical) l acc
  = (acc ++ filter not_type l)%list.
Proof.
  revert acc. induction l as [|[k v] l IH]; intros acc Hnd Hfresh; cbn [fold_left].
  - simpl. now rewrite app_nil_r.
  - cbn [fst snd filter]. unfold not_type at 1. cbn [fst].
    inversion Hnd as [|k0 l0 Hk Hnd']; subst.
    destruct (k =? "type") eqn:E; cbn [negb].
    + apply IH; [exact Hnd'|]. intros k' Hin. apply Hfresh. now right.
    + apply String.eqb_neq in E.
      rewrite set_fresh by (apply Hfresh; [now left|exact E]).
      rewrite IH; [now rewrite <- app_assoc|exact Hnd'|].
      intros k' Hin Hne. unfold keys. rewrite map_app, in_app_iff. simpl.
      intros [H|[H|[]]].
      * revert H. apply Hfresh; [now right|exact Hne].
      * subst k'. now apply Hk.
Qed.

End CanonicalizeFacts.

(** X10.  The canonicalization of [send_note] (HTLC) only moves the
    ["type"] item to the front: for a dict (keys are distinct) that has
    a ["type"] key, the result is that item followed by the other items
    in their order, with their values; a dict without the key is left
    as it is. *)
Theorem canonicalize_moves_type_only (d : Py.dict) :
  NoDup (Py.keys d) ->
  Htlc.canonicalize d
  = match Py.get "type" d with
    | Some t => ("type", t) :: filter HtlcMore.not_type d
    | None => d
    end.
Proof.
  intros Hnd. unfold Htlc.canonicalize.
  destruct (Py.get "type" d) as [t|]; [|reflexivity].
  rewrite canonicalize_fold_filter; [reflexivity|exact Hnd|].
  intros k _ Hne [H|[]]. now apply Hne.
Qed.

Lemma canonicalize_moves_type_only_witness :
  Htlc.canonicalize [("asa_id", Py.JInt 0); ("type", Py.JStr "htlc_offer");
                     ("timeout_round", Py.JInt 1500)]
  = [("type", Py.JStr "htlc_offer"); ("asa_id", Py.JInt 0);
     ("timeout_round", Py.JInt 1500)].
Proof.
  apply (@canonicalize_moves_type_only
           [("asa_id", Py.JInt 0); ("type", Py.JStr "htlc_offer");
            ("timeout_round", Py.JInt 1500)]).
  repeat constructor; simpl; intuition discriminate.
Defined.

(** ** The legs that [verify_and_submit_swap] signs *)

Section LegFacts.

Import Py Ledger Channel AtomicSwap.

Variable int_of_str : string -> option Z.

(** What a transaction that passes the checks of one leg looks like. *)
Lemma check_leg_nil (label : string) (txn : Txn) (from to : string)
    (asa_id amount : JVal) :
  check_leg int_of_str label txn from to asa_id amount = inr [] ->
  exists id,
    Py.int int_of_str asa_id = inr id
    /\ ((id = 0%Z
         /\ exists amt note close,
              txn = PaymentTxn from to amt note close /\ int_eq amt amount = true)
        \/ (id <> 0%Z
            /\ exists amt index close,
                 txn = AssetTransferTxn from to amt index close
                 /\ int_eq index asa_id = true /\ int_eq amt amount = true)).
Proof.
  unfold check_leg, _is_algo.
  destruct (Ledger.sender txn =? from) eqn:Es; cbn [negb]; cbv iota.
  2: { destruct (Ledger.receiver txn); cbn [Exc.bind]; [discriminate|].
       destruct (Py.int int_of_str asa_id); cbn [Exc.bind]; discriminate. }
  apply String.eqb_eq in Es.
  destruct (Ledger.receiver txn) as [x|rcv] eqn:Hr; cbn [Exc.bind]; [discriminate|].
  destruct (rcv =? to) eqn:Er; cbn [negb]; cbv iota.
  2: { destruct (Py.int int_of_str asa_id); cbn [Exc.bind]; discriminate. }
  apply String.eqb_eq in Er. subst rcv.
  destruct (Py.int int_of_str asa_id) as [x|id]; cbn [Exc.bind]; [discriminate|].
  exists id. split; [reflexivity|].
  destruct (id =? 0)%Z eqn:Ei.
  - apply Z.eqb_eq in Ei. left. split; [exact Ei|].
    destruct txn as [sd rc amt note close|sd rc amt index close|sd index args accs boxes|sd];
      simpl in *; try discriminate.
    destruct (int_eq amt amount) eqn:Ea; simpl in H; [|discriminate].
    injection Hr as ->. subst sd. now exists amt, note, close.
  - apply Z.eqb_neq in Ei. right. split; [exact Ei|].
    destruct txn as [sd rc amt note close|sd rc amt index close|sd index args accs boxes|sd];
      simpl in *; try discriminate.
    destruct (int_eq index asa_id) eqn:Ex; simpl in H; [|discriminate].
    destruct (int_eq amt amount) eqn:Ea; simpl in H; [|discriminate].
    injection Hr as ->. subst sd. now exists amt, index, close.
Qed.

Lemma check_leg_with_note_close (label : string) (txn : Txn) (from to : string)
    (asa_id amount : JVal) (note : bytes) (close_to : option string) :
  check_leg int_of_str label (SwapMore.with_note_close note close_to txn) from to
    asa_id amount
  = check_leg int_of_str label txn from to asa_id amount.
Proof. destruct txn; reflexivity. Qed.

Lemma check_legs_with_note_close (txns : list Txn) (s : SwapState) (note : bytes)
    (close_to : option string) :
  check_legs int_of_str (map (SwapMore.with_note_close note close_to) txns) s
  = check_legs int_of_str txns s.
Proof.
  destruct txns as [|a [|b rest]]; cbn [map check_legs]; [reflexivity| |];
    rewrite !check_leg_with_note_close; reflexivity.
Qed.

Variable svc : Services.
Variable signed_entries : JVal -> exn + list string.
Variable b64decode : string -> exn + bytes.

(** The only signing call of [sign_and_submit]. *)
Lemma sign_and_submit_signing (txns : list Txn) (seller_signed : JVal) (s : SwapState)
    (e : Effect) :
  In e (snd (fst (sign_and_submit svc signed_entries b64decode txns seller_signed s))) ->
  is_signing e = true ->
  e = SignTransactionsList txns
        (Some (my_address s) :: repeat None (List.length txns - 1))%list.
Proof.
  unfold sign_and_submit.
  destruct (sign_transactions_list svc _ _) as [x|buyer_signed]; cbn [fst snd].
  { intros [<-|[]] _. reflexivity. }
  destruct (Exc.bind _ _) as [x|combined]; cbn [fst snd].
  { intros [<-|[]] _. reflexivity. }
  destruct (send_raw_transaction svc combined) as [x|txid]; cbn [fst snd].
  { intros [<-|[<-|[]]]; [reflexivity|discriminate]. }
  destruct (wait_for_confirmation svc txid); cbn [fst snd];
    intros [<-|[<-|[<-|[]]]]; try reflexivity; discriminate.
Qed.

Lemma sign_and_submit_signs (txns : list Txn) (seller_signed : JVal) (s : SwapState) :
  In (SignTransactionsList txns
        (Some (my_address s) :: repeat None (List.length txns - 1))%list)
     (snd (fst (sign_and_submit svc signed_entries b64decode txns seller_signed s))).
Proof.
  unfold sign_and_submit.
  destruct (sign_transactions_list svc _ _) as [x|buyer_signed]; cbn [fst snd];
    [now left|].
  destruct (Exc.bind _ _) as [x|combined]; cbn [fst snd]; [now left|].
  destruct (send_raw_transaction svc combined) as [x|txid]; cbn [fst snd]; [now left|].
  destruct (wait_for_confirmation svc txid); cbn [fst snd]; now left.
Qed.

End LegFacts.

(** X11.  Whatever the box holds, the group that
    [verify_and_submit_swap] hands to the signer has passed the checks:
    its first transaction moves the session's own asset and amount from
    the session's address to the peer's, its second moves the peer's
    asset and amount from the peer's address to the session's, and the
    signer is asked to sign the first one only. *)
Theorem verify_and_submit_signs_checked_legs
    (int_of_str : string -> option Z) (sha256 : bytes -> bytes) (svc : Ledger.Services)
    (loads : bytes -> exn + Py.JVal) (decode_planned : Py.JVal -> exn + list Ledger.Txn)
    (signed_entries : Py.JVal -> exn + list string)
    (read_box : Z -> bytes -> exn + bytes) (b64decode : string -> exn + bytes)
    (s : AtomicSwap.SwapState) (e : Ledger.Effect) :
  In e (snd (fst (AtomicSwap.tool_verify_and_submit_swap int_of_str sha256 svc loads
                    decode_planned signed_entries read_box b64decode s))) ->
  Ledger.is_signing e = true ->
  exists txn_a txn_b rest peer_id,
    e = Ledger.SignTransactionsList (txn_a :: txn_b :: rest)
          (Some (AtomicSwap.my_address s) :: None :: repeat None (List.length rest))
    /\ ((AtomicSwap.my_asa_id s = 0%Z
         /\ exists note close,
              txn_a = Ledger.PaymentTxn (AtomicSwap.my_address s)
                        (AtomicSwap.peer_address s) (AtomicSwap.my_asa_amount s)
                        note close)
        \/ (AtomicSwap.my_asa_id s <> 0%Z
            /\ exists close,
                 txn_a = Ledger.AssetTransferTxn (AtomicSwap.my_address s)
                           (AtomicSwap.peer_address s) (AtomicSwap.my_asa_amount s)
                           (AtomicSwap.my_asa_id s) close))
    /\ Py.int int_of_str (AtomicSwap.peer_asa_id s) = inr peer_id
    /\ ((peer_id = 0%Z
         /\ exists amt note close,
              txn_b = Ledger.PaymentTxn (AtomicSwap.peer_address s)
                        (AtomicSwap.my_address s) amt note close
              /\ AtomicSwap.int_eq amt (AtomicSwap.peer_asa_amount s) = true)
        \/ (peer_id <> 0%Z
            /\ exists amt index close,
                 txn_b = Ledger.AssetTransferTxn (AtomicSwap.peer_address s)
                           (AtomicSwap.my_address s) amt index close
                 /\ AtomicSwap.int_eq index (AtomicSwap.peer_asa_id s) = true
                 /\ AtomicSwap.int_eq amt (AtomicSwap.peer_asa_amount s) = true)).
Proof.
  unfold AtomicSwap.tool_verify_and_submit_swap.
  destruct (AtomicSwap.expected_proposal_hash int_of_str sha256 s) as [x|expected];
    [intros []|].
  destruct (AtomicSwap.read_exchange loads read_box expected s)
    as [x|[[planned seller_signed] file_hash]]; [intros []|].
  destruct (negb (Channel.is_str file_hash expected)); [intros []|].
  destruct (decode_planned planned) as [x|txns]; [intros []|].
  destruct (AtomicSwap.check_legs int_of_str txns s) as [x|[|err errs]] eqn:Hlegs;
    [intros []| |intros []].
  intros He Hsig.
  apply sign_and_submit_signing in He; [|exact Hsig]. cbn [AtomicSwap.my_address
    AtomicSwap.record] in He.
  revert Hlegs. unfold AtomicSwap.check_legs.
  destruct txns as [|txn_a rest]; [discriminate|].
  destruct (AtomicSwap.check_leg int_of_str "TxnA" txn_a _ _ _ _) as [x|ea] eqn:Ha;
    cbn [Exc.bind]; [discriminate|].
  destruct rest as [|txn_b rest].
  { intros H. injection H as H. now destruct ea. }
  destruct (AtomicSwap.check_leg int_of_str "TxnB" txn_b _ _ _ _) as [x|eb] eqn:Hb;
    cbn [Exc.bind]; [discriminate|].
  intros H. injection H as H. apply app_eq_nil in H. destruct H as [-> ->].
  apply check_leg_nil in Ha. apply check_leg_nil in Hb.
  destruct Ha as [ida [Hida Ha]]. destruct Hb as [idb [Hidb Hb]].
  simpl in Hida. injection Hida as <-.
  exists txn_a, txn_b, rest, idb.
  split; [|split; [|split; [exact Hidb|exact Hb]]].
  - rewrite He. simpl. rewrite ?Nat.sub_0_r. reflexivity.
  - destruct Ha as [[H0 [amt [note [close [-> Hamt]]]]]
                   |[Hn [amt [index [close [-> [Hidx Hamt]]]]]]].
    + left. split; [exact H0|]. simpl in Hamt. apply Z.eqb_eq in Hamt. subst amt.
      now exists note, close.
    + right. split; [exact Hn|]. simpl in Hidx, Hamt.
      apply Z.eqb_eq in Hidx, Hamt. subst. now exists close.
Qed.

Lemma verify_and_submit_signs_checked_legs_witness :
  exists txn_a txn_b rest,
    Ledger.SignTransactionsList Demo.planned [Some "BUYER"; None]
    = Ledger.SignTransactionsList (txn_a :: txn_b :: rest)
        (Some "BUYER" :: None :: repeat None (List.length rest)).
Proof.
  destruct (@verify_and_submit_signs_checked_legs Demo.int_of_str Sha256Ref.sha256
              Demo.buyer_svc (fun _ => inr (Demo.exchange "906befee3e8bdba4"))
              (fun _ => inr Demo.planned) Demo.signed_entries (fun _ _ => inr [])
              Base64Ref.b64decode Demo.swap_buyer
              (Ledger.SignTransactionsList Demo.planned [Some "BUYER"; None]))
    as [txn_a [txn_b [rest [peer_id [He _]]]]].
  - vm_compute. left. reflexivity.
  - reflexivity.
  - exists txn_a, txn_b, rest. exact He.
Defined.

(** X12.  The checks of [verify_and_submit_swap] look at the kind,
    sender, receiver, asset and amount of the two legs only: when a
    planned group is handed to the signer, the same group with any
    other note and close-to address on its transfers is handed to the
    signer as well. *)
Theorem verify_and_submit_ignores_note_and_close
    (int_of_str : string -> option Z) (sha256 : bytes -> bytes) (svc : Ledger.Services)
    (loads : bytes -> exn + Py.JVal) (decode_planned : Py.JVal -> exn + list Ledger.Txn)
    (signed_entries : Py.JVal -> exn + list string)
    (read_box : Z -> bytes -> exn + bytes) (b64decode : string -> exn + bytes)
    (s : AtomicSwap.SwapState) (note : bytes) (close_to : option string)
    (txns : list Ledger.Txn) (auth : list (option string)) :
  In (Ledger.SignTransactionsList txns auth)
     (snd (fst (AtomicSwap.tool_verify_and_submit_swap int_of_str sha256 svc loads
                  decode_planned signed_entries read_box b64decode s))) ->
  In (Ledger.SignTransactionsList (map (SwapMore.with_note_close note close_to) txns) auth)
     (snd (fst (AtomicSwap.tool_verify_and_submit_swap int_of_str sha256 svc loads
                  (fun planned =>
                     finalized <- decode_planned planned ;;
                     inr (map (SwapMore.with_note_close note close_to) finalized))
                  signed_entries read_box b64decode s))).
Proof.
  unfold AtomicSwap.tool_verify_and_submit_swap.
  destruct (AtomicSwap.expected_proposal_hash int_of_str sha256 s) as [x|expected];
    [intros []|].
  destruct (AtomicSwap.read_exchange loads read_box expected s)
    as [x|[[planned seller_signed] file_hash]]; [intros []|].
  destruct (negb (Channel.is_str file_hash expected)); [intros []|].
  destruct (decode_planned planned) as [x|finalized]; cbn [Exc.bind]; [intros []|].
  rewrite check_legs_with_note_close.
  destruct (AtomicSwap.check_legs int_of_str finalized s) as [x|[|err errs]];
    [intros []| |intros []].
  intros He.
  apply sign_and_submit_signing in He; [|reflexivity].
  injection He as -> ->.
  match goal with
  | |- In _ (snd (fst (AtomicSwap.sign_and_submit ?v ?se ?bd ?t ?ss ?st))) =>
      pose proof (sign_and_submit_signs v se bd t ss st) as Hs
  end.
  rewrite length_map in Hs. exact Hs.
Qed.

Lemma verify_and_submit_ignores_note_and_close_witness :
  In (Ledger.SignTransactionsList
        [Ledger.PaymentTxn "BUYER" "SELLER" 1000000 [] (Some "SELLER");
         Ledger.AssetTransferTxn "SELLER" "BUYER" 1000000 10458941 (Some "SELLER")]
        [Some "BUYER"; None])
     (snd (fst (AtomicSwap.tool_verify_and_submit_swap Demo.int_of_str Sha256Ref.sha256
                  Demo.buyer_svc (fun _ => inr (Demo.exchange "906befee3e8bdba4"))
                  (fun planned =>
                     finalized <- inr Demo.planned ;;
                     inr (map (SwapMore.with_note_close [] (Some "SELLER")) finalized))
                  Demo.signed_entries (fun _ _ => inr []) Base64Ref.b64decode
                  Demo.swap_buyer))).
Proof.
  apply (@verify_and_submit_ignores_note_and_close Demo.int_of_str Sha256Ref.sha256
           Demo.buyer_svc (fun _ => inr (Demo.exchange "906befee3e8bdba4"))
           (fun _ => inr Demo.planned) Demo.signed_entries (fun _ _ => inr [])
           Base64Ref.b64decode Demo.swap_buyer [] (Some "SELLER") Demo.planned
           [Some "BUYER"; None]).
  vm_compute. left. reflexivity.
Defined.

(** ** The other atomic-swap tools *)

Example build_and_sign_runs :
  snd DemoMore.build_and_sign
  = inr (Channel.OkReply {| SwapMore.b_group_size := 2;
                            SwapMore.b_proposal_hash := "906befee3e8bdba4";
                            SwapMore.b_box_name := "906befee3e8bdba4";
                            SwapMore.b_app_id := 7 |}).
Proof. vm_compute. reflexivity. Qed.

Section TransferFacts.

Import Py Channel AtomicSwap SwapMore.

Lemma first_incoming_spec (algo : bool) (seen : list string) (txns : list IndexerTxn)
    (incoming : Incoming) :
  first_incoming algo seen txns = Some incoming ->
  ~ In (i_txid incoming) seen
  /\ exists txn,
       In txn txns
       /\ tx_id txn = i_txid incoming
       /\ tx_sender txn = i_sender incoming
       /\ tx_confirmed_round txn = i_round incoming
       /\ (algo = true -> tx_amount txn <> 0%Z).
Proof.
  induction txns as [|txn rest IH]; simpl; [discriminate|].
  destruct (mem (tx_id txn) seen) eqn:Hm.
  { intros H. destruct (IH H) as [Hn [t [Hin Ht]]]. split; [exact Hn|].
    exists t. split; [now right|exact Ht]. }
  destruct (algo && (tx_amount txn =? 0)%Z)%bool eqn:Ha.
  { intros H. destruct (IH H) as [Hn [t [Hin Ht]]]. split; [exact Hn|].
    exists t. split; [now right|exact Ht]. }
  intros H. injection H as <-. cbn [i_txid i_sender i_round]. split.
  - now apply mem_false_not_In.
  - exists txn. split; [now left|]. repeat split.
    intros ->. simpl in Ha. now apply Z.eqb_neq.
Qed.

Lemma transfer_loop_spec (polls : list AsaIndexer) (seen : list string) (asa_id : Z)
    (s s' : SwapState) (incoming : Incoming) (n : Z) :
  transfer_loop polls seen asa_id s = (s', OkReply (incoming, n)) ->
  n = asa_id
  /\ ~ In (i_txid incoming) seen
  /\ s' = record ("Detected incoming ASA " ++ str_Z asa_id ++ " (txid: "
                  ++ i_txid incoming ++ ")") (take_transfer (i_txid incoming) s)
  /\ exists indexer txns txn,
       In indexer polls
       /\ indexer {| aq_address := my_address s;
                     aq_address_role := "receiver";
                     aq_tx_type := if (asa_id =? 0)%Z then "pay" else "axfer";
                     aq_asset_id := if (asa_id =? 0)%Z then None else Some asa_id;
                     aq_min_round := if (0 <? last_seen_round s)%Z
                                     then Some (last_seen_round s) else None |}
          = IndexerResponse 200 txns
       /\ In txn txns
       /\ tx_id txn = i_txid incoming
       /\ tx_sender txn = i_sender incoming
       /\ (asa_id = 0%Z -> tx_amount txn <> 0%Z).
Proof.
  induction polls as [|indexer later IH]; simpl; [discriminate|].
  destruct (_poll_incoming_asa indexer (my_address s) asa_id (last_seen_round s) seen)
    as [inc|] eqn:Hp.
  - intros H. injection H as <- <- <-.
    unfold _poll_incoming_asa in Hp.
    destruct (indexer _) as [|status txns] eqn:Hi; [discriminate|].
    destruct (status =? 200)%Z eqn:Hst; simpl in Hp; [|discriminate].
    apply Z.eqb_eq in Hst. subst status.
    destruct (first_incoming_spec _ _ _ Hp) as [Hn [txn [Hin [Hid [Hsd [_ Ham]]]]]].
    split; [reflexivity|]. split; [exact Hn|]. split; [reflexivity|].
    exists indexer, txns, txn. split; [now left|]. split; [exact Hi|].
    repeat split; try assumption.
    intros ->. now apply Ham.
  - intros H. destruct (IH H) as [Hn [Hs [Hs' [ix [txns [txn [Hin Hrest]]]]]]].
    split; [exact Hn|]. split; [exact Hs|]. split; [exact Hs'|].
    exists ix, txns, txn. split; [now right|exact Hrest].
Qed.

End TransferFacts.

(** X13.  A transfer that [wait_for_asa_transfer] reports is new and
    real: its transaction id was not among the session's seen ids and
    is appended to them, it is stored as the group id, and it is a
    transaction of a 200 answer to the receiver query for the session's
    own address and the asked asset; for ALGO its amount is not zero.
    The status and the round bound of the session are left as they
    were. *)
Theorem wait_for_asa_transfer_takes_new_transfer
    (int_of_str : string -> option Z) (polls : list SwapMore.AsaIndexer)
    (s s' : AtomicSwap.SwapState) (asa_id : Py.JVal) (incoming : SwapMore.Incoming)
    (n : Z) :
  SwapMore.tool_wait_for_asa_transfer int_of_str polls s asa_id
  = (s', inr (Channel.OkReply (incoming, n))) ->
  Py.int int_of_str asa_id = inr n
  /\ ~ In (SwapMore.i_txid incoming) (AtomicSwap.seen_txids s)
  /\ AtomicSwap.seen_txids s'
     = (AtomicSwap.seen_txids s ++ [SwapMore.i_txid incoming])%list
  /\ AtomicSwap.group_txid s' = SwapMore.i_txid incoming
  /\ AtomicSwap.status s' = AtomicSwap.status s
  /\ AtomicSwap.last_seen_round s' = AtomicSwap.last_seen_round s
  /\ exists indexer txns txn,
       In indexer polls
       /\ indexer {| SwapMore.aq_address := AtomicSwap.my_address s;
                     SwapMore.aq_address_role := "receiver";
                     SwapMore.aq_tx_type := if (n =? 0)%Z then "pay" else "axfer";
                     SwapMore.aq_asset_id := if (n =? 0)%Z then None else Some n;
                     SwapMore.aq_min_round :=
                       if (0 <? AtomicSwap.last_seen_round s)%Z
                       then Some (AtomicSwap.last_seen_round s) else None |}
          = Channel.IndexerResponse 200 txns
       /\ In txn txns
       /\ Channel.tx_id txn = SwapMore.i_txid incoming
       /\ Channel.tx_sender txn = SwapMore.i_sender incoming
       /\ (n = 0%Z -> Channel.tx_amount txn <> 0%Z).
Proof.
  unfold SwapMore.tool_wait_for_asa_transfer.
  destruct (Py.int int_of_str asa_id) as [x|m]; [discriminate|].
  destruct (SwapMore.transfer_loop polls (AtomicSwap.seen_txids s) m s) as [s1 r] eqn:Hl.
  intros H. injection H as <- ->.
  apply transfer_loop_spec in Hl.
  destruct Hl as [-> [Hn [-> Hex]]].
  split; [reflexivity|]. split; [exact Hn|].
  repeat (split; [reflexivity|]). exact Hex.
Qed.

Lemma wait_for_asa_transfer_takes_new_transfer_witness :
  ~ In "T1" (AtomicSwap.seen_txids DemoMore.swap_seller).
Proof.
  pose (polls := [DemoMore.asa_indexer [DemoMore.transfer "T0" 101 5 "BUYER";
                                        DemoMore.transfer "N1" 102 0 "BUYER";
                                        DemoMore.transfer "T1" 103 1000000 "BUYER"]]).
  pose (run := SwapMore.tool_wait_for_asa_transfer Demo.int_of_str polls
                 DemoMore.swap_seller (Py.JInt 0)).
  refine (proj1 (proj2 (@wait_for_asa_transfer_takes_new_transfer Demo.int_of_str polls
                          DemoMore.swap_seller (fst run) (Py.JInt 0)
                          {| SwapMore.i_txid := "T1"; SwapMore.i_round := 103;
                             SwapMore.i_sender := "BUYER" |} 0 _))).
  vm_compute. reflexivity.
Defined.

Section BuildFacts.

Import Py Ledger Channel AtomicSwap SwapMore.

Lemma int_eq_unique (a b : Z) (v : JVal) :
  int_eq a v = true -> int_eq b v = true -> a = b.
Proof.
  destruct v as [|[|]|z| | |]; simpl; try discriminate; intros Ha Hb;
    apply Z.eqb_eq in Ha, Hb; congruence.
Qed.

Variable int_of_str : string -> option Z.
Variable sha256 : bytes -> bytes.
Variable py_str : JVal -> string.
Variable suggested_params : exn + unit.
Variable plan_group :
  list Txn -> list (option string) -> option (list (Z * Z)) -> exn + list string.
Variable sign_list :
  list Txn -> list (option string) -> option (list (Z * Z)) -> exn + list string.
Variable load_swap_app_id : exn + Z.
Variable write_box : Z -> string -> bytes -> bytes -> list string -> exn + string.

(** The calls of the second half of the tool. *)
Lemma plan_sign_write_calls (s : SwapState) (buyer_addr seller_addr : string)
    (offer_asa offer_amount want_asa want_amount : JVal) (oa om wa wm : Z)
    (buyer_lsig_size : JVal) (c : Call) :
  In c (snd (fst (plan_sign_write int_of_str sha256 plan_group sign_list load_swap_app_id
                    write_box s buyer_addr seller_addr offer_asa offer_amount want_asa
                    want_amount oa om wa wm buyer_lsig_size))) ->
  let txns := [leg_txn buyer_addr seller_addr oa om; leg_txn seller_addr buyer_addr wa wm] in
  exists lsig_sizes,
    c = PlanGroup txns [None; Some seller_addr] lsig_sizes
    \/ c = SignList txns [None; Some seller_addr] lsig_sizes
    \/ exists app_id prop_hash planned signed,
         c = WriteBox app_id seller_addr (encode prop_hash)
               (encode (dumps false (exchange_data prop_hash planned signed)))
               [seller_addr; buyer_addr]
         /\ app_id <> 0%Z
         /\ _proposal_hash int_of_str sha256 buyer_addr seller_addr offer_asa
              offer_amount want_asa want_amount = inr prop_hash.
Proof.
  cbv zeta. unfold plan_sign_write.
  destruct (Py.int int_of_str buyer_lsig_size) as [x|size]; [intros []|].
  set (sizes := if (0 <? size)%Z then Some [(0%Z, size)] else None).
  destruct (plan_group _ _ sizes) as [x|planned]; cbn [fst snd].
  { intros [<-|[]]. exists sizes. now left. }
  destruct (sign_list _ _ sizes) as [x|signed]; cbn [fst snd].
  { intros [<-|[<-|[]]]; exists sizes; [now left|right; now left]. }
  destruct (_proposal_hash _ _ _ _ _ _ _ _) as [x|prop_hash] eqn:Hh; cbn [fst snd].
  { intros [<-|[<-|[]]]; exists sizes; [now left|right; now left]. }
  destruct (if (swap_app_id s =? 0)%Z then load_swap_app_id else inr (swap_app_id s))
    as [x|app_id]; cbn [fst snd].
  { intros [<-|[<-|[]]]; exists sizes; [now left|right; now left]. }
  destruct (app_id =? 0)%Z eqn:Ea; cbn [fst snd].
  { intros [<-|[<-|[]]]; exists sizes; [now left|right; now left]. }
  apply Z.eqb_neq in Ea.
  destruct (write_box _ _ _ _ _) as [x|txid]; cbn [fst snd];
    (intros [<-|[<-|[<-|[]]]]; exists sizes;
     [now left|right; now left|right; right;
      exists app_id, prop_hash, planned, signed; repeat split; assumption]).
Qed.

(** The checks a run that makes a call has passed. *)
Lemma build_and_sign_calls (s : SwapState) (buyer_addr seller_addr : string)
    (offer_asa offer_amount want_asa want_amount buyer_lsig_size : JVal) (c : Call) :
  In c (snd (fst (tool_build_and_sign_swap int_of_str sha256 py_str suggested_params
                    plan_group sign_list load_swap_app_id write_box s buyer_addr
                    seller_addr offer_asa offer_amount want_asa want_amount
                    buyer_lsig_size))) ->
  seller_addr = my_address s /\ buyer_addr = peer_address s
  /\ exists oa om,
       Py.int int_of_str offer_asa = inr oa
       /\ Py.int int_of_str offer_amount = inr om
       /\ Py.int int_of_str want_asa = inr (my_asa_id s)
       /\ Py.int int_of_str want_amount = inr (my_asa_amount s)
       /\ int_eq oa (peer_asa_id s) = true
       /\ int_eq om (peer_asa_amount s) = true
       /\ In c (snd (fst (plan_sign_write int_of_str sha256 plan_group sign_list
                            load_swap_app_id write_box s buyer_addr seller_addr offer_asa
                            offer_amount want_asa want_amount oa om (my_asa_id s)
                            (my_asa_amount s) buyer_lsig_size))).
Proof.
  unfold tool_build_and_sign_swap.
  destruct (seller_addr =? my_address s) eqn:Es; cbn [negb]; cbv iota; [|intros []].
  destruct (buyer_addr =? peer_address s) eqn:Eb; cbn [negb]; cbv iota; [|intros []].
  apply String.eqb_eq in Es, Eb.
  destruct (Py.int int_of_str offer_asa) as [x|oa]; [intros []|].
  destruct (int_eq oa (peer_asa_id s)) eqn:E1; cbn [negb]; cbv iota; [|intros []].
  destruct (Py.int int_of_str offer_amount) as [x|om]; [intros []|].
  destruct (int_eq om (peer_asa_amount s)) eqn:E2; cbn [negb]; cbv iota; [|intros []].
  destruct (Py.int int_of_str want_asa) as [x|wa]; [intros []|].
  destruct (wa =? my_asa_id s)%Z eqn:E3; cbn [negb]; cbv iota; [|intros []].
  destruct (Py.int int_of_str want_amount) as [x|wm]; [intros []|].
  destruct (wm =? my_asa_amount s)%Z eqn:E4; cbn [negb]; cbv iota; [|intros []].
  apply Z.eqb_eq in E3, E4. subst wa wm.
  destruct suggested_params; [intros []|].
  intros Hc. split; [exact Es|]. split; [exact Eb|].
  exists oa, om. repeat split; assumption.
Qed.

End BuildFacts.

(** X14.  Every call [build_and_sign_swap] makes is for the swap of
    the session: the group it plans and signs is the peer's transfer to
    the session's address followed by the session's transfer to the
    peer of the session's own asset and amount, the signer is asked to
    sign the second one only, as the session's address, and the box is
    written by the session's address with the two parties as its
    writers.  With other addresses or terms no call is made. *)
Theorem build_and_sign_offers_own_leg_only
    (int_of_str : string -> option Z) (sha256 : bytes -> bytes)
    (py_str : Py.JVal -> string) (suggested_params : exn + unit)
    (plan_group sign_list :
       list Ledger.Txn -> list (option string) -> option (list (Z * Z))
       -> exn + list string)
    (load_swap_app_id : exn + Z)
    (write_box : Z -> string -> bytes -> bytes -> list string -> exn + string)
    (s : AtomicSwap.SwapState) (buyer_addr seller_addr : string)
    (offer_asa offer_amount want_asa want_amount buyer_lsig_size : Py.JVal)
    (c : SwapMore.Call) :
  In c (snd (fst (SwapMore.tool_build_and_sign_swap int_of_str sha256 py_str
                    suggested_params plan_group sign_list load_swap_app_id write_box s
                    buyer_addr seller_addr offer_asa offer_amount want_asa want_amount
                    buyer_lsig_size))) ->
  seller_addr = AtomicSwap.my_address s
  /\ buyer_addr = AtomicSwap.peer_address s
  /\ exists oa om lsig_sizes,
       AtomicSwap.int_eq oa (AtomicSwap.peer_asa_id s) = true
       /\ AtomicSwap.int_eq om (AtomicSwap.peer_asa_amount s) = true
       /\ let txns :=
            [SwapMore.leg_txn (AtomicSwap.peer_address s) (AtomicSwap.my_address s) oa om;
             SwapMore.leg_txn (AtomicSwap.my_address s) (AtomicSwap.peer_address s)
               (AtomicSwap.my_asa_id s) (AtomicSwap.my_asa_amount s)] in
          c = SwapMore.PlanGroup txns [None; Some (AtomicSwap.my_address s)] lsig_sizes
          \/ c = SwapMore.SignList txns [None; Some (AtomicSwap.my_address s)] lsig_sizes
          \/ exists app_id box_name data,
               c = SwapMore.WriteBox app_id (AtomicSwap.my_address s) box_name data
                     [AtomicSwap.my_address s; AtomicSwap.peer_address s]
               /\ app_id <> 0%Z.
Proof.
  intros Hc. apply build_and_sign_calls in Hc.
  destruct Hc as [-> [-> [oa [om [_ [_ [_ [_ [E1 [E2 Hc]]]]]]]]]].
  split; [reflexivity|]. split; [reflexivity|].
  apply plan_sign_write_calls in Hc. cbv zeta in Hc.
  destruct Hc as [sizes [Hc|[Hc|[app_id [h [planned [signed [Hc [Ha _]]]]]]]]].
  - exists oa, om, sizes. repeat split; try assumption. now left.
  - exists oa, om, sizes. repeat split; try assumption. right. now left.
  - exists oa, om, sizes. repeat split; try assumption. right. right.
    eexists _, _, _. split; [exact Hc|exact Ha].
Qed.

Lemma build_and_sign_offers_own_leg_only_witness :
  "SELLER" = AtomicSwap.my_address DemoMore.swap_seller
  /\ "BUYER" = AtomicSwap.peer_address DemoMore.swap_seller.
Proof.
  destruct (@build_and_sign_offers_own_leg_only Demo.int_of_str Sha256Ref.sha256
              DemoMore.py_str (inr tt) DemoMore.plan_group DemoMore.sign_list (inr 0%Z)
              DemoMore.write_box DemoMore.swap_seller "BUYER" "SELLER"
              (Py.JInt 0) (Py.JInt 1000000) (Py.JInt 10458941) (Py.JInt 1000000)
              (Py.JInt 0)
              (SwapMore.SignList
                 [Ledger.PaymentTxn "BUYER" "SELLER" 1000000 [] None;
                  Ledger.AssetTransferTxn "SELLER" "BUYER" 1000000 10458941 None]
                 [None; Some "SELLER"] None)) as [H1 [H2 _]].
  - vm_compute. right. left. reflexivity.
  - split; [exact H1|exact H2].
Defined.

(** X15.  The seller and the buyer meet at the same box: when
    [build_and_sign_swap] writes a box, its name is the proposal hash
    that [verify_and_submit_swap] computes in a buyer's session that
    mirrors the seller's (addresses exchanged, the same two assets and
    amounts), and the document written carries this hash, so the
    buyer's read of that document returns the hash it expects. *)
Theorem seller_box_is_where_buyer_looks
    (int_of_str : string -> option Z) (sha256 : bytes -> bytes)
    (py_str : Py.JVal -> string) (suggested_params : exn + unit)
    (plan_group sign_list :
       list Ledger.Txn -> list (option string) -> option (list (Z * Z))
       -> exn + list string)
    (load_swap_app_id : exn + Z)
    (write_box : Z -> string -> bytes -> bytes -> list string -> exn + string)
    (s : AtomicSwap.SwapState) (buyer_addr seller_addr : string)
    (offer_asa offer_amount want_asa want_amount buyer_lsig_size : Py.JVal)
    (app_id : Z) (sender : string) (box_name data : bytes) (acl : list string)
    (b : AtomicSwap.SwapState) :
  In (SwapMore.WriteBox app_id sender box_name data acl)
     (snd (fst (SwapMore.tool_build_and_sign_swap int_of_str sha256 py_str
                  suggested_params plan_group sign_list load_swap_app_id write_box s
                  buyer_addr seller_addr offer_asa offer_amount want_asa want_amount
                  buyer_lsig_size))) ->
  AtomicSwap.my_address b = AtomicSwap.peer_address s ->
  AtomicSwap.peer_address b = AtomicSwap.my_address s ->
  AtomicSwap.int_eq (AtomicSwap.my_asa_id b) (AtomicSwap.peer_asa_id s) = true ->
  AtomicSwap.int_eq (AtomicSwap.my_asa_amount b) (AtomicSwap.peer_asa_amount s) = true ->
  Py.int int_of_str (AtomicSwap.peer_asa_id b) = inr (AtomicSwap.my_asa_id s) ->
  Py.int int_of_str (AtomicSwap.peer_asa_amount b) = inr (AtomicSwap.my_asa_amount s) ->
  exists h planned signed,
    AtomicSwap.expected_proposal_hash int_of_str sha256 b = inr h
    /\ box_name = Py.encode h
    /\ data = Py.encode (Py.dumps false (SwapMore.exchange_data h planned signed))
    /\ forall loads read_box,
         read_box (AtomicSwap.swap_app_id b) box_name = inr data ->
         loads data = inr (SwapMore.exchange_data h planned signed) ->
         AtomicSwap.read_exchange loads read_box h b
         = inr (Py.JList (map Py.JStr planned), Py.JList (map Py.JStr signed), Py.JStr h).
Proof.
  intros Hc Hmy Hpeer Hid Ham Hpid Hpam.
  apply build_and_sign_calls in Hc.
  destruct Hc as [-> [-> [oa [om [Hoa [Hom [Hwa [Hwm [E1 [E2 Hc]]]]]]]]]].
  apply plan_sign_write_calls in Hc. cbv zeta in Hc.
  destruct Hc as [sizes [Hc|[Hc|[app [h [planned [signed [Hc [_ Hh]]]]]]]]];
    try discriminate.
  injection Hc as -> _ -> -> _.
  assert (Hoa' : oa = AtomicSwap.my_asa_id b) by (eapply int_eq_unique; eassumption).
  assert (Hom' : om = AtomicSwap.my_asa_amount b) by (eapply int_eq_unique; eassumption).
  subst oa om.
  assert (Hexp : AtomicSwap.expected_proposal_hash int_of_str sha256 b = inr h).
  { unfold AtomicSwap.expected_proposal_hash, AtomicSwap._proposal_hash in *.
    rewrite Hoa, Hom, Hwa, Hwm in Hh. rewrite Hpid, Hpam, Hmy, Hpeer.
    cbn [Py.int Exc.bind] in *. exact Hh. }
  exists h, planned, signed. split; [exact Hexp|]. split; [reflexivity|].
  split; [reflexivity|].
  intros loads read_box Hread Hloads. unfold AtomicSwap.read_exchange.
  rewrite Hread. cbn [Exc.bind]. rewrite Hloads. reflexivity.
Qed.

Lemma seller_box_is_where_buyer_looks_witness :
  exists h planned signed,
    AtomicSwap.expected_proposal_hash Demo.int_of_str Sha256Ref.sha256 Demo.swap_buyer
    = inr h
    /\ Py.encode "906befee3e8bdba4" = Py.encode h
    /\ Py.encode (Py.dumps false
                    (SwapMore.exchange_data "906befee3e8bdba4" ["5458a1"; "5458a1"]
                       [""; "Qg=="]))
       = Py.encode (Py.dumps false (SwapMore.exchange_data h planned signed)).
Proof.
  destruct (@seller_box_is_where_buyer_looks Demo.int_of_str Sha256Ref.sha256
              DemoMore.py_str (inr tt) DemoMore.plan_group DemoMore.sign_list (inr 0%Z)
              DemoMore.write_box DemoMore.swap_seller "BUYER" "SELLER"
              (Py.JInt 0) (Py.JInt 1000000) (Py.JInt 10458941) (Py.JInt 1000000)
              (Py.JInt 0) 7 "SELLER" (Py.encode "906befee3e8bdba4")
              (Py.encode (Py.dumps false
                            (SwapMore.exchange_data "906befee3e8bdba4"
                               ["5458a1"; "5458a1"] [""; "Qg=="])))
              ["SELLER"; "BUYER"] Demo.swap_buyer)
    as [h [planned [signed [H1 [H2 [H3 _]]]]]];
    try reflexivity.
  - vm_compute. right. right. left. reflexivity.
  - exists h, planned, signed. repeat split; assumption.
Defined.

(** X16.  [complete_swap] always ends with status [complete] and the
    answer [complete], whether the box is deleted, the deletion fails
    or there is no box; the last entry of the action log says so.  The
    only transaction it may hand to the signer is the call that deletes
    the session's own box, sent from the session's address, and only
    when the session has an app id and a box name. *)
Theorem complete_swap_always_completes
    (str_exn : exn -> string) (svc : Ledger.Services) (s : AtomicSwap.SwapState) :
  let run := SwapMore.tool_complete_swap str_exn svc s in
  snd run = "complete"
  /\ AtomicSwap.status (fst (fst run)) = "complete"
  /\ (exists log, AtomicSwap.actions (fst (fst run))
                  = (AtomicSwap.actions s ++ log ++ ["Swap marked complete"])%list)
  /\ AtomicSwap.swap_app_id (fst (fst run)) = AtomicSwap.swap_app_id s
  /\ AtomicSwap.group_txid (fst (fst run)) = AtomicSwap.group_txid s
  /\ AtomicSwap.seen_txids (fst (fst run)) = AtomicSwap.seen_txids s
  /\ (forall e, In e (snd (fst run)) -> Ledger.is_signing e = true ->
        AtomicSwap.swap_app_id s <> 0%Z
        /\ AtomicSwap.swap_box_name s <> ""
        /\ e = Ledger.SignTransaction
                 (BoxExchange.delete_txn (AtomicSwap.swap_app_id s)
                    (AtomicSwap.my_address s) (Py.encode (AtomicSwap.swap_box_name s)))
                 None None).
Proof.
  cbv zeta. unfold SwapMore.tool_complete_swap.
  destruct (AtomicSwap.swap_app_id s =? 0)%Z eqn:Ea; cbn [negb andb].
  { split; [reflexivity|split; [reflexivity|split; [exists []; reflexivity|]]].
    repeat (split; [reflexivity|]). intros e []. }
  destruct (AtomicSwap.swap_box_name s =? "") eqn:Eb; cbn [negb].
  { split; [reflexivity|split; [reflexivity|split; [exists []; reflexivity|]]].
    repeat (split; [reflexivity|]). intros e []. }
  apply Z.eqb_neq in Ea. apply String.eqb_neq in Eb.
  assert (Hsig : forall e,
             In e (fst (BoxExchange.delete_box svc (AtomicSwap.swap_app_id s)
                          (AtomicSwap.my_address s)
                          (Py.encode (AtomicSwap.swap_box_name s)))) ->
             Ledger.is_signing e = true ->
             e = Ledger.SignTransaction
                   (BoxExchange.delete_txn (AtomicSwap.swap_app_id s)
                      (AtomicSwap.my_address s) (Py.encode (AtomicSwap.swap_box_name s)))
                   None None).
  { intros e. unfold BoxExchange.delete_box.
    destruct (Ledger.suggested_params svc); [intros []|].
    apply sign_send_confirm_signing. }
  destruct (BoxExchange.delete_box svc _ _ _) as [effects [x|txid]]; cbn [fst snd] in *.
  - split; [reflexivity|]. split; [reflexivity|].
    split; [eexists [_]; simpl; now rewrite <- app_assoc|].
    repeat (split; [reflexivity|]).
    intros e He Hs. split; [exact Ea|split; [exact Eb|now apply Hsig]].
  - split; [reflexivity|]. split; [reflexivity|].
    split; [eexists [_]; simpl; now rewrite <- app_assoc|].
    repeat (split; [reflexivity|]).
    intros e He Hs. split; [exact Ea|split; [exact Eb|now apply Hsig]].
Qed.

Lemma complete_swap_always_completes_witness :
  AtomicSwap.swap_app_id (AtomicSwap.with_status "submitted"
                            (SwapMore.with_swap_box 7 "906befee3e8bdba4"
                               DemoMore.swap_seller)) <> 0%Z.
Proof.
  pose (s := AtomicSwap.with_status "submitted"
               (SwapMore.with_swap_box 7 "906befee3e8bdba4" DemoMore.swap_seller)).
  refine (proj1 (proj2 (proj2 (proj2 (proj2 (proj2 (proj2
            (complete_swap_always_completes DemoMore.str_exn Demo.svc s))))))
            (Ledger.SignTransaction
               (BoxExchange.delete_txn 7 "SELLER" (Py.encode "906befee3e8bdba4"))
               None None) _ _)).
  - vm_compute. left. reflexivity.
  - reflexivity.
Defined.

(** ** The other HTLC tools *)

Section HexFacts.

Lemma hexchars_of_byte_length (data : bytes) :
  String.length (HexRef.hex data) = 2 * List.length data.
Proof.
  induction data as [|x data IH]; simpl; [reflexivity|].
  rewrite IH. lia.
Qed.

End HexFacts.

(** X17.  The funding tools pay the session's own lock and nothing
    else: what [fund_hashlock] hands to the signer is a payment from
    the session's address to the session's lock of at least the
    required amount, and what [fund_hashlock_asa] hands to it is the
    transfer of the session's own amount to the session's lock, as the
    session's asset or, when the asset id given is 0, as a payment.
    Neither sets a close-to address, and neither calls the signer
    before a lock exists. *)
Theorem htlc_funding_goes_to_own_lock
    (int_of_str : string -> option Z) (py_str : Py.JVal -> string)
    (svc : Ledger.Services) (s : Htlc.SwapState) :
  (forall from_address hashlock_address amount_microalgos e,
      In e (snd (fst (HtlcMore.tool_fund_hashlock int_of_str py_str svc s from_address
                        hashlock_address amount_microalgos))) ->
      Ledger.is_signing e = true ->
      Htlc.my_hashlock s <> ""
      /\ exists amount,
           Py.int int_of_str amount_microalgos = inr amount
           /\ (Htlc.fund_algo_amount s <= amount)%Z
           /\ e = Ledger.SignTransaction
                    (Ledger.PaymentTxn (Htlc.my_address s) (Htlc.my_hashlock s) amount
                       [] None) None None)
  /\ (forall from_address hashlock_address asa_id asa_amount e,
        In e (snd (fst (HtlcMore.tool_fund_hashlock_asa int_of_str py_str svc s
                          from_address hashlock_address asa_id asa_amount))) ->
        Ledger.is_signing e = true ->
        Htlc.my_hashlock s <> ""
        /\ (e = Ledger.SignTransaction
                  (Ledger.PaymentTxn (Htlc.my_address s) (Htlc.my_hashlock s)
                     (Htlc.my_asa_amount s) [] None) None None
            \/ e = Ledger.SignTransaction
                     (Ledger.AssetTransferTxn (Htlc.my_address s) (Htlc.my_hashlock s)
                        (Htlc.my_asa_amount s) (Htlc.my_asa_id s) None) None None)).
Proof.
  split.
  - intros from_address hashlock_address amount_microalgos e.
    unfold HtlcMore.tool_fund_hashlock.
    destruct (from_address =? Htlc.my_address s) eqn:Ef; cbn [negb]; cbv iota;
      [|intros []].
    destruct (Htlc.my_hashlock s =? "") eqn:El; [intros []|].
    destruct (hashlock_address =? Htlc.my_hashlock s) eqn:Eh; cbn [negb]; cbv iota;
      [|intros []].
    apply String.eqb_eq in Ef, Eh. apply String.eqb_neq in El. subst.
    destruct (Py.int int_of_str amount_microalgos) as [x|amount]; [intros []|].
    destruct (amount <? Htlc.fund_algo_amount s)%Z eqn:Ea; [intros []|].
    apply Z.ltb_ge in Ea.
    destruct (Ledger.suggested_params svc); [intros []|].
    destruct (Ledger.sign_send_confirm svc _ None None) as [effects [x|txid]] eqn:Hs;
      cbn [fst snd]; intros He Hsig;
      (split; [exact El|]; exists amount; split; [reflexivity|]; split; [exact Ea|];
       eapply sign_send_confirm_signing; [rewrite Hs; eassumption|assumption]).
  - intros from_address hashlock_address asa_id asa_amount e.
    unfold HtlcMore.tool_fund_hashlock_asa.
    destruct (from_address =? Htlc.my_address s) eqn:Ef; cbn [negb]; cbv iota;
      [|intros []].
    destruct (Htlc.my_hashlock s =? "") eqn:El; [intros []|].
    destruct (hashlock_address =? Htlc.my_hashlock s) eqn:Eh; cbn [negb]; cbv iota;
      [|intros []].
    apply String.eqb_eq in Ef, Eh. apply String.eqb_neq in El. subst.
    destruct (Py.int int_of_str asa_id) as [x|asa]; [intros []|].
    destruct (negb (asa =? 0)%Z && negb (asa =? Htlc.my_asa_id s)%Z)%bool eqn:Ea;
      [intros []|].
    destruct (Py.int int_of_str asa_amount) as [x|amount]; [intros []|].
    destruct (amount =? Htlc.my_asa_amount s)%Z eqn:Em; cbn [negb]; cbv iota;
      [|intros []].
    apply Z.eqb_eq in Em. subst amount.
    destruct (Ledger.suggested_params svc); [intros []|].
    destruct (asa =? 0)%Z eqn:E0.
    + destruct (Ledger.sign_send_confirm svc _ None None) as [effects [x|txid]] eqn:Hs;
        cbn [fst snd]; intros He Hsig;
        (split; [exact El|]; left;
         eapply sign_send_confirm_signing; [rewrite Hs; eassumption|assumption]).
    + simpl in Ea. apply Bool.negb_false_iff, Z.eqb_eq in Ea. subst asa.
      destruct (Ledger.sign_send_confirm svc _ None None) as [effects [x|txid]] eqn:Hs;
        cbn [fst snd]; intros He Hsig;
        (split; [exact El|]; right;
         eapply sign_send_confirm_signing; [rewrite Hs; eassumption|assumption]).
Qed.

Lemma htlc_funding_goes_to_own_lock_witness :
  Htlc.my_hashlock Demo.htlc_buyer <> ""
  /\ exists amount,
       Py.int Demo.int_of_str (Py.JStr "300000") = inr amount
       /\ (Htlc.fund_algo_amount Demo.htlc_buyer <= amount)%Z
       /\ Ledger.SignTransaction
            (Ledger.PaymentTxn "BUYER" "BUYERLOCK" 300000 [] None) None None
          = Ledger.SignTransaction
              (Ledger.PaymentTxn (Htlc.my_address Demo.htlc_buyer)
                 (Htlc.my_hashlock Demo.htlc_buyer) amount [] None) None None.
Proof.
  apply (proj1 (htlc_funding_goes_to_own_lock Demo.int_of_str DemoMore.py_str Demo.svc
                  Demo.htlc_buyer) "BUYER" "BUYERLOCK" (Py.JStr "300000")).
  - vm_compute. left. reflexivity.
  - reflexivity.
Defined.

(** X18.  [optin_asa] needs no lock for ALGO: it answers [not_needed]
    and makes no call.  For another asset, what it hands to the signer
    is the zero-amount transfer of the session's own asset from the
    session's lock to itself, signed as the lock. *)
Theorem htlc_optin_acts_on_own_lock
    (int_of_str : string -> option Z) (py_str : Py.JVal -> string)
    (svc : Ledger.Services) (s : Htlc.SwapState) (hashlock_address : string)
    (asa_id : Py.JVal) :
  let run := HtlcMore.tool_optin_asa int_of_str py_str svc s hashlock_address asa_id in
  (Py.int int_of_str asa_id = inr 0%Z ->
   snd (fst run) = [] /\ snd run = inr (Channel.OkReply HtlcMore.NotNeeded))
  /\ (forall e, In e (snd (fst run)) -> Ledger.is_signing e = true ->
        Htlc.my_hashlock s <> ""
        /\ Htlc.my_asa_id s <> 0%Z
        /\ Py.int int_of_str asa_id = inr (Htlc.my_asa_id s)
        /\ e = Ledger.SignTransaction
                 (Ledger.AssetTransferTxn (Htlc.my_hashlock s) (Htlc.my_hashlock s) 0
                    (Htlc.my_asa_id s) None)
                 (Some (Htlc.my_hashlock s)) None).
Proof.
  cbv zeta. unfold HtlcMore.tool_optin_asa. split.
  - intros ->. simpl. now split.
  - destruct (Py.int int_of_str asa_id) as [x|asa]; [intros e []|].
    destruct (asa =? 0)%Z eqn:E0; [intros e []|].
    destruct (Htlc.my_hashlock s =? "") eqn:El; [intros e []|].
    destruct (hashlock_address =? Htlc.my_hashlock s) eqn:Eh; cbn [negb]; cbv iota;
      [|intros e []].
    destruct (asa =? Htlc.my_asa_id s)%Z eqn:Ea; cbn [negb]; cbv iota; [|intros e []].
    apply Z.eqb_neq in E0. apply String.eqb_neq in El. apply String.eqb_eq in Eh.
    apply Z.eqb_eq in Ea. subst.
    destruct (Ledger.suggested_params svc) as [x|[]]; [intros e []|].
    destruct (Ledger.sign_send_confirm svc _ _ None) as [effects [x|txid]] eqn:Hs;
      cbn [fst snd]; intros e He Hsig;
      (split; [exact El|]; split; [exact E0|]; split; [reflexivity|];
       eapply sign_send_confirm_signing; [rewrite Hs; eassumption|assumption]).
Qed.

Lemma htlc_optin_acts_on_own_lock_witness :
  snd (fst (HtlcMore.tool_optin_asa Demo.int_of_str DemoMore.py_str Demo.svc
              Demo.htlc_buyer "BUYERLOCK" (Py.JStr "0"))) = []
  /\ snd (HtlcMore.tool_optin_asa Demo.int_of_str DemoMore.py_str Demo.svc
            Demo.htlc_buyer "BUYERLOCK" (Py.JStr "0"))
     = inr (Channel.OkReply HtlcMore.NotNeeded).
Proof.
  apply (proj1 (htlc_optin_acts_on_own_lock Demo.int_of_str DemoMore.py_str Demo.svc
                  Demo.htlc_buyer "BUYERLOCK" (Py.JStr "0"))).
  reflexivity.
Defined.

(** X19.  [claim_hashlock] is [claim_hashlock_asa] for asset 0: the
    same checks, the same call to the signer, the same change of the
    session and the same answer. *)
Theorem claim_hashlock_is_claim_of_asset_zero
    (int_of_str : string -> option Z) (sha256 : bytes -> bytes)
    (fromhex : string -> option bytes) (svc : Ledger.Services) (s : Htlc.SwapState)
    (hashlock_address recipient : string) (preimage_hex : Py.JVal) :
  HtlcMore.tool_claim_hashlock sha256 fromhex svc s hashlock_address recipient preimage_hex
  = Htlc.tool_claim_hashlock_asa int_of_str sha256 fromhex svc s hashlock_address
      recipient preimage_hex (Py.JInt 0).
Proof.
  unfold HtlcMore.tool_claim_hashlock, Htlc.tool_claim_hashlock_asa.
  destruct (Htlc.peer_hashlock s =? ""); [reflexivity|].
  destruct (negb (hashlock_address =? Htlc.peer_hashlock s)); [reflexivity|].
  destruct (negb (recipient =? Htlc.my_address s)); [reflexivity|].
  cbn [Py.int]. change (0 =? 0)%Z with true. cbn [negb andb].
  destruct preimage_hex; reflexivity.
Qed.

(** X20.  The secret of [generate_preimage] opens the peer's lock: in
    a session that holds the hash the tool stored, [claim_hashlock_asa]
    with the hex string the tool returned passes the check against the
    hash and hands to the signer the claim that carries the 32 random
    bytes. *)
Theorem generated_preimage_opens_peer_lock
    (int_of_str : string -> option Z) (sha256 : bytes -> bytes)
    (fromhex : string -> option bytes) (svc : Ledger.Services)
    (random : bytes) (s0 s : Htlc.SwapState) (asa_id : Py.JVal) (asa : Z) :
  List.length random = 32 ->
  fromhex (HexRef.hex random) = Some random ->
  Htlc.hash s = Htlc.hash (fst (HtlcMore.tool_generate_preimage sha256 random s0)) ->
  Htlc.peer_hashlock s <> "" ->
  Py.int int_of_str asa_id = inr asa ->
  asa = 0%Z \/ asa = Htlc.peer_asa_id s ->
  Ledger.suggested_params svc = inr tt ->
  let secret := fst (snd (HtlcMore.tool_generate_preimage sha256 random s0)) in
  Htlc.preimage (fst (HtlcMore.tool_generate_preimage sha256 random s0)) = secret
  /\ Htlc.hash (fst (HtlcMore.tool_generate_preimage sha256 random s0))
     = Htlc.hexdigest sha256 random
  /\ In (Ledger.SignTransaction
           (Htlc.claim_txn (Htlc.peer_hashlock s) (Htlc.my_address s) (asa =? 0)%Z asa)
           (Some (Htlc.peer_hashlock s)) (Some [("preimage", random)]))
        (snd (fst (Htlc.tool_claim_hashlock_asa int_of_str sha256 fromhex svc s
                     (Htlc.peer_hashlock s) (Htlc.my_address s) (Py.JStr secret)
                     asa_id))).
Proof.
  intros Hlen Hhex Hhash Hlock Hint Hasa Hsp. cbv zeta.
  split; [reflexivity|]. split; [reflexivity|].
  unfold Htlc.tool_claim_hashlock_asa.
  apply String.eqb_neq in Hlock. rewrite Hlock, !String.eqb_refl. cbn [negb].
  rewrite Hint.
  assert (Ha : (negb (asa =? 0)%Z && negb (asa =? Htlc.peer_asa_id s)%Z)%bool = false).
  { destruct Hasa as [->| ->]; [reflexivity|].
    rewrite Z.eqb_refl. apply andb_false_r. }
  rewrite Ha. cbn [HtlcMore.tool_generate_preimage fst snd].
  change (Htlc.preimage _) with (HexRef.hex random).
  rewrite hexchars_of_byte_length, Hlen. cbn [Nat.mul Nat.add Nat.eqb negb].
  rewrite Hhex.
  assert (Hh : (Htlc.hexdigest sha256 random =? Htlc.hash s) = true).
  { rewrite Hhash. apply String.eqb_eq. reflexivity. }
  rewrite Hh. cbn [negb]. rewrite andb_false_r, Hsp.
  unfold Ledger.sign_send_confirm.
  destruct (Ledger.sign_transaction svc _ _ _) as [x|signed]; cbn [fst snd]; [now left|].
  destruct (Ledger.send_raw_transaction svc signed) as [x|txid]; cbn [fst snd];
    [now left|].
  destruct (Ledger.wait_for_confirmation svc txid); cbn [fst snd]; now left.
Qed.

Lemma generated_preimage_opens_peer_lock_witness :
  let s := Htlc.with_peer_lock "SELLERLOCK" 1200 10458941 1000000 Demo.htlc_buyer in
  In (Ledger.SignTransaction
        (Ledger.AssetTransferTxn "SELLERLOCK" "BUYER" 0 10458941 (Some "BUYER"))
        (Some "SELLERLOCK") (Some [("preimage", repeat x00 32)]))
     (snd (fst (Htlc.tool_claim_hashlock_asa Demo.int_of_str Sha256Ref.sha256
                  HexRef.fromhex_opt Demo.svc s "SELLERLOCK" "BUYER"
                  (Py.JStr (HexRef.hex (repeat x00 32))) (Py.JInt 10458941)))).
Proof.
  cbv zeta.
  apply (@generated_preimage_opens_peer_lock Demo.int_of_str Sha256Ref.sha256
           HexRef.fromhex_opt Demo.svc (repeat x00 32) Demo.htlc_buyer
           (Htlc.with_peer_lock "SELLERLOCK" 1200 10458941 1000000 Demo.htlc_buyer)
           (Py.JInt 10458941) 10458941).
  - reflexivity.
  - vm_compute. reflexivity.
  - vm_compute. reflexivity.
  - discriminate.
  - reflexivity.
  - right. reflexivity.
  - reflexivity.
Defined.

Section HtlcNoteFacts.

Import Py Channel Htlc HtlcMore.

Variable int_of_str : string -> option Z.
Variable loads_note : string -> option JVal.
Variable fromhex : string -> option bytes.
Variable is_valid_address : string -> bool.

Lemma valid_address_str (v : JVal) :
  _is_valid_address is_valid_address v = true ->
  exists a, v = JStr a /\ is_valid_address a = true.
Proof.
  destruct v as [| | |a| |]; simpl; try discriminate.
  intros H. apply andb_true_iff in H. exists a. now split.
Qed.

Lemma handle_offer_inv (note : dict) (s s' : SwapState) :
  handle_offer int_of_str fromhex is_valid_address note s = inr (inl s') ->
  own_side s' = own_side s
  /\ status s' = "offer_received"
  /\ String.length (hash s') = 64
  /\ fromhex (hash s') <> None
  /\ is_valid_address (peer_hashlock s') = true
  /\ (0 < peer_timeout s')%Z.
Proof.
  unfold handle_offer.
  destruct (note_numbers int_of_str note) as [x|[[t a] b]]; cbn [Exc.bind];
    [discriminate|].
  destruct (get_default "hash" note (JStr "")) as [| | |h| |] eqn:Hh;
    cbn [Py.len Exc.bind raise]; try discriminate.
  all: try (destruct (negb (Nat.eqb _ 64)); [discriminate|];
            cbn [hex_ok Exc.bind raise]; discriminate).
  destruct (Nat.eqb (String.length h) 64) eqn:E64; cbn [negb]; [|discriminate].
  cbn [hex_ok].
  destruct (fromhex h) as [raw|] eqn:Hraw; cbn [Exc.bind negb]; [|discriminate].
  destruct (_is_valid_address is_valid_address (get_default "hashlock_addr" note (JStr "")))
    eqn:Hv; cbn [negb]; [|discriminate].
  destruct (t <=? 0)%Z eqn:Et; [discriminate|].
  destruct (a =? peer_asa_id s)%Z eqn:Ea; cbn [negb]; [|discriminate].
  destruct (b =? peer_asa_amount s)%Z eqn:Eb; cbn [negb]; [|discriminate].
  intros H. injection H as <-.
  apply valid_address_str in Hv. destruct Hv as [addr [-> Hok]].
  apply Z.eqb_eq in Ea, Eb. subst a b. apply Nat.eqb_eq in E64. apply Z.leb_gt in Et.
  cbn. repeat split; try assumption. now rewrite Hraw.
Qed.

Lemma handle_accept_inv (note : dict) (s s' : SwapState) :
  handle_accept int_of_str is_valid_address note s = inr (inl s') ->
  own_side s' = own_side s
  /\ status s' = "accept_received"
  /\ hash s' = hash s
  /\ is_valid_address (peer_hashlock s') = true
  /\ (0 < peer_timeout s')%Z
  /\ (my_timeout s = 0%Z \/ (peer_timeout s' < my_timeout s)%Z).
Proof.
  unfold handle_accept.
  destruct (note_numbers int_of_str note) as [x|[[t a] b]]; cbn [Exc.bind];
    [discriminate|].
  destruct (_is_valid_address is_valid_address (get_default "hashlock_addr" note (JStr "")))
    eqn:Hv; cbn [negb]; [|discriminate].
  destruct (t <=? 0)%Z eqn:Et; [discriminate|].
  destruct (negb (my_timeout s =? 0)%Z && (my_timeout s <=? t)%Z)%bool eqn:Eo;
    [discriminate|].
  destruct (a =? peer_asa_id s)%Z eqn:Ea; cbn [negb]; [|discriminate].
  destruct (b =? peer_asa_amount s)%Z eqn:Eb; cbn [negb]; [|discriminate].
  intros H. injection H as <-.
  apply valid_address_str in Hv. destruct Hv as [addr [-> Hok]].
  apply Z.eqb_eq in Ea, Eb. subst a b. apply Z.leb_gt in Et.
  cbn. repeat split; try assumption.
  apply andb_false_iff in Eo. destruct Eo as [Eo|Eo].
  - left. now apply negb_false_iff, Z.eqb_eq in Eo.
  - right. now apply Z.leb_gt in Eo.
Qed.

Lemma htlc_receive_inv (msg : Message) (s s' : SwapState) (step : Step) :
  receive int_of_str fromhex is_valid_address msg s = (s', step) ->
  own_side s' = own_side s
  /\ match step with
     | Continue => peer_side s' = peer_side s
     | Stop r => after_message fromhex is_valid_address s s' r
     end.
Proof.
  unfold receive.
  destruct (negb (m_sender msg =? peer_address s)).
  { intros H. injection H as <- <-. now split. }
  destruct (is_str (get_default "type" (m_note msg) (JStr "")) "htlc_offer") eqn:Eo.
  - apply is_str_true in Eo.
    destruct (handle_offer _ _ _ _ _) as [x|[s2|err]] eqn:Hh;
      intros H; injection H as <- <-; try (now split).
    apply handle_offer_inv in Hh.
    destruct Hh as [Hown [Hst [Hlen [Hhex [Hval Ht]]]]].
    split; [exact Hown|]. cbn [after_message r_type].
    split; [exact Ht|]. split; [exact Hval|]. left. now rewrite Eo.
  - destruct (is_str (get_default "type" (m_note msg) (JStr "")) "htlc_accept") eqn:Ea.
    + apply is_str_true in Ea.
      destruct (handle_accept _ _ _ _) as [x|[s2|err]] eqn:Hh;
        intros H; injection H as <- <-; try (now split).
      apply handle_accept_inv in Hh.
      destruct Hh as [Hown [Hst [Hhash [Hval [Ht Hord]]]]].
      split; [exact Hown|]. cbn [after_message r_type].
      split; [exact Ht|]. split; [exact Hval|]. right. now rewrite Ea.
    + intros H. injection H as <- <-. now split.
Qed.

End HtlcNoteFacts.

(** X21.  [wait_for_message] (HTLC) changes the peer side of the
    session only: the role, both addresses, the secret, the session's
    own lock and timeout, both assets and amounts, the funding amount
    and the claim id are as before, whatever the notes say.  After a
    note that is returned, the peer's timeout is positive and the
    peer's lock is a valid address; an offer has set a hash of 64 valid
    hex characters, an accept leaves the hash and has a timeout below
    the session's own when that is set.  After an error, an exception
    or the timeout, status, hash and the peer's lock and timeout are as
    before too. *)
Theorem htlc_wait_changes_peer_side_only
    (int_of_str : string -> option Z) (loads_note : string -> option Py.JVal)
    (fromhex : string -> option bytes) (is_valid_address : string -> bool)
    (polls : list Channel.Indexer) (s : Htlc.SwapState) :
  let run := Htlc.tool_wait_for_message int_of_str loads_note fromhex is_valid_address
               polls s in
  HtlcMore.own_side (fst run) = HtlcMore.own_side s
  /\ HtlcMore.after_message fromhex is_valid_address s (fst run) (snd run).
Proof.
  cbv zeta. unfold Htlc.tool_wait_for_message.
  generalize (Htlc.seen_txids s) as seen. revert s.
  induction polls as [|indexer later IH]; intros s seen; simpl.
  - now split.
  - destruct (Channel._poll_messages _ _ _ _ _ _) as [|msg rest]; [apply IH|].
    destruct (Htlc.receive _ _ _ msg s) as [s1 [|r]] eqn:R;
      apply htlc_receive_inv in R; destruct R as [Hown Hstep].
    + destruct (IH s1 (seen ++ [Channel.m_txid msg])%list) as [Hown' Hafter].
      split; [now rewrite Hown'|].
      assert (Hhash : Htlc.hash s1 = Htlc.hash s) by (injection Hstep; auto).
      assert (Hmy : Htlc.my_timeout s1 = Htlc.my_timeout s) by (injection Hown; auto).
      revert Hafter. unfold HtlcMore.after_message.
      destruct (snd (Htlc.wait_loop _ _ _ _ later _ s1)) as [x|[m|received]].
      * intros ->. exact Hstep.
      * intros ->. exact Hstep.
      * now rewrite Hhash, Hmy.
    + now split.
Qed.

Example htlc_wait_accepts_offer :
  let offer := Py.JObj [("type", Py.JStr "htlc_offer");
                        ("hash", Py.JStr (Htlc.hash Demo.htlc_seller));
                        ("hashlock_addr", Py.JStr "BUYERLOCK");
                        ("timeout_round", Py.JInt 1500);
                        ("asa_id", Py.JInt 0); ("asa_amount", Py.JInt 1000000)] in
  let run := Htlc.tool_wait_for_message Demo.int_of_str (Demo.loads_note [offer])
               HexRef.fromhex_opt (fun _ => true)
               [Demo.indexer [Demo.note_txn "T1" 101 "BUYER" offer]]
               (Htlc.with_status "pending" Demo.htlc_seller) in
  Htlc.status (fst run) = "offer_received"
  /\ HtlcMore.own_side (fst run) = HtlcMore.own_side Demo.htlc_seller.
Proof. vm_compute. split; reflexivity. Qed.

(** X22.  The key [create_hashlock] asks the signer for always pays
    the peer and refunds the session: the only call is the generation
    of a [hashlock-v1] key whose recipient is the peer's address, whose
    refund address is the session's, whose hash is the given string of
    64 valid hex characters and whose timeout is the given positive
    round; when a key is answered, it becomes the session's lock, with
    this timeout and hash. *)
Theorem create_hashlock_key_parameters
    (int_of_str : string -> option Z) (fromhex : string -> option bytes)
    (svc : Ledger.Services) (s : Htlc.SwapState) (hash_hex : Py.JVal)
    (recipient refund_address : string) (timeout_round : Py.JVal) (e : Ledger.Effect) :
  let run := Htlc.tool_create_hashlock int_of_str fromhex svc s hash_hex recipient
               refund_address timeout_round in
  In e (snd (fst run)) ->
  exists h t,
    hash_hex = Py.JStr h
    /\ Py.int int_of_str timeout_round = inr t
    /\ String.length h = 64
    /\ fromhex h <> None
    /\ (0 < t)%Z
    /\ recipient = Htlc.peer_address s
    /\ refund_address = Htlc.my_address s
    /\ e = Ledger.GenerateKey "hashlock-v1"
             [("hash", h); ("recipient", Htlc.peer_address s);
              ("refund_address", Htlc.my_address s); ("timeout_round", str_Z t)]
    /\ snd (fst run) = [e]
    /\ forall address, snd run = inr (Channel.OkReply address) ->
         Htlc.my_hashlock (fst (fst run)) = address
         /\ Htlc.my_timeout (fst (fst run)) = t
         /\ Htlc.hash (fst (fst run)) = h
         /\ Htlc.peer_address (fst (fst run)) = Htlc.peer_address s
         /\ Htlc.my_address (fst (fst run)) = Htlc.my_address s.
Proof.
  cbv zeta. unfold Htlc.tool_create_hashlock.
  destruct (recipient =? Htlc.peer_address s) eqn:Er; cbn [negb]; cbv iota; [|intros []].
  destruct (refund_address =? Htlc.my_address s) eqn:Ef; cbn [negb]; cbv iota;
    [|intros []].
  apply String.eqb_eq in Er, Ef. subst recipient refund_address.
  destruct hash_hex as [| | |h| |]; try (intros []).
  destruct (Nat.eqb (String.length h) 64) eqn:E64; cbn [negb]; cbv iota; [|intros []].
  apply Nat.eqb_eq in E64. cbn [Htlc.hex_ok].
  destruct (fromhex h) as [raw|] eqn:Hraw; [|intros []].
  destruct (Py.int int_of_str timeout_round) as [x|t]; [intros []|].
  destruct (t <=? 0)%Z eqn:Et; [intros []|].
  apply Z.leb_gt in Et.
  destruct ((Htlc.role s =? "seller") && negb (Htlc.peer_timeout s =? 0)%Z
            && (Htlc.peer_timeout s <=? t)%Z)%bool; [intros []|].
  assert (Hsome : fromhex h <> None) by congruence.
  destruct (Ledger.generate_key svc _ _) as [x|address]; cbn [fst snd];
    intros [<-|[]]; exists h, t;
    (split; [reflexivity|]; split; [reflexivity|]; split; [exact E64|];
     split; [exact Hsome|]; split; [exact Et|]; split; [reflexivity|];
     split; [reflexivity|]; split; [reflexivity|]; split; [reflexivity|]).
  - intros address H. discriminate H.
  - intros address' H. injection H as <-. repeat split.
Qed.

Lemma create_hashlock_key_parameters_witness :
  exists h t,
    Py.JStr (Htlc.hash Demo.htlc_buyer) = Py.JStr h
    /\ Py.int Demo.int_of_str (Py.JInt 1500) = inr t
    /\ (0 < t)%Z.
Proof.
  destruct (@create_hashlock_key_parameters Demo.int_of_str HexRef.fromhex_opt Demo.svc
              Demo.htlc_buyer (Py.JStr (Htlc.hash Demo.htlc_buyer)) "SELLER" "BUYER"
              (Py.JInt 1500)
              (Ledger.GenerateKey "hashlock-v1"
                 [("hash", Htlc.hash Demo.htlc_buyer); ("recipient", "SELLER");
                  ("refund_address", "BUYER"); ("timeout_round", "1500")]))
    as [h [t [H1 [H2 [_ [_ [H3 _]]]]]]].
  - vm_compute. left. reflexivity.
  - exists h, t. repeat split; assumption.
Defined.

(** X23.  Signing one transaction is signing a group of one: whenever
    [sign_transactions] returns a string for the one-element group,
    with the same auth address and the logic-signature arguments filed
    under it, [sign_transaction] returns the same string. *)
Theorem sign_transaction_is_group_of_one
    (Transaction : Type) (encode_transaction : Transaction -> string * string)
    (sender_of : Transaction -> string)
    (b64decode b64decode_validate : string -> exn + bytes) (b64encode : bytes -> string)
    (hex : bytes -> string) (fromhex : string -> exn + bytes)
    (post_sign : list Signer.SignRequestEntry -> Signer.HttpReply)
    (txn : Transaction) (auth_address : option string)
    (lsig_args : option (list (string * bytes))) (out : string) :
  let address := match auth_address with Some a => a | None => sender_of txn end in
  Signer.sign_transactions encode_transaction sender_of b64decode b64decode_validate
    b64encode hex fromhex post_sign [Some txn] (Some [Some address])
    (match lsig_args with
     | Some ((_ :: _) as args) => Some [(address, args)]
     | _ => None
     end) None None = inr out ->
  SignerSlots.sign_transaction encode_transaction sender_of b64decode b64decode_validate
    b64encode hex fromhex post_sign txn auth_address lsig_args = inr out.
Proof.
  cbv zeta. unfold Signer.sign_transactions, SignerSlots.sign_transaction.
  cbn [List.length Nat.eqb negb].
  destruct (Signer._sign_request _ _ _ _ _ _ _ _ _ _ _) as [x|signed_list];
    cbn [Exc.bind]; [discriminate|].
  destruct (existsb _ signed_list); [discriminate|].
  intros H. exact H.
Qed.

Lemma sign_transaction_is_group_of_one_witness :
  SignerSlots.sign_transaction ClientRun.encode_transaction ClientRun.sender_of
    Base64Ref.b64decode Base64Ref.b64decode Base64Ref.b64encode HexRef.hex HexRef.fromhex
    (fun _ => ClientRun.reply_ok ["41"]) "A" None None = inr "QQ==".
Proof.
  apply (@sign_transaction_is_group_of_one string ClientRun.encode_transaction
           ClientRun.sender_of Base64Ref.b64decode Base64Ref.b64decode
           Base64Ref.b64encode HexRef.hex HexRef.fromhex
           (fun _ => ClientRun.reply_ok ["41"]) "A" None None "QQ==").
  vm_compute. reflexivity.
Defined.

(** ** The group that is submitted, and the messages a poll returns *)

Section TwoSigners.

Import Signer.

Variable b64decode : string -> exn + bytes.
Variable b64encode : bytes -> string.

Lemma assemble_two_lists (a b : list string) (combined : string) :
  assemble_group b64decode b64encode [a; b] = inr combined ->
  List.length b = List.length a
  /\ forall i, i < List.length a ->
       (nth i a "" <> "" /\ nth i b "" = "") \/ (nth i a "" = "" /\ nth i b "" <> "").
Proof.
  unfold assemble_group. cbn [check_lengths].
  rewrite Nat.eqb_refl.
  destruct (Nat.eqb (List.length b) (List.length a)) eqn:El; cbn [Exc.bind raise];
    [|discriminate].
  apply Nat.eqb_eq in El.
  destruct (merge_slots [a; b] (List.length a)) as [x|merged] eqn:Hm; cbn [Exc.bind];
    [discriminate|].
  intros _. split; [exact El|].
  intros i Hi. destruct (merged_entries _ _ Hm) as [_ Hnth].
  specialize (Hnth i Hi). unfold entries_at in Hnth. cbn [map filter] in Hnth.
  unfold truthy in Hnth.
  destruct (nth i a "" =? "") eqn:Ea; destruct (nth i b "" =? "") eqn:Eb;
    cbn [negb] in Hnth; try discriminate.
  - right. apply String.eqb_eq in Ea. apply String.eqb_neq in Eb. now split.
  - left. apply String.eqb_neq in Ea. apply String.eqb_eq in Eb. now split.
Qed.

End TwoSigners.

(** X24.  The group [verify_and_submit_swap] submits is complete and
    unambiguous: what it sends to the ledger node is the assembly of
    the seller's list from the box and of the list the session's signer
    returned for the verified group, the two lists have the same
    length, and every slot is signed in exactly one of them. *)
Theorem verify_and_submit_sends_complete_group
    (int_of_str : string -> option Z) (sha256 : bytes -> bytes) (svc : Ledger.Services)
    (loads : bytes -> exn + Py.JVal) (decode_planned : Py.JVal -> exn + list Ledger.Txn)
    (signed_entries : Py.JVal -> exn + list string)
    (read_box : Z -> bytes -> exn + bytes) (b64decode : string -> exn + bytes)
    (s : AtomicSwap.SwapState) (combined : string) :
  In (Ledger.SendRawTransaction combined)
     (snd (fst (AtomicSwap.tool_verify_and_submit_swap int_of_str sha256 svc loads
                  decode_planned signed_entries read_box b64decode s))) ->
  exists txns auth seller_signed buyer_signed,
    In (Ledger.SignTransactionsList txns auth)
       (snd (fst (AtomicSwap.tool_verify_and_submit_swap int_of_str sha256 svc loads
                    decode_planned signed_entries read_box b64decode s)))
    /\ Ledger.sign_transactions_list svc txns auth = inr buyer_signed
    /\ Signer.assemble_group b64decode Base64Ref.b64encode [seller_signed; buyer_signed]
       = inr combined
    /\ List.length buyer_signed = List.length seller_signed
    /\ forall i, i < List.length seller_signed ->
         (nth i seller_signed "" <> "" /\ nth i buyer_signed "" = "")
         \/ (nth i seller_signed "" = "" /\ nth i buyer_signed "" <> "").
Proof.
  unfold AtomicSwap.tool_verify_and_submit_swap.
  destruct (AtomicSwap.expected_proposal_hash int_of_str sha256 s) as [x|expected];
    [intros []|].
  destruct (AtomicSwap.read_exchange loads read_box expected s)
    as [x|[[planned seller_json] file_hash]]; [intros []|].
  destruct (negb (Channel.is_str file_hash expected)); [intros []|].
  destruct (decode_planned planned) as [x|txns]; [intros []|].
  destruct (AtomicSwap.check_legs int_of_str txns s) as [x|[|err errs]];
    [intros []| |intros []].
  unfold AtomicSwap.sign_and_submit.
  set (auth := (Some _ :: repeat None _)%list).
  destruct (Ledger.sign_transactions_list svc txns auth) as [x|buyer_signed] eqn:Hb;
    cbn [fst snd].
  { intros [H|[]]. discriminate H. }
  destruct (signed_entries seller_json) as [x|seller_signed]; cbn [Exc.bind fst snd].
  { intros [H|[]]. discriminate H. }
  destruct (Signer.assemble_group b64decode Base64Ref.b64encode
              [seller_signed; buyer_signed]) as [x|out] eqn:Ha; cbn [fst snd].
  { intros [H|[]]. discriminate H. }
  assert (Hres : In (Ledger.SendRawTransaction combined)
                    [Ledger.SignTransactionsList txns auth;
                     Ledger.SendRawTransaction out] \/
                 In (Ledger.SendRawTransaction combined)
                    [Ledger.SignTransactionsList txns auth;
                     Ledger.SendRawTransaction out; Ledger.WaitForConfirmation "x"] ->
                 combined = out).
  { intros [[H|[H|[]]]|[H|[H|[H|[]]]]]; try discriminate; now injection H. }
  destruct (@assemble_two_lists _ _ _ _ _ Ha) as [Hlen Hslots].
  destruct (Ledger.send_raw_transaction svc out) as [x|txid]; cbn [fst snd].
  - intros Hin. assert (combined = out) by (apply Hres; now left). subst out.
    exists txns, auth, seller_signed, buyer_signed.
    split; [now left|]. repeat split; assumption.
  - destruct (Ledger.wait_for_confirmation svc txid); cbn [fst snd]; intros Hin;
      (assert (combined = out)
         by (destruct Hin as [H|[H|[H|[]]]]; try discriminate; now injection H);
       subst out; exists txns, auth, seller_signed, buyer_signed;
       split; [now left|]; repeat split; assumption).
Qed.

Lemma verify_and_submit_sends_complete_group_witness :
  exists txns auth seller_signed buyer_signed,
    Ledger.sign_transactions_list Demo.buyer_svc txns auth = inr buyer_signed
    /\ Signer.assemble_group Base64Ref.b64decode Base64Ref.b64encode
         [seller_signed; buyer_signed] = inr "QUI="
    /\ List.length buyer_signed = List.length seller_signed.
Proof.
  destruct (@verify_and_submit_sends_complete_group Demo.int_of_str Sha256Ref.sha256
              Demo.buyer_svc (fun _ => inr (Demo.exchange "906befee3e8bdba4"))
              (fun _ => inr Demo.planned) Demo.signed_entries (fun _ _ => inr [])
              Base64Ref.b64decode Demo.swap_buyer "QUI=")
    as [txns [auth [seller [buyer [_ [H1 [H2 [H3 _]]]]]]]].
  - vm_compute. right. left. reflexivity.
  - exists txns, auth, seller, buyer. repeat split; assumption.
Defined.

(** X25.  Every message a poll returns (both tool sets) comes from the
    indexer's answer: the indexer answered 200 to the query for
    payments received by the given address whose note starts with the
    family's prefix (with the round bound only when it is positive),
    and the message is one of the answer's transactions, with its id,
    round and sender, whose note decodes to the message's dict, which
    has a string ["type"] that starts with the family name. *)
Theorem poll_messages_come_from_indexer
    (loads_note : string -> option Py.JVal) (family : string) (indexer : Channel.Indexer)
    (address : string) (last_round : Z) (seen_txids : list string) (m : Channel.Message) :
  In m (Channel._poll_messages loads_note family indexer address last_round seen_txids) ->
  exists txns txn t,
    indexer {| Channel.q_address := address;
               Channel.q_address_role := "receiver";
               Channel.q_tx_type := Some "pay";
               Channel.q_note_prefix := Some (Channel.note_prefix family);
               Channel.q_min_round := if (0 <? last_round)%Z then Some last_round
                                      else None |}
    = Channel.IndexerResponse 200 txns
    /\ In txn txns
    /\ Channel.tx_id txn = Channel.m_txid m
    /\ Channel.tx_confirmed_round txn = Channel.m_round m
    /\ Channel.tx_sender txn = Channel.m_sender m
    /\ Channel.tx_note txn <> ""
    /\ loads_note (Channel.tx_note txn) = Some (Py.JObj (Channel.m_note m))
    /\ Py.get_default "type" (Channel.m_note m) (Py.JStr "") = Py.JStr t
    /\ String.prefix family t = true.
Proof.
  unfold Channel._poll_messages.
  destruct (indexer _) as [|status txns] eqn:Hi; [intros []|].
  destruct (status =? 200)%Z eqn:Hs; cbn [negb]; [|intros []].
  apply Z.eqb_eq in Hs. subst status.
  intros Hin.
  assert (Hc : exists txn,
             In txn txns
             /\ Channel.message_of loads_note family seen_txids txn = Some m).
  { clear Hi. induction txns as [|txn txns IH]; simpl in Hin; [destruct Hin|].
    destruct (Channel.message_of loads_note family seen_txids txn) as [m'|] eqn:E.
    - destruct Hin as [<-|Hin].
      + exists txn. split; [now left|exact E].
      + destruct (IH Hin) as [t [Ht Hm]]. exists t. split; [now right|exact Hm].
    - destruct (IH Hin) as [t [Ht Hm]]. exists t. split; [now right|exact Hm]. }
  destruct Hc as [txn [Htxn Hm]].
  unfold Channel.message_of in Hm.
  destruct (Channel.mem (Channel.tx_id txn) seen_txids); [discriminate|].
  destruct (Channel.tx_note txn =? "") eqn:En; [discriminate|].
  destruct (loads_note (Channel.tx_note txn)) as [[| | | | |note]|] eqn:Hl;
    try discriminate.
  destruct (Py.get_default "type" note (Py.JStr "")) as [| | |t| |] eqn:Ht;
    try discriminate.
  destruct (String.prefix family t) eqn:Hp; [|discriminate].
  injection Hm as <-. cbn [Channel.m_txid Channel.m_round Channel.m_sender Channel.m_note].
  exists txns, txn, t. apply String.eqb_neq in En.
  repeat split; assumption.
Qed.

Lemma poll_messages_come_from_indexer_witness :
  let offer := Py.JObj [("type", Py.JStr "htlc_offer")] in
  exists txns txn t,
    In txn txns
    /\ Channel.tx_id txn = "T1"
    /\ String.prefix "htlc_" t = true.
Proof.
  cbv zeta.
  destruct (@poll_messages_come_from_indexer
              (Demo.loads_note [Py.JObj [("type", Py.JStr "htlc_offer")]]) "htlc_"
              (Demo.indexer [Demo.note_txn "T1" 101 "BUYER"
                               (Py.JObj [("type", Py.JStr "htlc_offer")])])
              "SELLER" 100 []
              {| Channel.m_txid := "T1"; Channel.m_round := 101;
                 Channel.m_note := [("type", Py.JStr "htlc_offer")];
                 Channel.m_sender := "BUYER" |})
    as [txns [txn [t [_ [H1 [H2 [_ [_ [_ [_ [_ H3]]]]]]]]]]].
  - vm_compute. left. reflexivity.
  - exists txns, txn, t. repeat split; assumption.
Defined.

Section SwapNoteFacts.

Import Py Channel AtomicSwap SwapMore.

Variable int_of_str : string -> option Z.
Variable loads_note : string -> option JVal.

Lemma take_app_id_own (note : dict) (s s' : SwapState) :
  take_app_id int_of_str note s = inr s' ->
  own_side s' = own_side s /\ status s' = status s
  /\ peer_asa_id s' = peer_asa_id s /\ peer_asa_amount s' = peer_asa_amount s.
Proof.
  unfold take_app_id.
  destruct (get "app_id" note) as [v|]; [|intros H; injection H as <-; now repeat split].
  destruct (truthy v); [|intros H; injection H as <-; now repeat split].
  destruct (Py.int int_of_str v) as [x|n]; cbn [Exc.bind]; [discriminate|].
  intros H; injection H as <-. now repeat split.
Qed.

Lemma swap_receive_own (msg : Message) (s : SwapState) :
  let run := receive int_of_str msg s in
  own_side (fst run) = own_side s
  /\ forall r, snd run = inr (OkReply r) ->
       r_sender r = m_sender msg
       /\ r_note r = m_note msg
       /\ (r_type r = JStr "swap_propose" ->
           status (fst run) = "propose_received"
           /\ peer_asa_id (fst run) = get_default "offer_asa" (m_note msg) (peer_asa_id s)
           /\ peer_asa_amount (fst run)
              = get_default "offer_amount" (m_note msg) (peer_asa_amount s))
       /\ (r_type r <> JStr "swap_propose" ->
           peer_asa_id (fst run) = peer_asa_id s
           /\ peer_asa_amount (fst run) = peer_asa_amount s).
Proof.
  cbv zeta. unfold receive, update_from_note.
  set (t := get_default "type" (m_note msg) (JStr "")).
  destruct (is_str t "swap_propose") eqn:Ep.
  - apply is_str_true in Ep.
    destruct (take_app_id int_of_str (m_note msg) _) as [x|s2] eqn:Ht; cbn [fst snd].
    + split; [reflexivity|]. intros r H. discriminate H.
    + apply take_app_id_own in Ht. destruct Ht as [Hown [_ [Hid Ham]]].
      split; [exact Hown|]. intros r H. injection H as <-. cbn [r_sender r_note r_type].
      split; [reflexivity|]. split; [reflexivity|]. split.
      * intros _. split; [reflexivity|]. split; [exact Hid|exact Ham].
      * intros Hn. now destruct Hn.
  - assert (Hne : t <> JStr "swap_propose").
    { intros Heq. rewrite Heq in Ep. simpl in Ep. discriminate Ep. }
    destruct (is_str t "swap_partial").
    + destruct (take_app_id int_of_str (m_note msg) _) as [x|s2] eqn:Ht; cbn [fst snd].
      * split; [reflexivity|]. intros r H. discriminate H.
      * apply take_app_id_own in Ht. destruct Ht as [Hown [_ [Hid Ham]]].
        split; [exact Hown|]. intros r H. injection H as <-.
        cbn [r_sender r_note r_type].
        split; [reflexivity|]. split; [reflexivity|]. split.
        -- intros Heq. now destruct Hne.
        -- intros _. split; [exact Hid|exact Ham].
    + cbn [fst snd]. split; [reflexivity|]. intros r H. injection H as <-.
      cbn [r_sender r_note r_type].
      split; [reflexivity|]. split; [reflexivity|]. split.
      * intros Heq. now destruct Hne.
      * intros _. now split.
Qed.

End SwapNoteFacts.

(** X26.  [wait_for_message] (atomic swap) never touches the session's
    own side: the role, both addresses, the session's asset and amount,
    the group id and the box name are as before.  The peer's asset and
    amount change on a [swap_propose] note only, and then they are what
    the note's [offer_asa] and [offer_amount] say (the earlier value
    where the note has no such key). *)
Theorem swap_wait_changes_peer_terms_only
    (int_of_str : string -> option Z) (loads_note : string -> option Py.JVal)
    (polls : list Channel.Indexer) (s : AtomicSwap.SwapState) :
  let run := AtomicSwap.tool_wait_for_message int_of_str loads_note polls s in
  SwapMore.own_side (fst run) = SwapMore.own_side s
  /\ forall r, snd run = inr (Channel.OkReply r) ->
       (Channel.r_type r = Py.JStr "swap_propose" ->
        AtomicSwap.status (fst run) = "propose_received"
        /\ AtomicSwap.peer_asa_id (fst run)
           = Py.get_default "offer_asa" (Channel.r_note r) (AtomicSwap.peer_asa_id s)
        /\ AtomicSwap.peer_asa_amount (fst run)
           = Py.get_default "offer_amount" (Channel.r_note r)
               (AtomicSwap.peer_asa_amount s))
       /\ (Channel.r_type r <> Py.JStr "swap_propose" ->
           AtomicSwap.peer_asa_id (fst run) = AtomicSwap.peer_asa_id s
           /\ AtomicSwap.peer_asa_amount (fst run) = AtomicSwap.peer_asa_amount s).
Proof.
  cbv zeta. unfold AtomicSwap.tool_wait_for_message.
  generalize (AtomicSwap.seen_txids s) as seen.
  induction polls as [|indexer later IH]; intros seen; simpl.
  - split; [reflexivity|]. intros r H. discriminate H.
  - destruct (Channel._poll_messages _ _ _ _ _ _) as [|msg rest]; [apply IH|].
    destruct (swap_receive_own int_of_str msg s) as [Hown Hr]. split; [exact Hown|].
    intros r H. destruct (Hr r H) as [_ [Hnote [Hp Hn]]]. rewrite Hnote. now split.
Qed.

Lemma swap_wait_changes_peer_terms_only_witness :
  let note := Py.JObj [("type", Py.JStr "swap_propose"); ("offer_asa", Py.JInt 31566704);
                       ("offer_amount", Py.JInt 5)] in
  let run := AtomicSwap.tool_wait_for_message Demo.int_of_str (Demo.loads_note [note])
               [Demo.indexer [Demo.note_txn "T9" 101 "BUYER" note]]
               DemoMore.swap_seller in
  AtomicSwap.status (fst run) = "propose_received"
  /\ AtomicSwap.peer_asa_id (fst run) = Py.JInt 31566704
  /\ AtomicSwap.peer_asa_amount (fst run) = Py.JInt 5.
Proof.
  cbv zeta.
  pose (note := Py.JObj [("type", Py.JStr "swap_propose");
                         ("offer_asa", Py.JInt 31566704); ("offer_amount", Py.JInt 5)]).
  refine (proj1 (proj2 (@swap_wait_changes_peer_terms_only Demo.int_of_str
                          (Demo.loads_note [note])
                          [Demo.indexer [Demo.note_txn "T9" 101 "BUYER" note]]
                          DemoMore.swap_seller)
                   {| Channel.r_type := Py.JStr "swap_propose";
                      Channel.r_note := [("type", Py.JStr "swap_propose");
                                         ("offer_asa", Py.JInt 31566704);
                                         ("offer_amount", Py.JInt 5)];
                      Channel.r_round := 101; Channel.r_sender := "BUYER" |} _) _).
  - vm_compute. reflexivity.
  - reflexivity.
Defined.

(** X27.  [write_box] and [delete_box] answer a transaction id only
    after the three steps succeeded in order: the signer signed the
    group (or the delete call), the ledger node accepted exactly the
    bytes the signer returned and answered this id, and the id was
    confirmed.  For [write_box] these are the last three calls, after
    the removal of a stale box. *)
Theorem box_txid_means_signed_sent_confirmed
    (compress : bytes -> bytes) (svc : Ledger.Services)
    (app_id : Z) (sender : string) (box_name data : bytes)
    (acl_addrs : option (list string)) (txid : string) :
  (snd (BoxExchange.write_box compress svc app_id sender box_name data acl_addrs)
   = inr txid ->
   let txns := BoxExchange.write_box_txns compress svc app_id sender box_name data
                 acl_addrs in
   let auth := map (fun _ => Some sender) txns in
   exists signed,
     Ledger.sign_transactions svc txns auth = inr signed
     /\ Ledger.send_raw_transaction svc signed = inr txid
     /\ Ledger.wait_for_confirmation svc txid = inr tt
     /\ fst (BoxExchange.write_box compress svc app_id sender box_name data acl_addrs)
        = (BoxExchange.delete_stale svc app_id sender box_name
           ++ [Ledger.SignTransactions txns auth; Ledger.SendRawTransaction signed;
               Ledger.WaitForConfirmation txid])%list)
  /\ (snd (BoxExchange.delete_box svc app_id sender box_name) = inr txid ->
      let txn := BoxExchange.delete_txn app_id sender box_name in
      exists signed,
        Ledger.sign_transaction svc txn None None = inr signed
        /\ Ledger.send_raw_transaction svc signed = inr txid
        /\ Ledger.wait_for_confirmation svc txid = inr tt
        /\ fst (BoxExchange.delete_box svc app_id sender box_name)
           = [Ledger.SignTransaction txn None None; Ledger.SendRawTransaction signed;
              Ledger.WaitForConfirmation txid]).
Proof.
  split.
  - unfold BoxExchange.write_box.
    destruct (Ledger.suggested_params svc) as [x|[]]; cbn [fst snd]; [discriminate|].
    destruct (Ledger.sign_transactions svc _ _) as [x|signed] eqn:Hs; cbn [fst snd];
      [discriminate|].
    destruct (Ledger.send_raw_transaction svc signed) as [x|t] eqn:Hr; cbn [fst snd];
      [discriminate|].
    destruct (Ledger.wait_for_confirmation svc t) as [x|[]] eqn:Hw; [discriminate|].
    intros H. injection H as ->. cbv zeta. exists signed. repeat split; assumption.
  - unfold BoxExchange.delete_box.
    destruct (Ledger.suggested_params svc) as [x|[]]; cbn [fst snd]; [discriminate|].
    unfold Ledger.sign_send_confirm.
    destruct (Ledger.sign_transaction svc _ None None) as [x|signed] eqn:Hs;
      cbn [fst snd]; [discriminate|].
    destruct (Ledger.send_raw_transaction svc signed) as [x|t] eqn:Hr; cbn [fst snd];
      [discriminate|].
    destruct (Ledger.wait_for_confirmation svc t) as [x|[]] eqn:Hw; [discriminate|].
    intros H. injection H as ->. cbv zeta. exists signed. repeat split; assumption.
Qed.

Lemma box_txid_means_signed_sent_confirmed_witness :
  exists signed,
    Ledger.sign_transaction Demo.svc
      (BoxExchange.delete_txn 7 "SELLER" (BoxExchange.b "box")) None None = inr signed
    /\ Ledger.send_raw_transaction Demo.svc signed = inr "TXID".
Proof.
  destruct (proj2 (@box_txid_means_signed_sent_confirmed ZlibRef.compress Demo.svc 7
                     "SELLER" (BoxExchange.b "box") [] None "TXID") eq_refl)
    as [signed [H1 [H2 _]]].
  exists signed. now split.
Defined.
